(** * ynab-sync: transaction synchronisation and deduplication

    A shallow embedding of the deduplication service
    ([backend/app/services/dedup.py]), the YNAB client's import-id
    generation ([backend/app/services/ynab_client.py]), the scheduled sync
    job ([backend/app/services/scheduler.py]) and the Akahu router
    ([backend/app/routers/akahu.py]), with the properties of the
    specification stated and settled against them; then the paging of the
    Akahu client ([backend/app/services/akahu_client.py]) and the import of
    parsed CSV files ([backend/app/routers/csv.py],
    [backend/app/services/csv_parser.py]), with further properties of all
    of these.

    Conventions.
    - A Python [str] is modelled by the bytes of its UTF-8 encoding, held in
      a Rocq [string]; [str.encode()] is then the identity on the bytes,
      and slicing by characters walks over UTF-8 lead bytes.  Text that
      cannot be encoded (a lone surrogate) has no counterpart here.
    - A Python [float] is a binary64 [float] (Rocq's primitive floats);
      [str] and [round] of a float are computed from its exact value.
    - [hashlib.sha256] is SHA-256 itself, so that fingerprints are the real
      digests.
    - [Optional[T]] is [option T]; a raised exception is the [Raise] branch
      of [result].
    - Database tables are lists of rows (insertion order) or finite maps on
      their unique key; a session separates what is committed from what is
      only assigned or added.
    - The network (Akahu, YNAB) and the clock are given from outside: a
      [World.t] holds the answers of the two services, and the [k]-th call
      of [datetime.utcnow()] in a session reads [now_at k]. *)

From Stdlib Require Import ZArith List String Ascii Bool Lia.
From Stdlib Require Import Floats.
From stdpp Require Import gmap strings list.
Import ListNotations.

Local Open Scope string_scope.
Local Open Scope Z_scope.

(** ** Python values *)

Module Py.

(** Exceptions: a built-in or library exception with its class name and
    [str(e)], or FastAPI's [HTTPException(status_code, detail)]. *)
Inductive exn : Type :=
| Exn (cls : string) (msg : string)
| HTTPException (status_code : Z) (detail : string).

(** [str(e)] *)
Definition str_exn (e : exn) : string :=
  match e with
  | Exn _ msg => msg
  | HTTPException c d => d
  end.

(** Outcome of a call that may raise. *)
Inductive result (A : Type) : Type :=
| Return (a : A)
| Raise (exc : exn).
Arguments Return {A} a.
Arguments Raise {A} exc.

Definition is_raise {A} (r : result A) : bool :=
  match r with Raise _ => true | Return _ => false end.

(** Truthiness of a [str]: empty is false. *)
Definition str_truthy (s : string) : bool :=
  match s with EmptyString => false | String _ _ => true end.

(** Truthiness of an [Optional[str]]: [None] and [''] are false. *)
Definition opt_truthy (o : option string) : bool :=
  match o with None => false | Some s => str_truthy s end.

(** [o or ''] for [o : Optional[str]]. *)
Definition or_empty (o : option string) : string :=
  match o with
  | Some s => if str_truthy s then s else ""
  | None => ""
  end.

(** A UTF-8 continuation byte is [10xxxxxx]. *)
Definition is_continuation (c : ascii) : bool :=
  let n := Z.of_N (N_of_ascii c) in (128 <=? n) && (n <? 192).

(** [s[:n]]: the first [n] characters.  Bytes are kept until the lead
    byte of character number [n] (counted from 0) is met. *)
Fixpoint str_prefix (n : nat) (s : string) : string :=
  match s with
  | EmptyString => EmptyString
  | String c rest =>
      if is_continuation c then String c (str_prefix n rest)
      else match n with
           | O => EmptyString
           | S n' => String c (str_prefix n' rest)
           end
  end.

(** Decimal digits of a non-negative integer, most significant first. *)
Fixpoint digits_fuel (fuel : nat) (n : Z) (acc : string) : string :=
  match fuel with
  | O => acc
  | S fuel' =>
      let acc' := String (ascii_of_N (Z.to_N (48 + n mod 10))) acc in
      if n <? 10 then acc' else digits_fuel fuel' (n / 10) acc'
  end.

Definition nat_digits (n : Z) : string :=
  digits_fuel (S (Z.to_nat (Z.log2 n))) n "".

(** [str(n)] for a Python [int]. *)
Definition str_int (n : Z) : string :=
  if n <? 0 then "-" ++ nat_digits (- n) else nat_digits n.

(** [f"{n:0{w}d}"] for [0 <= n]: decimal, left-padded with zeros to
    width [w]. *)
Fixpoint zeros (k : nat) : string :=
  match k with O => "" | S k' => String "0" (zeros k') end.

Definition zfill (w : nat) (s : string) : string :=
  zeros (w - String.length s) ++ s.

Definition pad_int (w : nat) (n : Z) : string := zfill w (nat_digits n).

End Py.

(** ** SHA-256 (FIPS 180-4), as [hashlib.sha256(b).hexdigest()] *)

Module Sha256.

Definition mask32 : Z := 4294967295.
Definition add32 (x y : Z) : Z := Z.land (x + y) mask32.
Definition rotr (n x : Z) : Z :=
  Z.lor (Z.shiftr x n) (Z.land (Z.shiftl x (32 - n)) mask32).
Definition shr (n x : Z) : Z := Z.shiftr x n.
Definition not32 (x : Z) : Z := Z.lxor x mask32.

Definition Ch (x y z : Z) : Z := Z.lxor (Z.land x y) (Z.land (not32 x) z).
Definition Maj (x y z : Z) : Z :=
  Z.lxor (Z.lxor (Z.land x y) (Z.land x z)) (Z.land y z).
Definition bsig0 (x : Z) : Z := Z.lxor (Z.lxor (rotr 2 x) (rotr 13 x)) (rotr 22 x).
Definition bsig1 (x : Z) : Z := Z.lxor (Z.lxor (rotr 6 x) (rotr 11 x)) (rotr 25 x).
Definition ssig0 (x : Z) : Z := Z.lxor (Z.lxor (rotr 7 x) (rotr 18 x)) (shr 3 x).
Definition ssig1 (x : Z) : Z := Z.lxor (Z.lxor (rotr 17 x) (rotr 19 x)) (shr 10 x).

(** Round constants: the first 32 bits of the fractional parts of the cube
    roots of the first 64 primes (written in decimal). *)
Definition Kt : list Z :=
  [ 1116352408; 1899447441; 3049323471; 3921009573; 961987163; 1508970993;
    2453635748; 2870763221; 3624381080; 310598401; 607225278; 1426881987;
    1925078388; 2162078206; 2614888103; 3248222580; 3835390401; 4022224774;
    264347078; 604807628; 770255983; 1249150122; 1555081692; 1996064986;
    2554220882; 2821834349; 2952996808; 3210313671; 3336571891; 3584528711;
    113926993; 338241895; 666307205; 773529912; 1294757372; 1396182291;
    1695183700; 1986661051; 2177026350; 2456956037; 2730485921; 2820302411;
    3259730800; 3345764771; 3516065817; 3600352804; 4094571909; 275423344;
    430227734; 506948616; 659060556; 883997877; 958139571; 1322822218;
    1537002063; 1747873779; 1955562222; 2024104815; 2227730452; 2361852424;
    2428436474; 2756734187; 3204031479; 3329325298 ].

(** The eight working words. *)
Record state : Type := State {
  wa : Z; wb : Z; wc : Z; wd : Z; we : Z; wf : Z; wg : Z; wh : Z
}.

(** Initial hash value: square roots of the first 8 primes. *)
Definition init : state :=
  State 1779033703 3144134277 1013904242 2773480762
        1359893119 2600822924 528734635 1541459225.

(** Message schedule, newest word first: from [W(t-1) :: ... :: W(t-16) :: _]
    compute [W(t)], [n] times. *)
Fixpoint schedule (n : nat) (rw : list Z) : list Z :=
  match n with
  | O => rw
  | S n' =>
      let w := add32 (add32 (ssig1 (nth 1 rw 0)) (nth 6 rw 0))
                     (add32 (ssig0 (nth 14 rw 0)) (nth 15 rw 0)) in
      schedule n' (w :: rw)
  end.

Definition round (s : state) (kw : Z * Z) : state :=
  let t1 := add32 (add32 (add32 (wh s) (bsig1 (we s)))
                         (add32 (Ch (we s) (wf s) (wg s)) (fst kw))) (snd kw) in
  let t2 := add32 (bsig0 (wa s)) (Maj (wa s) (wb s) (wc s)) in
  State (add32 t1 t2) (wa s) (wb s) (wc s) (add32 (wd s) t1) (we s) (wf s) (wg s).

(** One 512-bit block, given as sixteen 32-bit words. *)
Definition compress (s : state) (block : list Z) : state :=
  let w := rev (schedule 48 (rev block)) in
  let r := fold_left round (combine Kt w) s in
  State (add32 (wa s) (wa r)) (add32 (wb s) (wb r))
        (add32 (wc s) (wc r)) (add32 (wd s) (wd r))
        (add32 (we s) (we r)) (add32 (wf s) (wf r))
        (add32 (wg s) (wg r)) (add32 (wh s) (wh r)).

(** Big-endian bytes of [x], [n] of them. *)
Fixpoint be_bytes (n : nat) (x : Z) : list Z :=
  match n with
  | O => []
  | S n' => Z.land (Z.shiftr x (8 * Z.of_nat n')) 255 :: be_bytes n' x
  end.

(** Padding: a [1] bit, zeros, and the bit length on 64 bits. *)
Definition pad (msg : list Z) : list Z :=
  let len := Z.of_nat (length msg) in
  msg ++ 128 :: repeat 0 (Z.to_nat ((55 - len) mod 64)) ++ be_bytes 8 (8 * len).

Fixpoint words (n : nat) (bs : list Z) : list Z :=
  match n, bs with
  | S n', b0 :: b1 :: b2 :: b3 :: rest =>
      (b0 * 16777216 + b1 * 65536 + b2 * 256 + b3) :: words n' rest
  | _, _ => []
  end.

Fixpoint blocks (n : nat) (ws : list Z) : list (list Z) :=
  match n with
  | O => []
  | S n' => firstn 16 ws :: blocks n' (skipn 16 ws)
  end.

Definition digest (msg : list Z) : state :=
  let p := pad msg in
  let ws := words (length p / 4) p in
  fold_left compress (blocks (length ws / 16) ws) init.

Definition hexchars : list ascii :=
  ["0"; "1"; "2"; "3"; "4"; "5"; "6"; "7"; "8"; "9";
   "a"; "b"; "c"; "d"; "e"; "f"]%char.

Definition hexdigit (n : Z) : ascii :=
  nth (Z.to_nat (Z.land n 15)) hexchars "0"%char.

Definition hex8 (w : Z) (tail : string) : string :=
  String (hexdigit (Z.shiftr w 28)) (String (hexdigit (Z.shiftr w 24))
  (String (hexdigit (Z.shiftr w 20)) (String (hexdigit (Z.shiftr w 16))
  (String (hexdigit (Z.shiftr w 12)) (String (hexdigit (Z.shiftr w 8))
  (String (hexdigit (Z.shiftr w 4)) (String (hexdigit w) tail))))))).

Definition hex_of_state (s : state) : string :=
  hex8 (wa s) (hex8 (wb s) (hex8 (wc s) (hex8 (wd s)
  (hex8 (we s) (hex8 (wf s) (hex8 (wg s) (hex8 (wh s) ""))))))).

Definition bytes_of_string (s : string) : list Z :=
  map (fun c => Z.of_N (N_of_ascii c)) (list_ascii_of_string s).

(** [hashlib.sha256(s.encode()).hexdigest()] *)
Definition hexdigest (s : string) : string :=
  hex_of_state (digest (bytes_of_string s)).

End Sha256.

(** ** Python floats: [str(x)] and [round(x)] *)

Module PyFloat.

(** A finite non-zero binary64 with mantissa [m] and exponent [e] has the
    exact value [m * 2^e].  All quantities below are numerators over the
    common denominator [den]: the value [num], and the ends [lo] and [hi]
    of the interval of reals that round to this float; the ends belong to
    the interval when the mantissa is even. *)
Record bounds : Type := Bounds {
  num : Z; den : Z; lo : Z; hi : Z; closed : bool
}.

Definition bounds_of (m : positive) (e : Z) : bounds :=
  let sh := Z.max 0 (- e) in
  let up := 2 ^ (e + sh) in
  let x := 4 * Z.pos m * up in
  let below :=
    if (Z.pos m =? 2 ^ 52) && (-1074 <? e) then up else 2 * up in
  Bounds x (4 * 2 ^ sh) (x - below) (x + 2 * up) (Z.even (Z.pos m)).

(** The decimal exponent [k] with [10^(k-1) <= num/den < 10^k], searched
    upwards from [k]. *)
Fixpoint decpt_from (fuel : nat) (b : bounds) (k : Z) : Z :=
  match fuel with
  | O => k
  | S fuel' =>
      let fits :=
        if 0 <=? k then num b <? den b * 10 ^ k
        else num b * 10 ^ (- k) <? den b in
      if fits then k else decpt_from fuel' b (k + 1)
  end.

Definition decpt_of (b : bounds) : Z :=
  decpt_from 8 b (((Z.log2 (num b) - Z.log2 (den b) - 1) * 30103) / 100000 - 1).

(** The shortest digit string that reads back as the float: for
    [n = 1, 2, ...] digits, the two [n]-digit decimals around the value are
    tried; the first [n] at which one of them lies in the rounding
    interval wins, the nearer one when both do.  Returns the digits as an
    integer, and the power of ten it is scaled by. *)
Fixpoint shortest_from (fuel : nat) (b : bounds) (k : Z) (n : Z) : Z * Z :=
  let p := k - n in
  let s := 10 ^ Z.max 0 (- p) in
  let t := 10 ^ Z.max 0 p in
  let unit := t * den b in
  let low := (num b * s) / unit in
  let l := low * unit in
  let h := l + unit in
  let low_ok := (lo b * s <? l) || (closed b && (lo b * s =? l)) in
  match fuel with
  | O => (low, p)
  | S fuel' =>
      if closed b && (h =? hi b * s) then
        if low_ok then (low, p) else (low + 1, p)
      else if low_ok then
        if h <? hi b * s then
          let twice := 2 * (num b * s - l) in
          if (unit <? twice) || ((unit =? twice) && Z.odd low)
          then (low + 1, p) else (low, p)
        else (low, p)
      else if h <? hi b * s then (low + 1, p)
      else shortest_from fuel' b k (n + 1)
  end.

(** Digits [d1 d2 ... dn] and [decpt] with value [0.d1...dn * 10^decpt]. *)
Definition shortest (m : positive) (e : Z) : string * Z :=
  let b := bounds_of m e in
  let k := decpt_of b in
  let '(d, p) := shortest_from 17 b k 1 in
  let ds := Py.nat_digits d in
  let len := Z.of_nat (String.length ds) in
  if d =? 10 ^ (len - 1) then ("1", p + len) else (ds, p + len).

(** Layout chosen by [repr]: exponent notation when [decpt <= -4] or
    [decpt > 16], else positional notation with at least one digit after
    the point. *)
Definition layout (ds : string) (decpt : Z) : string :=
  let n := Z.of_nat (String.length ds) in
  if (decpt <=? -4) || (16 <? decpt) then
    let ex := decpt - 1 in
    let mant :=
      match ds with
      | String c EmptyString => ds
      | String c rest => String c ("." ++ rest)
      | EmptyString => ds
      end in
    mant ++ (if ex <? 0 then "e-" else "e+") ++ Py.pad_int 2 (Z.abs ex)
  else if decpt <=? 0 then
    "0." ++ Py.zeros (Z.to_nat (- decpt)) ++ ds
  else if decpt <? n then
    substring 0 (Z.to_nat decpt) ds ++ "." ++
    substring (Z.to_nat decpt) (Z.to_nat (n - decpt)) ds
  else
    ds ++ Py.zeros (Z.to_nat (decpt - n)) ++ ".0".

(** [str(x)], which is also [format(x, '')] and [repr(x)]. *)
Definition str (x : float) : string :=
  match Prim2SF x with
  | S754_nan => "nan"
  | S754_infinity s => if s then "-inf" else "inf"
  | S754_zero s => if s then "-0.0" else "0.0"
  | S754_finite s m e =>
      let '(ds, decpt) := shortest m e in
      (if s then "-" else "") ++ layout ds decpt
  end.

(** [round(x)] with one argument: the nearest integer, ties to the even
    one; infinities and NaN raise. *)
Definition round (x : float) : Py.result Z :=
  match Prim2SF x with
  | S754_nan =>
      Py.Raise (Py.Exn "ValueError" "cannot convert float NaN to integer")
  | S754_infinity _ =>
      Py.Raise (Py.Exn "OverflowError" "cannot convert float infinity to integer")
  | S754_zero _ => Py.Return 0
  | S754_finite s m e =>
      let mag :=
        if 0 <=? e then Z.pos m * 2 ^ e
        else
          let d := 2 ^ (- e) in
          let q := Z.pos m / d in
          let r := 2 * (Z.pos m mod d) in
          if (d <? r) || ((d =? r) && Z.odd q) then q + 1 else q in
      Py.Return (if s then - mag else mag)
  end.

End PyFloat.

(** ** [datetime.datetime] and [datetime.date] values and [isoformat()] *)

Module PyDatetime.

Record date : Type := Date { d_year : Z; d_month : Z; d_day : Z }.

(** A [datetime]; [utcoffset] is [None] for a naive value and the offset
    from UTC in microseconds for an aware one. *)
Record datetime : Type := Datetime {
  year : Z; month : Z; day : Z;
  hour : Z; minute : Z; second : Z; microsecond : Z;
  utcoffset : option Z
}.

(** [dt.date()] *)
Definition date_of (dt : datetime) : date :=
  Date (year dt) (month dt) (day dt).

(** [date.isoformat()]: [YYYY-MM-DD]. *)
Definition date_isoformat (d : date) : string :=
  Py.pad_int 4 (d_year d) ++ "-" ++ Py.pad_int 2 (d_month d) ++ "-" ++
  Py.pad_int 2 (d_day d).

(** The UTC offset as [+HH:MM], with [:SS] and [.ffffff] when they are not
    zero. *)
Definition format_offset (off : option Z) : string :=
  match off with
  | None => ""
  | Some o =>
      let a := Z.abs o in
      let hh := a / 3600000000 in
      let mm := (a mod 3600000000) / 60000000 in
      let ss := a mod 60000000 in
      (if o <? 0 then "-" else "+") ++ Py.pad_int 2 hh ++ ":" ++ Py.pad_int 2 mm ++
      (if ss =? 0 then ""
       else ":" ++ Py.pad_int 2 (ss / 1000000) ++
            (if ss mod 1000000 =? 0 then ""
             else "." ++ Py.pad_int 6 (ss mod 1000000)))
  end.

(** [datetime.isoformat()]: [YYYY-MM-DDTHH:MM:SS[.ffffff][+HH:MM]]. *)
Definition isoformat (dt : datetime) : string :=
  date_isoformat (date_of dt) ++ "T" ++
  Py.pad_int 2 (hour dt) ++ ":" ++ Py.pad_int 2 (minute dt) ++ ":" ++
  Py.pad_int 2 (second dt) ++
  (if microsecond dt =? 0 then "" else "." ++ Py.pad_int 6 (microsecond dt)) ++
  format_offset (utcoffset dt).

(** Timestamps of the scheduler ([datetime.utcnow()], [next_sync_at], ...)
    are naive UTC datetimes; they are counted in microseconds since
    [datetime.min], so that adding a [timedelta] is integer addition. *)
Definition timestamp : Type := Z.

(** [timedelta(hours=h)] *)
Definition timedelta_hours (h : Z) : Z := h * 3600000000.

End PyDatetime.

(** ** Schemas ([schemas/akahu.py], [schemas/transaction.py],
       [schemas/ynab.py]) *)

Module AkahuTransaction.
Record t : Type := mk {
  id : string;
  account_id : string;
  date : PyDatetime.datetime;
  amount : float;
  description : string;
  merchant : option string;
  category : option string
}.
End AkahuTransaction.

Module TransactionCreate.
Record t : Type := mk {
  date : PyDatetime.datetime;
  amount : float;
  payee : option string;
  memo : option string;
  source : string;
  source_account : option string;
  source_transaction_id : option string
}.
End TransactionCreate.


Module TransactionPreview.
(** [raw_data], the CSV row a preview was read from, is carried along
    untouched and left out. *)
Record t : Type := mk {
  date : PyDatetime.datetime;
  amount : float;
  payee : option string;
  memo : option string;
  is_duplicate : bool;
  transaction_hash : string
}.

Definition set_is_duplicate (v : bool) (p : t) : t :=
  mk (date p) (amount p) (payee p) (memo p) v (transaction_hash p).
End TransactionPreview.

Module AkahuAccountLink.
Record t : Type := mk {
  akahu_account_id : string;
  ynab_budget_id : string;
  ynab_account_id : string;
  auto_sync : bool
}.
End AkahuAccountLink.

Module AkahuAccountResponse.
(** The fields that the provider fills; the link and schedule fields of
    the response model are not read by the code embedded here. *)
Record t : Type := mk {
  id : string;
  name : string;
  type : string;
  institution : string;
  balance : option float
}.
End AkahuAccountResponse.

Module ScheduleConfig.
Record t : Type := mk {
  enabled : bool;
  interval_hours : Z;
  days_to_sync : Z
}.

(** The field constraints [ge=1, le=24] and [ge=1, le=90] of the request
    model; a request that violates them never reaches the handler. *)
Definition valid (c : t) : bool :=
  (1 <=? interval_hours c) && (interval_hours c <=? 24) &&
  (1 <=? days_to_sync c) && (days_to_sync c <=? 90).
End ScheduleConfig.

Module YNABImportResult.
Record t : Type := mk {
  transaction_ids : list string;
  duplicate_import_ids : list string
}.
End YNABImportResult.

(** ** Tables ([models/database.py]).  The surrogate [id] and the
    [created_at] defaults are left out; rows are kept in insertion order. *)

Module ImportedTransaction.
Record t : Type := mk {
  transaction_hash : string;   (* unique *)
  date : PyDatetime.datetime;
  amount : float;
  payee : option string;
  memo : option string;
  source : string;
  source_account : option string;
  source_transaction_id : option string;
  ynab_budget_id : option string;
  ynab_account_id : option string;
  ynab_transaction_id : option string;
  imported_at : PyDatetime.timestamp
}.
End ImportedTransaction.

Module AkahuAccount.
Record t : Type := mk {
  akahu_account_id : string;   (* unique *)
  account_name : option string;
  account_type : option string;
  institution : option string;
  ynab_budget_id : option string;
  ynab_account_id : option string;
  auto_sync : bool;
  last_synced_at : option PyDatetime.timestamp;
  schedule_enabled : bool;
  schedule_interval_hours : Z;
  schedule_days_to_sync : Z;
  next_sync_at : option PyDatetime.timestamp;
  last_sync_status : option string;
  last_sync_message : option string;
  last_sync_imported : Z;
  updated_at : option PyDatetime.timestamp
}.

Definition set_last_synced_at v (a : t) : t :=
  mk (akahu_account_id a) (account_name a) (account_type a) (institution a)
     (ynab_budget_id a) (ynab_account_id a) (auto_sync a) v
     (schedule_enabled a) (schedule_interval_hours a) (schedule_days_to_sync a)
     (next_sync_at a) (last_sync_status a) (last_sync_message a)
     (last_sync_imported a) (updated_at a).

Definition set_schedule (en : bool) (hours days : Z) (a : t) : t :=
  mk (akahu_account_id a) (account_name a) (account_type a) (institution a)
     (ynab_budget_id a) (ynab_account_id a) (auto_sync a) (last_synced_at a)
     en hours days
     (next_sync_at a) (last_sync_status a) (last_sync_message a)
     (last_sync_imported a) (updated_at a).

Definition set_next_sync_at v (a : t) : t :=
  mk (akahu_account_id a) (account_name a) (account_type a) (institution a)
     (ynab_budget_id a) (ynab_account_id a) (auto_sync a) (last_synced_at a)
     (schedule_enabled a) (schedule_interval_hours a) (schedule_days_to_sync a)
     v (last_sync_status a) (last_sync_message a)
     (last_sync_imported a) (updated_at a).

Definition set_last_sync_status v (a : t) : t :=
  mk (akahu_account_id a) (account_name a) (account_type a) (institution a)
     (ynab_budget_id a) (ynab_account_id a) (auto_sync a) (last_synced_at a)
     (schedule_enabled a) (schedule_interval_hours a) (schedule_days_to_sync a)
     (next_sync_at a) v (last_sync_message a)
     (last_sync_imported a) (updated_at a).

Definition set_last_sync_message v (a : t) : t :=
  mk (akahu_account_id a) (account_name a) (account_type a) (institution a)
     (ynab_budget_id a) (ynab_account_id a) (auto_sync a) (last_synced_at a)
     (schedule_enabled a) (schedule_interval_hours a) (schedule_days_to_sync a)
     (next_sync_at a) (last_sync_status a) v
     (last_sync_imported a) (updated_at a).

Definition set_last_sync_imported v (a : t) : t :=
  mk (akahu_account_id a) (account_name a) (account_type a) (institution a)
     (ynab_budget_id a) (ynab_account_id a) (auto_sync a) (last_synced_at a)
     (schedule_enabled a) (schedule_interval_hours a) (schedule_days_to_sync a)
     (next_sync_at a) (last_sync_status a) (last_sync_message a)
     v (updated_at a).

Definition set_updated_at v (a : t) : t :=
  mk (akahu_account_id a) (account_name a) (account_type a) (institution a)
     (ynab_budget_id a) (ynab_account_id a) (auto_sync a) (last_synced_at a)
     (schedule_enabled a) (schedule_interval_hours a) (schedule_days_to_sync a)
     (next_sync_at a) (last_sync_status a) (last_sync_message a)
     (last_sync_imported a) v.

(** The three assignments of [link_akahu_to_ynab] to an existing row. *)
Definition set_link (budget_id account_id : option string) (auto : bool) (a : t) : t :=
  mk (akahu_account_id a) (account_name a) (account_type a) (institution a)
     budget_id account_id auto (last_synced_at a)
     (schedule_enabled a) (schedule_interval_hours a) (schedule_days_to_sync a)
     (next_sync_at a) (last_sync_status a) (last_sync_message a)
     (last_sync_imported a) (updated_at a).

Definition set_schedule_enabled (v : bool) (a : t) : t :=
  mk (akahu_account_id a) (account_name a) (account_type a) (institution a)
     (ynab_budget_id a) (ynab_account_id a) (auto_sync a) (last_synced_at a)
     v (schedule_interval_hours a) (schedule_days_to_sync a)
     (next_sync_at a) (last_sync_status a) (last_sync_message a)
     (last_sync_imported a) (updated_at a).

End AkahuAccount.

Module SyncLog.
Record t : Type := mk {
  akahu_account_id : string;
  started_at : PyDatetime.timestamp;
  completed_at : option PyDatetime.timestamp;
  status : string;
  transactions_found : Z;
  transactions_imported : Z;
  transactions_skipped : Z;
  ynab_duplicates : Z;
  error_message : option string;
  trigger : string
}.

Definition set_status v (l : t) : t :=
  mk (akahu_account_id l) (started_at l) (completed_at l) v
     (transactions_found l) (transactions_imported l) (transactions_skipped l)
     (ynab_duplicates l) (error_message l) (trigger l).

Definition set_completed_at v (l : t) : t :=
  mk (akahu_account_id l) (started_at l) v (status l)
     (transactions_found l) (transactions_imported l) (transactions_skipped l)
     (ynab_duplicates l) (error_message l) (trigger l).

Definition set_error_message v (l : t) : t :=
  mk (akahu_account_id l) (started_at l) (completed_at l) (status l)
     (transactions_found l) (transactions_imported l) (transactions_skipped l)
     (ynab_duplicates l) v (trigger l).

Definition set_transactions_found v (l : t) : t :=
  mk (akahu_account_id l) (started_at l) (completed_at l) (status l)
     v (transactions_imported l) (transactions_skipped l)
     (ynab_duplicates l) (error_message l) (trigger l).

Definition set_transactions_imported v (l : t) : t :=
  mk (akahu_account_id l) (started_at l) (completed_at l) (status l)
     (transactions_found l) v (transactions_skipped l)
     (ynab_duplicates l) (error_message l) (trigger l).

Definition set_transactions_skipped v (l : t) : t :=
  mk (akahu_account_id l) (started_at l) (completed_at l) (status l)
     (transactions_found l) (transactions_imported l) v
     (ynab_duplicates l) (error_message l) (trigger l).

Definition set_ynab_duplicates v (l : t) : t :=
  mk (akahu_account_id l) (started_at l) (completed_at l) (status l)
     (transactions_found l) (transactions_imported l) (transactions_skipped l)
     v (error_message l) (trigger l).
End SyncLog.

(** ** The database and the SQLAlchemy session *)

Module Db.

Record Database : Type := mkDatabase {
  imported_transactions : list ImportedTransaction.t;
  akahu_accounts : gmap string AkahuAccount.t;   (* keyed by akahu_account_id *)
  sync_logs : list SyncLog.t
}.

Definition empty : Database := mkDatabase [] ∅ [].

(** A session: the committed database, the session's own view of it
    (attribute assignments and deletions not yet committed), the
    [ImportedTransaction] objects added and not yet flushed, whether a
    flush has failed (the session then refuses work until [rollback()],
    which this code never calls), and the clock: [now_at k] is what the
    [k]-th call of [datetime.utcnow()] returns. *)
Record Session : Type := mkSession {
  committed : Database;
  view : Database;
  pending : list ImportedTransaction.t;
  inactive : bool;
  now_at : nat -> PyDatetime.timestamp;
  ticks : nat
}.

Definition open_session (db : Database) (clock : nat -> PyDatetime.timestamp)
  : Session :=
  mkSession db db [] false clock 0.

(** Computations in a session that may raise. *)
Definition M (A : Type) : Type := Session -> Py.result A * Session.

Definition ret {A} (a : A) : M A := fun s => (Py.Return a, s).

Definition bind {A B} (c : M A) (k : A -> M B) : M B :=
  fun s =>
    match c s with
    | (Py.Return a, s') => k a s'
    | (Py.Raise e, s') => (Py.Raise e, s')
    end.

Definition raise {A} (e : Py.exn) : M A := fun s => (Py.Raise e, s).

(** [try: c except Exception as e: h e] *)
Definition try_except {A} (c : M A) (h : Py.exn -> M A) : M A :=
  fun s =>
    match c s with
    | (Py.Return a, s') => (Py.Return a, s')
    | (Py.Raise e, s') => h e s'
    end.

(** An outcome decided outside the session (a network call). *)
Definition lift {A} (r : Py.result A) : M A := fun s => (r, s).

Definition set_view (f : Database -> Database) : M unit :=
  fun s =>
    (Py.Return tt,
     mkSession (committed s) (f (view s)) (pending s) (inactive s)
               (now_at s) (ticks s)).

(** [datetime.utcnow()] *)
Definition utcnow : M PyDatetime.timestamp :=
  fun s =>
    (Py.Return (now_at s (ticks s)),
     mkSession (committed s) (view s) (pending s) (inactive s)
               (now_at s) (S (ticks s))).

(** [session.add(imported)] *)
Definition add_imported (row : ImportedTransaction.t) : M unit :=
  fun s =>
    (Py.Return tt,
     mkSession (committed s) (view s) (pending s ++ [row]) (inactive s)
               (now_at s) (ticks s)).

Definition hashes (rows : list ImportedTransaction.t) : list string :=
  map ImportedTransaction.transaction_hash rows.

(** Flushing the added rows, one INSERT after the other: a row whose
    [transaction_hash] is already in the table violates the unique index. *)
Fixpoint flush (table new : list ImportedTransaction.t)
  : option (list ImportedTransaction.t) :=
  match new with
  | [] => Some table
  | r :: rest =>
      if bool_decide (ImportedTransaction.transaction_hash r ∈ hashes table)
      then None
      else flush (table ++ [r]) rest
  end.

Definition IntegrityError : Py.exn :=
  Py.Exn "IntegrityError"
         "UNIQUE constraint failed: imported_transactions.transaction_hash".

Definition PendingRollbackError : Py.exn :=
  Py.Exn "PendingRollbackError"
         "This Session's transaction has been rolled back due to a previous exception during flush.".

(** [session.commit()]: everything is written, or, when the unique index
    is violated, nothing is and [IntegrityError] is raised: the transaction
    is rolled back, the database stays as last committed, and the session
    is left inactive. *)
Definition commit : M unit :=
  fun s =>
    if inactive s then (Py.Raise PendingRollbackError, s)
    else
      match flush (imported_transactions (view s)) (pending s) with
      | Some table =>
          let db :=
            mkDatabase table (akahu_accounts (view s)) (sync_logs (view s)) in
          (Py.Return tt, mkSession db db [] false (now_at s) (ticks s))
      | None =>
          (Py.Raise IntegrityError,
           mkSession (committed s) (committed s) [] true (now_at s) (ticks s))
      end.

(** [select(ImportedTransaction.transaction_hash)], [fetchall()] *)
Definition select_hashes : M (list string) :=
  fun s => (Py.Return (hashes (imported_transactions (view s))), s).

(** [select(AkahuAccount).where(akahu_account_id == k)], [scalar_one_or_none()] *)
Definition get_account (k : string) : M (option AkahuAccount.t) :=
  fun s => (Py.Return (akahu_accounts (view s) !! k), s).

(** Assignments to the attributes of a loaded [AkahuAccount]. *)
Definition update_account (k : string) (f : AkahuAccount.t -> AkahuAccount.t)
  : M unit :=
  set_view (fun db =>
    mkDatabase (imported_transactions db) (alter f k (akahu_accounts db))
               (sync_logs db)).

(** [session.delete(account)] *)
Definition delete_account (k : string) : M unit :=
  set_view (fun db =>
    mkDatabase (imported_transactions db) (delete k (akahu_accounts db))
               (sync_logs db)).

(** [session.add(sync_log)]; the result is the position of the row. *)
Definition add_sync_log (l : SyncLog.t) : M nat :=
  fun s =>
    let db := view s in
    (Py.Return (length (sync_logs db)),
     mkSession (committed s)
       (mkDatabase (imported_transactions db) (akahu_accounts db)
                   (sync_logs db ++ [l]))
       (pending s) (inactive s) (now_at s) (ticks s)).

(** Assignments to the attributes of the [SyncLog] at position [i]. *)
Definition update_sync_log (i : nat) (f : SyncLog.t -> SyncLog.t) : M unit :=
  set_view (fun db =>
    mkDatabase (imported_transactions db) (akahu_accounts db)
               (alter f i (sync_logs db))).


(** [session.add(new_link)] for an [AkahuAccount]. *)
Definition add_account (row : AkahuAccount.t) : M unit :=
  set_view (fun db =>
    mkDatabase (imported_transactions db)
               (<[AkahuAccount.akahu_account_id row := row]> (akahu_accounts db))
               (sync_logs db)).

Definition MultipleResultsFound : Py.exn :=
  Py.Exn "MultipleResultsFound"
         "Multiple rows were found when one or none was required".

(** [select(ImportedTransaction).where(transaction_hash == h)] followed by
    [scalar_one_or_none()]: the row, nothing, or an error when several rows
    match. *)
Definition select_by_hash (h : string) : M (option ImportedTransaction.t) :=
  fun s =>
    match filter (fun r => ImportedTransaction.transaction_hash r = h)
                 (imported_transactions (view s)) with
    | [] => (Py.Return None, s)
    | [r] => (Py.Return (Some r), s)
    | _ => (Py.Raise MultipleResultsFound, s)
    end.

(** All rows of [imported_transactions], as the session sees them. *)
Definition select_imported : M (list ImportedTransaction.t) :=
  fun s => (Py.Return (imported_transactions (view s)), s).

End Db.

Notation "x <- c ;; k" := (Db.bind c (fun x => k))
  (at level 100, c at next level, right associativity).
Notation "c ;;; k" := (Db.bind c (fun _ => k))
  (at level 100, right associativity).

(** ** [services/dedup.py]: [DeduplicationService] *)

Module DeduplicationService.

(** [f"{date.isoformat()}:{amount}:{payee or ''}:{memo or ''}"] *)
Definition hash_input (date : PyDatetime.datetime) (amount : float)
    (payee memo : option string) : string :=
  PyDatetime.isoformat date ++ ":" ++ PyFloat.str amount ++ ":" ++
  Py.or_empty payee ++ ":" ++ Py.or_empty memo.

(** [hashlib.sha256(hash_input.encode()).hexdigest()[:32]] *)
Definition generate_hash (date : PyDatetime.datetime) (amount : float)
    (payee memo : option string) : string :=
  Py.str_prefix 32 (Sha256.hexdigest (hash_input date amount payee memo)).

(** The set of all [transaction_hash] values of the table. *)
Definition get_existing_hashes : Db.M (gset string) :=
  rows <- Db.select_hashes ;;
  Db.ret (list_to_set rows).

(** The body of the loop of [record_imports_batch]: one
    [ImportedTransaction] is built and added per pair of the [zip]. *)
Fixpoint add_rows (pairs : list (TransactionCreate.t * option string))
    (ynab_budget_id ynab_account_id : option string) : Db.M unit :=
  match pairs with
  | [] => Db.ret tt
  | (tx, ynab_id) :: rest =>
      let tx_hash :=
        generate_hash (TransactionCreate.date tx) (TransactionCreate.amount tx)
                      (TransactionCreate.payee tx) (TransactionCreate.memo tx) in
      now <- Db.utcnow ;;
      Db.add_imported
        (ImportedTransaction.mk tx_hash
           (TransactionCreate.date tx) (TransactionCreate.amount tx)
           (TransactionCreate.payee tx) (TransactionCreate.memo tx)
           (TransactionCreate.source tx) (TransactionCreate.source_account tx)
           (TransactionCreate.source_transaction_id tx)
           ynab_budget_id ynab_account_id ynab_id now) ;;;
      add_rows rest ynab_budget_id ynab_account_id
  end.

(** [ynab_transaction_ids or [None] * len(transactions)]: an absent or
    empty list is replaced, any other list is used as it is. *)
Definition ynab_ids_or_none (ynab_transaction_ids : option (list (option string)))
    (n : nat) : list (option string) :=
  match ynab_transaction_ids with
  | Some (i :: ids) => i :: ids
  | _ => repeat None n
  end.

Definition record_imports_batch (transactions : list TransactionCreate.t)
    (ynab_budget_id ynab_account_id : option string)
    (ynab_transaction_ids : option (list (option string))) : Db.M Z :=
  match transactions with
  | [] => Db.ret 0
  | _ =>
      let ynab_ids := ynab_ids_or_none ynab_transaction_ids (length transactions) in
      add_rows (combine transactions ynab_ids) ynab_budget_id ynab_account_id ;;;
      Db.commit ;;;
      Db.ret (Z.of_nat (length transactions))
  end.


(** Every preview gets [is_duplicate = transaction_hash in existing_hashes];
    the list itself is returned. *)
Definition check_duplicates (transactions : list TransactionPreview.t)
  : Db.M (list TransactionPreview.t) :=
  existing_hashes <- get_existing_hashes ;;
  Db.ret (map (fun tx =>
                 TransactionPreview.set_is_duplicate
                   (bool_decide (TransactionPreview.transaction_hash tx
                                 ∈ existing_hashes)) tx)
              transactions).

Definition is_duplicate (transaction_hash : string) : Db.M bool :=
  row <- Db.select_by_hash transaction_hash ;;
  Db.ret (match row with Some _ => true | None => false end).

(** One import is recorded under the hash that the caller passes; the
    [refresh] after the commit reads back the row just written. *)
Definition record_import (transaction : TransactionCreate.t)
    (transaction_hash : string) (ynab_budget_id ynab_account_id : string)
    (ynab_transaction_id : option string) : Db.M ImportedTransaction.t :=
  now <- Db.utcnow ;;
  let imported :=
    ImportedTransaction.mk transaction_hash
      (TransactionCreate.date transaction) (TransactionCreate.amount transaction)
      (TransactionCreate.payee transaction) (TransactionCreate.memo transaction)
      (TransactionCreate.source transaction)
      (TransactionCreate.source_account transaction)
      (TransactionCreate.source_transaction_id transaction)
      (Some ynab_budget_id) (Some ynab_account_id) ynab_transaction_id now in
  Db.add_imported imported ;;;
  Db.commit ;;;
  Db.ret imported.

(** The dict built from [SELECT source, count(id) ... GROUP BY source]. *)
Fixpoint count_by_source (rows : list ImportedTransaction.t) : gmap string Z :=
  match rows with
  | [] => ∅
  | r :: rest =>
      let m := count_by_source rest in
      <[ImportedTransaction.source r :=
          default 0 (m !! ImportedTransaction.source r) + 1]> m
  end.

Record import_stats : Type := ImportStats {
  total_imported : Z;
  by_source : gmap string Z
}.

Definition get_import_stats : Db.M import_stats :=
  rows <- Db.select_imported ;;
  Db.ret (ImportStats (Z.of_nat (length rows)) (count_by_source rows)).

End DeduplicationService.

(** ** [services/csv_parser.py]: the fingerprint of the file-upload path *)

Module CSVParser.

Definition generate_transaction_hash (date : PyDatetime.datetime)
    (amount : float) (payee memo : option string) : string :=
  let hash_input :=
    PyDatetime.isoformat date ++ ":" ++ PyFloat.str amount ++ ":" ++
    Py.or_empty payee ++ ":" ++ Py.or_empty memo in
  Py.str_prefix 32 (Sha256.hexdigest hash_input).


(** The previews that are not duplicates, as transactions to import. *)
Definition to_transaction_creates (previews : list TransactionPreview.t)
    (source_account : option string) : list TransactionCreate.t :=
  map (fun p =>
         TransactionCreate.mk (TransactionPreview.date p)
           (TransactionPreview.amount p) (TransactionPreview.payee p)
           (TransactionPreview.memo p) "csv" source_account None)
      (filter (fun p => TransactionPreview.is_duplicate p = false) previews).

End CSVParser.

(** ** [services/ynab_client.py]: [YNABClient] *)

Module YNABClient.

(** The value under ['date'] of a transaction dict: a [datetime], a [str]
    or a [date]. *)
Inductive date_value : Type :=
| OfDatetime (dt : PyDatetime.datetime)
| OfStr (s : string)
| OfDate (d : PyDatetime.date).

(** A transaction dict with the keys [date], [amount], [payee], [memo]. *)
Record tx_dict : Type := TxDict {
  date : date_value;
  amount : float;
  payee : option string;
  memo : option string
}.

(** A transaction in the format of the YNAB API. *)
Record ynab_tx : Type := YnabTx {
  account_id : string;
  yt_date : string;
  yt_amount : Z;
  payee_name : option string;
  yt_memo : option string;
  cleared : string;
  import_id : string
}.

(** [int(round(amount * 1000))] *)
Definition dollars_to_milliunits (amount : float) : Py.result Z :=
  PyFloat.round (PrimFloat.mul amount 1000%float).

(** [f"YNAB:{amount}:{date.isoformat()}:{occurrence}"] *)
Definition generate_import_id (date : PyDatetime.date) (amount : Z)
    (occurrence : Z) : string :=
  "YNAB:" ++ Py.str_int amount ++ ":" ++ PyDatetime.date_isoformat date ++ ":" ++
  Py.str_int occurrence.

Section Client.

(** [datetime.fromisoformat] of the standard library, and the POST of
    [_request] to [/budgets/{budget_id}/transactions] with the created ids
    and the duplicate import ids read from its answer. *)
Variable fromisoformat : string -> Py.result PyDatetime.datetime.
Variable post_transactions :
  string -> list ynab_tx -> Py.result YNABImportResult.t.

Definition parse_date (v : date_value) : Py.result PyDatetime.date :=
  match v with
  | OfDatetime dt => Py.Return (PyDatetime.date_of dt)
  | OfStr s =>
      match fromisoformat s with
      | Py.Return dt => Py.Return (PyDatetime.date_of dt)
      | Py.Raise e => Py.Raise e
      end
  | OfDate d => Py.Return d
  end.

(** [f"{amount_milliunits}:{tx_date.isoformat()}"] *)
Definition base_key (amount_milliunits : Z) (tx_date : PyDatetime.date) : string :=
  Py.str_int amount_milliunits ++ ":" ++ PyDatetime.date_isoformat tx_date.

(** The conversion loop of [create_transactions], with the dict
    [import_id_counts] and the list [ynab_transactions] it builds. *)
Fixpoint convert (account_id : string) (transactions : list tx_dict)
    (import_id_counts : gmap string Z) (ynab_transactions : list ynab_tx)
  : Py.result (list ynab_tx) :=
  match transactions with
  | [] => Py.Return ynab_transactions
  | tx :: rest =>
      match parse_date (date tx) with
      | Py.Raise e => Py.Raise e
      | Py.Return tx_date =>
          match dollars_to_milliunits (amount tx) with
          | Py.Raise e => Py.Raise e
          | Py.Return amount_milliunits =>
              let key := base_key amount_milliunits tx_date in
              let occurrence := default 0 (import_id_counts !! key) + 1 in
              let import_id :=
                generate_import_id tx_date amount_milliunits occurrence in
              convert account_id rest (<[key := occurrence]> import_id_counts)
                (ynab_transactions ++
                 [YnabTx account_id (PyDatetime.date_isoformat tx_date)
                         amount_milliunits (payee tx) (memo tx) "cleared"
                         import_id])
          end
      end
  end.

Definition create_transactions (budget_id account_id : string)
    (transactions : list tx_dict) : Py.result (list string * list string) :=
  match convert account_id transactions ∅ [] with
  | Py.Raise e => Py.Raise e
  | Py.Return ynab_transactions =>
      match post_transactions budget_id ynab_transactions with
      | Py.Raise e => Py.Raise e
      | Py.Return r =>
          Py.Return (YNABImportResult.transaction_ids r,
                     YNABImportResult.duplicate_import_ids r)
      end
  end.

Definition import_transactions (budget_id account_id : string)
    (transactions : list tx_dict) : Py.result YNABImportResult.t :=
  match transactions with
  | [] => Py.Return (YNABImportResult.mk [] [])
  | _ =>
      match create_transactions budget_id account_id transactions with
      | Py.Raise e => Py.Raise e
      | Py.Return (created_ids, duplicate_ids) =>
          Py.Return (YNABImportResult.mk created_ids duplicate_ids)
      end
  end.

End Client.

End YNABClient.


(** ** [services/akahu_client.py]: [AkahuClient] *)

Module AkahuClient.

(** What an item of the provider's answer holds under [merchant] or
    [category]: no such key, [null], or an object with or without a
    [name]. *)
Inductive named : Type :=
| Absent
| Null
| Named (name : option string).

(** An item of [data["items"]]; [None] stands for a missing key. *)
Record item : Type := Item {
  _id : option string;
  _account : option string;
  date : option string;
  amount : option float;
  description : option string;
  merchant : named;
  category : named
}.

(** One answer of [GET /transactions]: [data.get("items", [])] and
    [data.get("cursor", {}).get("next")]. *)
Record page : Type := Page {
  items : list item;
  next : option string
}.

Definition KeyError (key : string) : Py.exn := Py.Exn "KeyError" key.

(** [s.replace("Z", "+00:00")] *)
Fixpoint replace_Z (s : string) : string :=
  match s with
  | EmptyString => EmptyString
  | String c rest =>
      if Ascii.eqb c "Z" then "+00:00" ++ replace_Z rest
      else String c (replace_Z rest)
  end.

(** [tx[key]] *)
Definition required {A} (key : string) (v : option A) : Py.result A :=
  match v with
  | Some a => Py.Return a
  | None => Py.Raise (KeyError key)
  end.

(** [tx.get(key, {}).get("name")] *)
Definition name_of (v : named) : Py.result (option string) :=
  match v with
  | Absent => Py.Return None
  | Null =>
      Py.Raise (Py.Exn "AttributeError"
                       "'NoneType' object has no attribute 'get'")
  | Named n => Py.Return n
  end.

Section Client.

(** [datetime.fromisoformat], and [_request("GET", "/transactions", params)]
    as a function of the [cursor] parameter ([None] on the first call; the
    [start] and [end] parameters stay the same during one call of
    [get_transactions]). *)
Variable fromisoformat : string -> Py.result PyDatetime.datetime.
Variable request : option string -> Py.result page.

(** The [AkahuTransaction(...)] built from an item, its arguments read from
    left to right. *)
Definition to_transaction (tx : item) : Py.result AkahuTransaction.t :=
  match required "'_id'" (_id tx) with
  | Py.Raise e => Py.Raise e
  | Py.Return id =>
  match required "'_account'" (_account tx) with
  | Py.Raise e => Py.Raise e
  | Py.Return account =>
  match required "'date'" (date tx) with
  | Py.Raise e => Py.Raise e
  | Py.Return d =>
  match fromisoformat (replace_Z d) with
  | Py.Raise e => Py.Raise e
  | Py.Return dt =>
  match required "'amount'" (amount tx) with
  | Py.Raise e => Py.Raise e
  | Py.Return a =>
  match name_of (merchant tx) with
  | Py.Raise e => Py.Raise e
  | Py.Return m =>
  match name_of (category tx) with
  | Py.Raise e => Py.Raise e
  | Py.Return c =>
      Py.Return (AkahuTransaction.mk id account dt a
                   (default "" (description tx)) m c)
  end end end end end end end.

(** The [for tx in items] loop: items of other accounts are passed over
    when an account is asked for, the others are appended to
    [all_transactions]. *)
Fixpoint collect (account_id : option string) (txs : list item)
    (all_transactions : list AkahuTransaction.t)
  : Py.result (list AkahuTransaction.t) :=
  match txs with
  | [] => Py.Return all_transactions
  | tx :: rest =>
      if Py.opt_truthy account_id && negb (bool_decide (_account tx = account_id))
      then collect account_id rest all_transactions
      else
        match to_transaction tx with
        | Py.Raise e => Py.Raise e
        | Py.Return t => collect account_id rest (all_transactions ++ [t])
        end
  end.

(** The [while True] loop over the pages, run for at most [fuel] requests;
    [None] when the loop has not ended by then. *)
Fixpoint paginate (fuel : nat) (account_id : option string)
    (cursor : option string) (all_transactions : list AkahuTransaction.t)
  : option (Py.result (list AkahuTransaction.t)) :=
  match fuel with
  | O => None
  | S fuel' =>
      match request cursor with
      | Py.Raise e => Some (Py.Raise e)
      | Py.Return data =>
          match collect account_id (items data) all_transactions with
          | Py.Raise e => Some (Py.Raise e)
          | Py.Return all_transactions' =>
              if Py.opt_truthy (next data)
              then paginate fuel' account_id (next data) all_transactions'
              else Some (Py.Return all_transactions')
          end
      end
  end.

Definition get_transactions (fuel : nat) (account_id : option string)
  : option (Py.result (list AkahuTransaction.t)) :=
  paginate fuel account_id None [].

Definition get_account_transactions (fuel : nat) (account_id : string)
  : option (Py.result (list AkahuTransaction.t)) :=
  get_transactions fuel (Some account_id).

End Client.

End AkahuClient.

(** ** The external collaborators of one request or one job run *)

Module World.
Record t : Type := mk {
  (** [AkahuClient().get_account_transactions(account_id, start_date)],
      with [start_date = datetime.now() - timedelta(days)] given by its
      number of days. *)
  get_account_transactions :
    string -> Z -> Py.result (list AkahuTransaction.t);
  (** [datetime.fromisoformat] *)
  fromisoformat : string -> Py.result PyDatetime.datetime;
  (** The POST of [YNABClient._request] that creates transactions. *)
  post_transactions :
    string -> list YNABClient.ynab_tx -> Py.result YNABImportResult.t
}.

Definition import_transactions (w : t) :=
  YNABClient.import_transactions (fromisoformat w) (post_transactions w).
End World.

(** What the sync code computes from one Akahu transaction. *)
Module Convert.

(** [tx.merchant or alt], for [merchant : Optional[str]] and [alt : str]. *)
Definition merchant_or (merchant : option string) (alt : string) : string :=
  match merchant with
  | Some m => if Py.str_truthy m then m else alt
  | None => alt
  end.

(** [tx.merchant or tx.description[:50] if tx.description else None],
    that is [(tx.merchant or tx.description[:50]) if tx.description else None]. *)
Definition payee (tx : AkahuTransaction.t) : option string :=
  if Py.str_truthy (AkahuTransaction.description tx)
  then Some (merchant_or (AkahuTransaction.merchant tx)
                         (Py.str_prefix 50 (AkahuTransaction.description tx)))
  else None.

(** The hash used to filter:
    [dedup.generate_hash(tx.date, tx.amount, tx.merchant or tx.description)]. *)
Definition filter_hash (tx : AkahuTransaction.t) : string :=
  DeduplicationService.generate_hash
    (AkahuTransaction.date tx) (AkahuTransaction.amount tx)
    (Some (merchant_or (AkahuTransaction.merchant tx)
                       (AkahuTransaction.description tx)))
    None.

Definition to_dict (tx : AkahuTransaction.t) : YNABClient.tx_dict :=
  YNABClient.TxDict (YNABClient.OfDatetime (AkahuTransaction.date tx))
    (AkahuTransaction.amount tx) (payee tx)
    (Some (AkahuTransaction.description tx)).

Definition to_create (akahu_account_id : string) (tx : AkahuTransaction.t)
  : TransactionCreate.t :=
  TransactionCreate.mk (AkahuTransaction.date tx) (AkahuTransaction.amount tx)
    (payee tx) (Some (AkahuTransaction.description tx))
    "akahu" (Some akahu_account_id) (Some (AkahuTransaction.id tx)).

(** [f"{o}"] for an [Optional[str]]. *)
Definition fmt_opt (o : option string) : string := default "None" o.

End Convert.

(** ** The APScheduler job store, as [services/scheduler.py] uses it *)

Module JobStore.

Record job : Type := Job {
  interval_hours : Z;      (* IntervalTrigger(hours=...) *)
  args : string;           (* the akahu_account_id *)
  name : string
}.

(** [f"sync_{akahu_account_id}"] *)
Definition job_id (akahu_account_id : string) : string :=
  "sync_" ++ akahu_account_id.

(** [try: scheduler.remove_job(job_id) except: pass] *)
Definition remove_job (id : string) (jobs : gmap string job) : gmap string job :=
  delete id jobs.

Definition schedule_account_sync (account : AkahuAccount.t)
    (jobs : gmap string job) : gmap string job :=
  let id := job_id (AkahuAccount.akahu_account_id account) in
  let jobs := remove_job id jobs in
  if negb (AkahuAccount.schedule_enabled account) then jobs
  else
    <[id := Job (AkahuAccount.schedule_interval_hours account)
                (AkahuAccount.akahu_account_id account)
                ("Sync " ++
                 match AkahuAccount.account_name account with
                 | Some n =>
                     if Py.str_truthy n then n
                     else AkahuAccount.akahu_account_id account
                 | None => AkahuAccount.akahu_account_id account
                 end)]> jobs.

Definition remove_account_schedule (akahu_account_id : string)
    (jobs : gmap string job) : gmap string job :=
  remove_job (job_id akahu_account_id) jobs.


(** The scheduler: whether it runs, and its job store. *)
Record scheduler : Type := Scheduler {
  running : bool;
  jobs : gmap string job
}.

(** The loop of [initialize_scheduler] over the rows with
    [schedule_enabled == True]. *)
Definition load_schedules (accounts : list AkahuAccount.t)
    (jobs : gmap string job) : gmap string job :=
  fold_left
    (fun jobs account =>
       if Py.opt_truthy (AkahuAccount.ynab_account_id account)
       then schedule_account_sync account jobs
       else jobs)
    (filter (fun a => AkahuAccount.schedule_enabled a = true) accounts)
    jobs.

(** Nothing happens when the scheduler runs already; otherwise it is
    started and the schedules of the stored accounts are loaded.  The rows
    are taken in the order of the map: the [select] fixes none. *)
Definition initialize_scheduler (accounts : gmap string AkahuAccount.t)
    (s : scheduler) : scheduler :=
  if running s then s
  else Scheduler true (load_schedules (map snd (map_to_list accounts)) (jobs s)).

End JobStore.

(** ** [routers/akahu.py] *)

Module AkahuRouter.

(** The JSON bodies returned by [sync_akahu_account]. *)
Inductive sync_response : Type :=
| Nothing (imported skipped_duplicates : Z) (message : string)
| Synced (imported ynab_duplicates skipped_duplicates : Z)
         (transaction_ids : list string).

(** The filter loop of [sync_akahu_account], with its three accumulators
    [ynab_transactions], [tx_creates] and [skipped]. *)
Fixpoint partition (skip_duplicates : bool) (existing_hashes : gset string)
    (akahu_account_id : string) (transactions : list AkahuTransaction.t)
    (ynab_transactions : list YNABClient.tx_dict)
    (tx_creates : list TransactionCreate.t) (skipped : Z)
  : list YNABClient.tx_dict * list TransactionCreate.t * Z :=
  match transactions with
  | [] => (ynab_transactions, tx_creates, skipped)
  | tx :: rest =>
      let tx_hash := Convert.filter_hash tx in
      if skip_duplicates && bool_decide (tx_hash ∈ existing_hashes) then
        partition skip_duplicates existing_hashes akahu_account_id rest
                  ynab_transactions tx_creates (skipped + 1)
      else
        partition skip_duplicates existing_hashes akahu_account_id rest
                  (ynab_transactions ++ [Convert.to_dict tx])
                  (tx_creates ++ [Convert.to_create akahu_account_id tx])
                  skipped
  end.

Definition not_linked : Py.exn :=
  Py.HTTPException 400 "Akahu account is not linked to a YNAB account".

(** POST [/akahu/sync/{akahu_account_id}] *)
Definition sync_akahu_account (w : World.t) (akahu_account_id : string)
    (days : Z) (skip_duplicates : bool) : Db.M sync_response :=
  link <- Db.get_account akahu_account_id ;;
  match link with
  | None => Db.raise not_linked
  | Some link =>
  if negb (Py.opt_truthy (AkahuAccount.ynab_account_id link))
  then Db.raise not_linked
  else
  match World.get_account_transactions w akahu_account_id days with
  | Py.Raise e =>
      Db.raise (Py.HTTPException 500
                  ("Failed to fetch Akahu transactions: " ++ Py.str_exn e))
  | Py.Return [] => Db.ret (Nothing 0 0 "No transactions found")
  | Py.Return transactions =>
  existing_hashes <- DeduplicationService.get_existing_hashes ;;
  let '(ynab_transactions, tx_creates, skipped) :=
    partition skip_duplicates existing_hashes akahu_account_id transactions
              [] [] 0 in
  match ynab_transactions with
  | [] => Db.ret (Nothing 0 skipped "All transactions were duplicates")
  | _ =>
  match World.import_transactions w
          (Convert.fmt_opt (AkahuAccount.ynab_budget_id link))
          (Convert.fmt_opt (AkahuAccount.ynab_account_id link))
          ynab_transactions with
  | Py.Raise e =>
      Db.raise (Py.HTTPException 500
                  ("Failed to import to YNAB: " ++ Py.str_exn e))
  | Py.Return import_result =>
  let ids := YNABImportResult.transaction_ids import_result in
  DeduplicationService.record_imports_batch tx_creates
    (AkahuAccount.ynab_budget_id link) (AkahuAccount.ynab_account_id link)
    (Some (map Some ids)) ;;;
  now <- Db.utcnow ;;
  Db.update_account akahu_account_id
    (AkahuAccount.set_last_synced_at (Some now)) ;;;
  Db.commit ;;;
  Db.ret (Synced (Z.of_nat (length ids))
            (Z.of_nat (length (YNABImportResult.duplicate_import_ids import_result)))
            skipped ids)
  end end end end.

(** DELETE [/akahu/accounts/{akahu_account_id}/link] *)
Definition unlink_akahu_account (akahu_account_id : string)
  : Db.M (string * string) :=
  existing <- Db.get_account akahu_account_id ;;
  match existing with
  | Some _ => Db.delete_account akahu_account_id ;;; Db.commit
  | None => Db.ret tt
  end ;;;
  Db.ret ("success", "Account unlinked").

Definition valid_intervals : list Z := [1; 2; 4; 6; 12; 24].

(** [min(xs, key=key)] on a list with head [x]: the first element whose key
    is least. *)
Fixpoint min_by (key : Z -> Z) (x : Z) (xs : list Z) : Z :=
  match xs with
  | [] => x
  | y :: ys => min_by key (if key y <? key x then y else x) ys
  end.

(** The interval validation of [set_account_schedule]. *)
Definition snap_interval (interval_hours : Z) : Z :=
  if bool_decide (interval_hours ∈ valid_intervals) then interval_hours
  else
    match valid_intervals with
    | [] => interval_hours
    | x :: xs => min_by (fun x => Z.abs (x - interval_hours)) x xs
    end.

Record schedule_response : Type := ScheduleResponse {
  status : string;
  message : string;
  next_sync_at : option PyDatetime.timestamp
}.

(** POST [/akahu/accounts/{akahu_account_id}/schedule]; the second component
    of the result is the scheduler's job store afterwards. *)
Definition set_account_schedule (akahu_account_id : string)
    (config : ScheduleConfig.t) (jobs : gmap string JobStore.job)
  : Db.M (schedule_response * gmap string JobStore.job) :=
  account <- Db.get_account akahu_account_id ;;
  match account with
  | None => Db.raise (Py.HTTPException 404 "Account not found")
  | Some account =>
  if negb (Py.opt_truthy (AkahuAccount.ynab_account_id account)) then
    Db.raise (Py.HTTPException 400
      "Account must be linked to YNAB before enabling scheduled sync")
  else
  let interval_hours := snap_interval (ScheduleConfig.interval_hours config) in
  let enabled := ScheduleConfig.enabled config in
  let account :=
    AkahuAccount.set_schedule enabled interval_hours
      (ScheduleConfig.days_to_sync config) account in
  next <- (if enabled then
             now <- Db.utcnow ;;
             Db.ret (Some (now + PyDatetime.timedelta_hours interval_hours))
           else Db.ret None) ;;
  let account := AkahuAccount.set_next_sync_at next account in
  now <- Db.utcnow ;;
  let account := AkahuAccount.set_updated_at (Some now) account in
  Db.update_account akahu_account_id (fun _ => account) ;;;
  Db.commit ;;;
  let jobs :=
    if enabled then JobStore.schedule_account_sync account jobs
    else JobStore.remove_account_schedule akahu_account_id jobs in
  Db.ret (ScheduleResponse "success"
            ("Schedule " ++ (if enabled then "enabled" else "disabled"))
            (AkahuAccount.next_sync_at account),
          jobs)
  end.


(** POST [/akahu/accounts/link].  [get_accounts] is the answer of
    [AkahuClient().get_accounts()], asked for only when the link is new.
    A new row gets the column defaults of the table; its [updated_at] is
    the clock at the insert. *)
Definition link_akahu_to_ynab
    (get_accounts : Py.result (list AkahuAccountResponse.t))
    (link : AkahuAccountLink.t) : Db.M (string * string) :=
  let id := AkahuAccountLink.akahu_account_id link in
  existing <- Db.get_account id ;;
  match existing with
  | Some _ =>
      Db.update_account id
        (AkahuAccount.set_link (Some (AkahuAccountLink.ynab_budget_id link))
           (Some (AkahuAccountLink.ynab_account_id link))
           (AkahuAccountLink.auto_sync link)) ;;;
      now <- Db.utcnow ;;
      Db.update_account id (AkahuAccount.set_updated_at (Some now))
  | None =>
      accounts <- Db.lift get_accounts ;;
      let account_info :=
        List.find (fun a => String.eqb (AkahuAccountResponse.id a) id) accounts in
      now <- Db.utcnow ;;
      Db.add_account
        (AkahuAccount.mk id
           (AkahuAccountResponse.name <$> account_info)
           (AkahuAccountResponse.type <$> account_info)
           (AkahuAccountResponse.institution <$> account_info)
           (Some (AkahuAccountLink.ynab_budget_id link))
           (Some (AkahuAccountLink.ynab_account_id link))
           (AkahuAccountLink.auto_sync link)
           None false 6 7 None None None 0 (Some now))
  end ;;;
  Db.commit ;;;
  Db.ret ("success", "Account linked successfully").

(** A row of the preview returned by GET [/akahu/transactions]. *)
Record preview : Type := Preview {
  p_id : string;
  p_account_id : string;
  p_date : string;
  p_amount : float;
  p_description : string;
  p_merchant : option string;
  p_category : option string;
  p_is_duplicate : bool;
  p_transaction_hash : string
}.

(** GET [/akahu/transactions].  [transactions] is the answer of
    [AkahuClient().get_transactions(account_id, start_date, end_date)]. *)
Definition get_akahu_transactions
    (transactions : Py.result (list AkahuTransaction.t))
  : Db.M (list preview) :=
  match transactions with
  | Py.Raise e =>
      Db.raise (Py.HTTPException 500
                  ("Failed to fetch transactions: " ++ Py.str_exn e))
  | Py.Return transactions =>
      existing_hashes <- DeduplicationService.get_existing_hashes ;;
      Db.ret (map (fun tx =>
                     let tx_hash := Convert.filter_hash tx in
                     Preview (AkahuTransaction.id tx)
                       (AkahuTransaction.account_id tx)
                       (PyDatetime.isoformat (AkahuTransaction.date tx))
                       (AkahuTransaction.amount tx)
                       (AkahuTransaction.description tx)
                       (AkahuTransaction.merchant tx)
                       (AkahuTransaction.category tx)
                       (bool_decide (tx_hash ∈ existing_hashes))
                       tx_hash)
                  transactions)
  end.

(** The body returned by GET [/akahu/accounts/{akahu_account_id}/schedule]
    ([next_sync_at] is given as the timestamp, not as its ISO text). *)
Record schedule_info : Type := ScheduleInfo {
  si_enabled : bool;
  si_interval_hours : Z;
  si_days_to_sync : Z;
  si_next_sync_at : option PyDatetime.timestamp;
  si_last_sync_status : option string;
  si_last_sync_message : option string;
  si_last_sync_imported : Z
}.

Definition get_account_schedule (akahu_account_id : string)
  : Db.M schedule_info :=
  account <- Db.get_account akahu_account_id ;;
  match account with
  | None => Db.raise (Py.HTTPException 404 "Account not found")
  | Some account =>
      Db.ret (ScheduleInfo (AkahuAccount.schedule_enabled account)
                (AkahuAccount.schedule_interval_hours account)
                (AkahuAccount.schedule_days_to_sync account)
                (AkahuAccount.next_sync_at account)
                (AkahuAccount.last_sync_status account)
                (AkahuAccount.last_sync_message account)
                (AkahuAccount.last_sync_imported account))
  end.

(** DELETE [/akahu/accounts/{akahu_account_id}/schedule]; the second
    component of the result is the job store afterwards. *)
Definition disable_account_schedule (akahu_account_id : string)
    (jobs : gmap string JobStore.job)
  : Db.M ((string * string) * gmap string JobStore.job) :=
  account <- Db.get_account akahu_account_id ;;
  match account with
  | None => Db.raise (Py.HTTPException 404 "Account not found")
  | Some _ =>
      Db.update_account akahu_account_id (AkahuAccount.set_schedule_enabled false) ;;;
      Db.update_account akahu_account_id (AkahuAccount.set_next_sync_at None) ;;;
      now <- Db.utcnow ;;
      Db.update_account akahu_account_id (AkahuAccount.set_updated_at (Some now)) ;;;
      Db.commit ;;;
      Db.ret (("success", "Schedule disabled"),
              JobStore.remove_account_schedule akahu_account_id jobs)
  end.

End AkahuRouter.


(** ** [routers/csv.py]: the import of parsed CSV transactions *)

Module CsvRouter.

(** A transaction dict of the request body, with its date read as a
    [datetime] and its amount as a [float]; [is_duplicate] may be missing. *)
Record tx : Type := Tx {
  date : PyDatetime.datetime;
  amount : float;
  payee : option string;
  memo : option string;
  is_duplicate : option bool
}.

Inductive response : Type :=
| AllDuplicates (imported skipped_duplicates : Z) (message : string)
| Imported (imported ynab_duplicates : Z) (transaction_ids : list string).

(** [not skip_duplicates or not tx.get('is_duplicate', False)] *)
Definition kept (skip_duplicates : bool) (t : tx) : bool :=
  negb skip_duplicates || negb (default false (is_duplicate t)).

Definition to_create (t : tx) : TransactionCreate.t :=
  TransactionCreate.mk (date t) (amount t) (payee t) (memo t) "csv" None None.

Definition to_dict (c : TransactionCreate.t) : YNABClient.tx_dict :=
  YNABClient.TxDict (YNABClient.OfDatetime (TransactionCreate.date c))
    (TransactionCreate.amount c) (TransactionCreate.payee c)
    (TransactionCreate.memo c).

(** POST [/csv/import] *)
Definition import_csv_transactions (w : World.t) (transactions : list tx)
    (ynab_budget_id ynab_account_id : string) (skip_duplicates : bool)
  : Db.M response :=
  match transactions with
  | [] => Db.raise (Py.HTTPException 400 "No transactions to import")
  | _ =>
  let tx_creates :=
    map to_create (List.filter (kept skip_duplicates) transactions) in
  match tx_creates with
  | [] =>
      Db.ret (AllDuplicates 0 (Z.of_nat (length transactions))
                "All transactions were duplicates")
  | _ =>
  result <- Db.lift (World.import_transactions w ynab_budget_id ynab_account_id
                       (map to_dict tx_creates)) ;;
  let ids := YNABImportResult.transaction_ids result in
  DeduplicationService.record_imports_batch tx_creates
    (Some ynab_budget_id) (Some ynab_account_id) (Some (map Some ids)) ;;;
  Db.ret (Imported (Z.of_nat (length ids))
            (Z.of_nat (length (YNABImportResult.duplicate_import_ids result)))
            ids)
  end end.

End CsvRouter.

(** ** [services/scheduler.py] *)

Module Scheduler.

(** The defaults given to every job by [get_scheduler]. *)
Definition coalesce : bool := true.
Definition max_instances : nat := 1.
Definition misfire_grace_time : Z := 60 * 30.

(** The filter loop of [sync_akahu_account_job]. *)
Fixpoint partition (existing_hashes : gset string)
    (akahu_account_id : string) (transactions : list AkahuTransaction.t)
    (ynab_transactions : list YNABClient.tx_dict)
    (tx_creates : list TransactionCreate.t) (skipped : Z)
  : list YNABClient.tx_dict * list TransactionCreate.t * Z :=
  match transactions with
  | [] => (ynab_transactions, tx_creates, skipped)
  | tx :: rest =>
      let tx_hash := Convert.filter_hash tx in
      if bool_decide (tx_hash ∈ existing_hashes) then
        partition existing_hashes akahu_account_id rest
                  ynab_transactions tx_creates (skipped + 1)
      else
        partition existing_hashes akahu_account_id rest
                  (ynab_transactions ++ [Convert.to_dict tx])
                  (tx_creates ++ [Convert.to_create akahu_account_id tx])
                  skipped
  end.

(** The assignments that end a successful run: status, message, imported
    count, [last_synced_at] and [next_sync_at], each [utcnow()] being a call
    of its own.  (The branch for an empty fetch does not assign
    [transactions_imported]; the row still has its default 0 there, the
    value passed here.) *)
Definition finish_success (akahu_account_id : string) (i : nat)
    (interval_hours : Z) (message : string) (imported : Z) : Db.M unit :=
  Db.update_sync_log i (SyncLog.set_status "success") ;;;
  now <- Db.utcnow ;;
  Db.update_sync_log i (SyncLog.set_completed_at (Some now)) ;;;
  Db.update_sync_log i (SyncLog.set_transactions_imported imported) ;;;
  Db.update_account akahu_account_id
    (AkahuAccount.set_last_sync_status (Some "success")) ;;;
  Db.update_account akahu_account_id
    (AkahuAccount.set_last_sync_message (Some message)) ;;;
  Db.update_account akahu_account_id
    (AkahuAccount.set_last_sync_imported imported) ;;;
  now <- Db.utcnow ;;
  Db.update_account akahu_account_id
    (AkahuAccount.set_last_synced_at (Some now)) ;;;
  now <- Db.utcnow ;;
  Db.update_account akahu_account_id
    (AkahuAccount.set_next_sync_at
       (Some (now + PyDatetime.timedelta_hours interval_hours))).

(** The assignments of the two [except] branches around the network
    calls. *)
Definition finish_failed (akahu_account_id : string) (i : nat)
    (error_message link_message : string) : Db.M unit :=
  Db.update_sync_log i (SyncLog.set_status "failed") ;;;
  Db.update_sync_log i (SyncLog.set_error_message (Some error_message)) ;;;
  now <- Db.utcnow ;;
  Db.update_sync_log i (SyncLog.set_completed_at (Some now)) ;;;
  Db.update_account akahu_account_id
    (AkahuAccount.set_last_sync_status (Some "failed")) ;;;
  Db.update_account akahu_account_id
    (AkahuAccount.set_last_sync_message (Some link_message)) ;;;
  Db.commit.

(** The [try] block of [sync_akahu_account_job]. *)
Definition job_body (w : World.t) (akahu_account_id : string) : Db.M unit :=
  link <- Db.get_account akahu_account_id ;;
  match link with
  | None => Db.ret tt
  | Some link =>
  if negb (Py.opt_truthy (AkahuAccount.ynab_account_id link)) then Db.ret tt
  else
  started <- Db.utcnow ;;
  i <- Db.add_sync_log
         (SyncLog.mk akahu_account_id started None "running" 0 0 0 0 None
                     "scheduled") ;;
  Db.commit ;;;
  Db.update_account akahu_account_id
    (AkahuAccount.set_last_sync_status (Some "running")) ;;;
  Db.commit ;;;
  let days_to_sync :=
    if AkahuAccount.schedule_days_to_sync link =? 0 then 7
    else AkahuAccount.schedule_days_to_sync link in
  let interval_hours := AkahuAccount.schedule_interval_hours link in
  match World.get_account_transactions w akahu_account_id days_to_sync with
  | Py.Raise e =>
      finish_failed akahu_account_id i (Py.str_exn e) (Py.str_exn e)
  | Py.Return transactions =>
  Db.update_sync_log i
    (SyncLog.set_transactions_found (Z.of_nat (length transactions))) ;;;
  match transactions with
  | [] =>
      finish_success akahu_account_id i interval_hours
                     "No transactions found" 0 ;;;
      Db.commit
  | _ =>
  existing_hashes <- DeduplicationService.get_existing_hashes ;;
  let '(ynab_transactions, tx_creates, skipped) :=
    partition existing_hashes akahu_account_id transactions [] [] 0 in
  Db.update_sync_log i (SyncLog.set_transactions_skipped skipped) ;;;
  match ynab_transactions with
  | [] =>
      finish_success akahu_account_id i interval_hours
        ("All " ++ Py.str_int skipped ++ " transactions were duplicates") 0 ;;;
      Db.commit
  | _ =>
  match World.import_transactions w
          (Convert.fmt_opt (AkahuAccount.ynab_budget_id link))
          (Convert.fmt_opt (AkahuAccount.ynab_account_id link))
          ynab_transactions with
  | Py.Raise e =>
      finish_failed akahu_account_id i (Py.str_exn e)
                    ("YNAB import failed: " ++ Py.str_exn e)
  | Py.Return import_result =>
  let ids := YNABImportResult.transaction_ids import_result in
  let n := Z.of_nat (length ids) in
  DeduplicationService.record_imports_batch tx_creates
    (AkahuAccount.ynab_budget_id link) (AkahuAccount.ynab_account_id link)
    (Some (map Some ids)) ;;;
  Db.update_sync_log i
    (SyncLog.set_ynab_duplicates
       (Z.of_nat (length (YNABImportResult.duplicate_import_ids import_result)))) ;;;
  finish_success akahu_account_id i interval_hours
    ("Imported " ++ Py.str_int n ++ " transactions") n ;;;
  Db.commit
  end end end end end.

(** The outer [except Exception] of the job: a best-effort status update
    whose own failure is swallowed. *)
Definition recover (akahu_account_id : string) (e : Py.exn) : Db.M unit :=
  Db.try_except
    (Db.update_account akahu_account_id
       (AkahuAccount.set_last_sync_status (Some "failed")) ;;;
     Db.update_account akahu_account_id
       (AkahuAccount.set_last_sync_message (Some (Py.str_exn e))) ;;;
     Db.commit)
    (fun _ => Db.ret tt).

Definition sync_akahu_account_job (w : World.t) (akahu_account_id : string)
  : Db.M unit :=
  Db.try_except (job_body w akahu_account_id) (recover akahu_account_id).

End Scheduler.

(** ** Runs in flight

    Which sync runs execute at a given moment.  A scheduled run is an
    instance of an APScheduler job: when the trigger of a job fires, the
    executor starts an instance unless the job already has [max_instances]
    of them running, in which case the run is skipped.  A manual run is a
    request being served by [sync_akahu_account], which starts for every
    account that is linked. *)

Module Orchestrator.

Record state : Type := mkState {
  accounts : gmap string AkahuAccount.t;
  jobs : gmap string JobStore.job;
  instances : gmap string nat;     (* running instances, by job id *)
  requests : list string           (* manual syncs being served, by account *)
}.

Inductive event : Type :=
| TriggerFires (job_id : string)
| JobReturns (job_id : string)
| ManualSync (akahu_account_id : string)
| ManualReturns (akahu_account_id : string).

Definition start (accounts : gmap string AkahuAccount.t)
    (jobs : gmap string JobStore.job) : state :=
  mkState accounts jobs ∅ [].

(** The guard at the head of [sync_akahu_account]. *)
Definition linked (st : state) (akahu_account_id : string) : bool :=
  match accounts st !! akahu_account_id with
  | Some link => Py.opt_truthy (AkahuAccount.ynab_account_id link)
  | None => false
  end.

Definition scheduled_running (st : state) (job_id : string) : nat :=
  default 0%nat (instances st !! job_id).

Definition manual_running (st : state) (akahu_account_id : string) : nat :=
  count_occ string_dec (requests st) akahu_account_id.

(** All runs of an account that are executing. *)
Definition running (st : state) (akahu_account_id : string) : nat :=
  (scheduled_running st (JobStore.job_id akahu_account_id) +
   manual_running st akahu_account_id)%nat.

Fixpoint remove_one (a : string) (l : list string) : list string :=
  match l with
  | [] => []
  | b :: l' => if string_dec a b then l' else b :: remove_one a l'
  end.

Definition step (st : state) (ev : event) : state :=
  match ev with
  | TriggerFires id =>
      match jobs st !! id with
      | None => st
      | Some _ =>
          if (Scheduler.max_instances <=? scheduled_running st id)%nat then st
          else mkState (accounts st) (jobs st)
                 (<[id := S (scheduled_running st id)]> (instances st))
                 (requests st)
      end
  | JobReturns id =>
      mkState (accounts st) (jobs st)
        (<[id := pred (scheduled_running st id)]> (instances st))
        (requests st)
  | ManualSync a =>
      if linked st a
      then mkState (accounts st) (jobs st) (instances st) (a :: requests st)
      else st
  | ManualReturns a =>
      mkState (accounts st) (jobs st) (instances st) (remove_one a (requests st))
  end.

Definition run (st : state) (evs : list event) : state :=
  fold_left step evs st.

End Orchestrator.

(** ** Predicates and reference data used by the statements *)

Module Hex.



End Hex.

(** The rows that the loop of [record_imports_batch] builds from the pairs
    of its [zip], the [k]-th one stamped with the [k]-th clock reading from
    [tick] on. *)
Module Rows.

Definition row_of (tx : TransactionCreate.t) (ynab_id : option string)
    (ynab_budget_id ynab_account_id : option string)
    (now : PyDatetime.timestamp) : ImportedTransaction.t :=
  ImportedTransaction.mk
    (DeduplicationService.generate_hash
       (TransactionCreate.date tx) (TransactionCreate.amount tx)
       (TransactionCreate.payee tx) (TransactionCreate.memo tx))
    (TransactionCreate.date tx) (TransactionCreate.amount tx)
    (TransactionCreate.payee tx) (TransactionCreate.memo tx)
    (TransactionCreate.source tx) (TransactionCreate.source_account tx)
    (TransactionCreate.source_transaction_id tx)
    ynab_budget_id ynab_account_id ynab_id now.

Fixpoint rows_of (pairs : list (TransactionCreate.t * option string))
    (ynab_budget_id ynab_account_id : option string)
    (clock : nat -> PyDatetime.timestamp) (tick : nat)
  : list ImportedTransaction.t :=
  match pairs with
  | [] => []
  | (tx, ynab_id) :: rest =>
      row_of tx ynab_id ynab_budget_id ynab_account_id (clock tick)
      :: rows_of rest ynab_budget_id ynab_account_id clock (S tick)
  end.

Definition hash_of (tx : TransactionCreate.t) : string :=
  DeduplicationService.generate_hash
    (TransactionCreate.date tx) (TransactionCreate.amount tx)
    (TransactionCreate.payee tx) (TransactionCreate.memo tx).

End Rows.

(** Concrete transactions, accounts and collaborators. *)
Module Sample.

Definition day : PyDatetime.datetime :=
  PyDatetime.Datetime 2024 1 15 0 0 0 0 (Some 0).

Definition coffee : AkahuTransaction.t :=
  AkahuTransaction.mk "tx_1" "acc_1" day (-12.5)%float "COFFEE SHOP" None None.

Definition c1 : TransactionCreate.t :=
  TransactionCreate.mk day (-12.5)%float (Some "COFFEE SHOP")
    (Some "COFFEE SHOP") "akahu" (Some "acc_1") (Some "tx_1").

Definition c2 : TransactionCreate.t :=
  TransactionCreate.mk day (-40)%float (Some "GROCER") (Some "GROCER")
    "akahu" (Some "acc_1") (Some "tx_2").

Definition clock (k : nat) : PyDatetime.timestamp := 1000 + Z.of_nat k.

(** An account linked to YNAB, scheduled every 6 hours, whose
    [next_sync_at] was last set to 500. *)
Definition account : AkahuAccount.t :=
  AkahuAccount.mk "acc_1" (Some "Everyday") None None (Some "b1") (Some "ya1")
    false None true 6 7 (Some 500) None None 0 None.

Definition db : Db.Database := Db.mkDatabase [] {[ "acc_1" := account ]} [].

(** A ledger that already holds [c1]. *)
Definition db_with_c1 : Db.Database :=
  Db.mkDatabase [Rows.row_of c1 None (Some "b1") (Some "ya1") 900]
                {[ "acc_1" := account ]} [].

Definition no_parse (s : string) : Py.result PyDatetime.datetime :=
  Py.Raise (Py.Exn "ValueError" "Invalid isoformat string").

(** The gateway accepts every row and answers with one id per row. *)
Definition accept_all (budget_id : string) (rows : list YNABClient.ynab_tx)
  : Py.result YNABImportResult.t :=
  Py.Return (YNABImportResult.mk
               (map (fun r => "id-" ++ YNABClient.import_id r) rows) []).

Definition timeout {A} : Py.result A :=
  Py.Raise (Py.Exn "ReadTimeout" "timed out").

(** Akahu returns the coffee transaction; YNAB accepts. *)
Definition world : World.t :=
  World.mk (fun _ _ => Py.Return [coffee]) no_parse accept_all.

(** Akahu cannot be reached. *)
Definition world_fetch_fails : World.t :=
  World.mk (fun _ _ => timeout) no_parse accept_all.

(** YNAB cannot be reached. *)
Definition world_gateway_fails : World.t :=
  World.mk (fun _ _ => Py.Return [coffee]) no_parse (fun _ _ => timeout).

(** Two dicts with the same date and amount and different payees. *)
Definition coffee_dict : YNABClient.tx_dict :=
  YNABClient.TxDict (YNABClient.OfDatetime day) (-12.5)%float
    (Some "COFFEE SHOP") None.

Definition bakery_dict : YNABClient.tx_dict :=
  YNABClient.TxDict (YNABClient.OfDatetime day) (-12.5)%float
    (Some "BAKERY") None.

(** The account while its scheduled job runs. *)
Definition db_running : Db.Database :=
  Db.mkDatabase []
    {[ "acc_1" := AkahuAccount.set_last_sync_status (Some "running") account ]} [].

End Sample.

(** The import keys that the specification expects. *)
Module ImportKeys.

(** The date and the milliunit amount that [create_transactions] reads
    from a transaction dict. *)
Definition parsed (fromisoformat : string -> Py.result PyDatetime.datetime)
    (tx : YNABClient.tx_dict) : Py.result (PyDatetime.date * Z) :=
  match YNABClient.parse_date fromisoformat (YNABClient.date tx) with
  | Py.Raise e => Py.Raise e
  | Py.Return d =>
      match YNABClient.dollars_to_milliunits (YNABClient.amount tx) with
      | Py.Raise e => Py.Raise e
      | Py.Return mu => Py.Return (d, mu)
      end
  end.

Definition key_of (it : YNABClient.tx_dict * (PyDatetime.date * Z)) : string :=
  YNABClient.base_key (snd (snd it)) (fst (snd it)).

(** The occurrence counter as the specification words it: 1 for the first
    transaction with a given amount and date, one more for each earlier
    transaction of the batch with the same ones. *)
Definition occurrence (earlier : list string) (key : string) : Z :=
  1 + Z.of_nat (count_occ string_dec earlier key).

(** The rows expected for a batch, given the keys seen before it. *)
Fixpoint expected (account_id : string) (earlier : list string)
    (items : list (YNABClient.tx_dict * (PyDatetime.date * Z)))
  : list YNABClient.ynab_tx :=
  match items with
  | [] => []
  | it :: rest =>
      let '(tx, (d, mu)) := it in
      YNABClient.YnabTx account_id (PyDatetime.date_isoformat d) mu
        (YNABClient.payee tx) (YNABClient.memo tx) "cleared"
        (YNABClient.generate_import_id d mu (occurrence earlier (key_of it)))
      :: expected account_id (earlier ++ [key_of it]) rest
  end.

End ImportKeys.

(** Invariants used in the proofs. *)

(** The ledger is [L] in the committed database and in the session's view,
    and no row waits to be flushed. *)
Definition ledger_is (L : list ImportedTransaction.t) (s : Db.Session) : Prop :=
  Db.imported_transactions (Db.committed s) = L
  /\ Db.imported_transactions (Db.view s) = L
  /\ Db.pending s = [].

(** A computation that keeps the ledger, whether it returns or raises. *)
Definition keeps {A} (c : Db.M A) : Prop :=
  forall L s, ledger_is L s -> ledger_is L (snd (c s)).

(** Two sessions that differ in their accounts and logs only. *)
Definition same_ledger (s s' : Db.Session) : Prop :=
  Db.imported_transactions (Db.committed s) = Db.imported_transactions (Db.committed s')
  /\ Db.imported_transactions (Db.view s) = Db.imported_transactions (Db.view s')
  /\ Db.pending s = Db.pending s'
  /\ Db.inactive s = Db.inactive s'
  /\ Db.now_at s = Db.now_at s'
  /\ Db.ticks s = Db.ticks s'.

(** A computation whose outcome is the same in two such sessions, and
    which leaves them such. *)
Definition agrees {A} (c : Db.M A) : Prop :=
  forall s s', same_ledger s s' ->
    fst (c s) = fst (c s') /\ same_ledger (snd (c s)) (snd (c s')).

(** The dict [import_id_counts] holds, for every key, how often it was
    seen. *)
Definition counts_agree (counts : gmap string Z) (earlier : list string) : Prop :=
  forall key, default 0 (counts !! key) = Z.of_nat (count_occ string_dec earlier key).

(** No job has more instances running than the scheduler allows. *)
Definition at_most_one_scheduled (st : Orchestrator.state) : Prop :=
  forall id, (Orchestrator.scheduled_running st id <= Scheduler.max_instances)%nat.

(** A property of sessions that a computation keeps, whether it returns or
    raises. *)
Definition preserves {A} (P : Db.Session -> Prop) (c : Db.M A) : Prop :=
  forall s, P s -> P (snd (c s)).

(** No two rows of the ledger have the same fingerprint, in the committed
    database and in the session's view of it. *)
Definition unique_ledger (s : Db.Session) : Prop :=
  NoDup (Db.hashes (Db.imported_transactions (Db.committed s)))
  /\ NoDup (Db.hashes (Db.imported_transactions (Db.view s))).

(** A property of databases that holds of the committed database and of
    the session's view of it. *)
Definition both (Q : Db.Database -> Prop) (s : Db.Session) : Prop :=
  Q (Db.view s) /\ Q (Db.committed s).

(** The log rows are [L]. *)
Definition logs_are (L : list SyncLog.t) : Db.Session -> Prop :=
  both (fun db => Db.sync_logs db = L).

(** The account rows other than that of [id] are those of [accounts]. *)
Definition others_are (id : string) (accounts : gmap string AkahuAccount.t)
  : Db.Session -> Prop :=
  both (fun db => forall k, k <> id -> Db.akahu_accounts db !! k = accounts !! k).

(** An account row without its two time stamps of the last change:
    [last_synced_at], and [updated_at], which the database also sets by
    itself whenever the row is updated. *)
Definition unstamped (a : AkahuAccount.t) : AkahuAccount.t :=
  AkahuAccount.set_updated_at None (AkahuAccount.set_last_synced_at None a).

(** The row of [id] is that of [accounts], but for these stamps. *)
Definition resynced (id : string) (accounts : gmap string AkahuAccount.t)
  : Db.Session -> Prop :=
  both (fun db =>
          unstamped <$> Db.akahu_accounts db !! id
          = unstamped <$> accounts !! id).

(** A log row of a scheduled run of [id] that started at [t0]. *)
Definition run_row (id : string) (t0 : PyDatetime.timestamp) (row : SyncLog.t)
  : Prop :=
  SyncLog.akahu_account_id row = id
  /\ SyncLog.trigger row = "scheduled"
  /\ SyncLog.started_at row = t0
  /\ SyncLog.status row ∈ ["running"; "success"; "failed"].

(** The log rows are [old] followed by one row of such a run. *)
Definition logged (old : list SyncLog.t) (id : string)
    (t0 : PyDatetime.timestamp) : Db.Session -> Prop :=
  both (fun db =>
          exists row, Db.sync_logs db = (old ++ [row])%list /\ run_row id t0 row).


(** Every account row is stored under its own [akahu_account_id] (the key
    of the table of accounts is that column). *)
Definition well_keyed (accounts : gmap string AkahuAccount.t) : Prop :=
  forall k a, accounts !! k = Some a -> AkahuAccount.akahu_account_id a = k.

(** The job store holds a job for the account [k] that fires at the
    interval [hours]. *)
Definition has_job (jobs : gmap string JobStore.job) (k : string) (hours : Z)
  : Prop :=
  exists j, jobs !! JobStore.job_id k = Some j
            /\ JobStore.interval_hours j = hours /\ JobStore.args j = k.

(** The number that a string of decimal digits stands for, read from the
    left with [v] as the value so far. *)
Fixpoint undigits (s : string) (v : Z) : Z :=
  match s with
  | EmptyString => v
  | String c rest => undigits rest (10 * v + (Z.of_N (N_of_ascii c) - 48))
  end.

Fixpoint no_colon (s : string) : Prop :=
  match s with
  | EmptyString => True
  | String c rest => c <> ":"%char /\ no_colon rest
  end.

(** The provider answers the requests of one call, from [cursor] on, with
    the pages [pages]: every page but the last names the cursor of the
    next one. *)
Fixpoint serves (request : option string -> Py.result AkahuClient.page)
    (cursor : option string) (pages : list AkahuClient.page) : Prop :=
  match pages with
  | [] => False
  | p :: rest =>
      request cursor = Py.Return p
      /\ match rest with
         | [] => Py.opt_truthy (AkahuClient.next p) = false
         | _ :: _ =>
             Py.opt_truthy (AkahuClient.next p) = true
             /\ serves request (AkahuClient.next p) rest
         end
  end.

(** The database that a job leaves behind, given the outcome of its [try]
    block: after an exception the [except] branch has run. *)
Definition after_run (id : string) (r : Py.result unit * Db.Session)
  : Db.Database :=
  Db.committed
    (match r with
     | (Py.Return _, s') => s'
     | (Py.Raise e, s') => snd (Scheduler.recover id e s')
     end).

(** The three ways in which a scheduled run of the account [id], whose row
    was [link] in [db], can have left the database [db']. *)
Definition run_outcome (id : string) (link : AkahuAccount.t)
    (clock : nat -> PyDatetime.timestamp) (db db' : Db.Database) : Prop :=
  exists a' row,
    Db.akahu_accounts db' !! id = Some a'
    /\ last (Db.sync_logs db') = Some row
    /\ AkahuAccount.last_sync_status a' = Some (SyncLog.status row)
    /\ ((SyncLog.status row = "success"
         /\ SyncLog.completed_at row <> None
         /\ exists k,
              AkahuAccount.last_synced_at a' = Some (clock k)
              /\ AkahuAccount.next_sync_at a'
                 = Some (clock (S k)
                         + PyDatetime.timedelta_hours
                             (AkahuAccount.schedule_interval_hours link)))
        \/ (SyncLog.status row = "failed"
            /\ SyncLog.completed_at row <> None
            /\ AkahuAccount.next_sync_at a' = AkahuAccount.next_sync_at link
            /\ AkahuAccount.last_synced_at a' = AkahuAccount.last_synced_at link
            /\ Db.imported_transactions db' = Db.imported_transactions db)
        \/ (SyncLog.status row = "running"
            /\ SyncLog.completed_at row = None
            /\ AkahuAccount.next_sync_at a' = AkahuAccount.next_sync_at link
            /\ AkahuAccount.last_synced_at a' = AkahuAccount.last_synced_at link
            /\ Db.imported_transactions db' = Db.imported_transactions db)).

(** The fingerprints of a ledger with the fingerprints [old] after an
    attempt to insert rows with the fingerprints [new]: all of them are
    added, or none is. *)
Definition inserted (old new : list string) : list string :=
  if bool_decide (NoDup new /\ Forall (fun h => h ∉ old) new)
  then (old ++ new)%list else old.

(** The fingerprints that a sync of the account [id] over [days] days
    leaves in the ledger of [db], skipping what the duplicate filter
    finds. *)
Definition sync_fingerprints (w : World.t) (id : string) (days : Z)
    (db : Db.Database) : list string :=
  let old := Db.hashes (Db.imported_transactions db) in
  match Db.akahu_accounts db !! id with
  | None => old
  | Some link =>
      if negb (Py.opt_truthy (AkahuAccount.ynab_account_id link)) then old
      else
        match World.get_account_transactions w id days with
        | Py.Raise _ => old
        | Py.Return transactions =>
            let '(ynab_transactions, tx_creates, _) :=
              AkahuRouter.partition true (list_to_set old) id transactions
                [] [] 0 in
            match ynab_transactions with
            | [] => old
            | _ :: _ =>
                match World.import_transactions w
                        (Convert.fmt_opt (AkahuAccount.ynab_budget_id link))
                        (Convert.fmt_opt (AkahuAccount.ynab_account_id link))
                        ynab_transactions with
                | Py.Raise _ => old
                | Py.Return import_result =>
                    inserted old
                      (map (fun p => Rows.hash_of (fst p))
                         (combine tx_creates
                            (DeduplicationService.ynab_ids_or_none
                               (Some (map Some
                                        (YNABImportResult.transaction_ids
                                           import_result)))
                               (length tx_creates))))
                end
            end
        end
  end.

(** The transactions that the filter loop of a sync lets through. *)
Definition let_through (skip_duplicates : bool) (existing_hashes : gset string)
    (transactions : list AkahuTransaction.t) : list AkahuTransaction.t :=
  List.filter
    (fun tx =>
       negb (skip_duplicates
             && bool_decide (Convert.filter_hash tx ∈ existing_hashes)))
    transactions.

(** What [parse_csv] makes true of every preview it builds: the
    fingerprint is that of the four fields. *)
Definition parsed_preview (p : TransactionPreview.t) : Prop :=
  TransactionPreview.transaction_hash p
  = CSVParser.generate_transaction_hash
      (TransactionPreview.date p) (TransactionPreview.amount p)
      (TransactionPreview.payee p) (TransactionPreview.memo p).

(** More sample data. *)
Module Fixtures.

(** Two rows of a parsed CSV file, as [parse_csv] builds them. *)
Definition coffee_preview : TransactionPreview.t :=
  TransactionPreview.mk Sample.day (-12.5)%float (Some "COFFEE SHOP") None false
    (CSVParser.generate_transaction_hash Sample.day (-12.5)%float
       (Some "COFFEE SHOP") None).

Definition grocer_preview : TransactionPreview.t :=
  TransactionPreview.mk Sample.day (-40)%float (Some "GROCER") (Some "weekly") false
    (CSVParser.generate_transaction_hash Sample.day (-40)%float
       (Some "GROCER") (Some "weekly")).

(** The same two rows as the dicts of an import request. *)
Definition coffee_row : CsvRouter.tx :=
  CsvRouter.Tx Sample.day (-12.5)%float (Some "COFFEE SHOP") None (Some false).

Definition grocer_row : CsvRouter.tx :=
  CsvRouter.Tx Sample.day (-40)%float (Some "GROCER") (Some "weekly") None.

(** The coffee bought a second time on the same day: another id, the same
    date, amount and description. *)
Definition second_coffee : AkahuTransaction.t :=
  AkahuTransaction.mk "tx_9" "acc_1" Sample.day (-12.5)%float "COFFEE SHOP"
    None None.

Definition world_two_coffees : World.t :=
  World.mk (fun _ _ => Py.Return [Sample.coffee; second_coffee])
    Sample.no_parse Sample.accept_all.

(** A second account, linked and scheduled every 12 hours, and a third
    that is scheduled but not linked. *)
Definition savings : AkahuAccount.t :=
  AkahuAccount.mk "acc_2" (Some "Savings") None None (Some "b1") (Some "ya2")
    false None true 12 7 None None None 0 None.

Definition unlinked : AkahuAccount.t :=
  AkahuAccount.mk "acc_3" None None None None None
    false None true 6 7 None None None 0 None.

Definition accounts : gmap string AkahuAccount.t :=
  {[ "acc_1" := Sample.account; "acc_2" := savings; "acc_3" := unlinked ]}.

(** Two pages of a provider's answer: a transaction of [acc_1] and one of
    [acc_2] on the first, one of [acc_1] on the second. *)
Definition item (id account : string) (amount : float) : AkahuClient.item :=
  AkahuClient.Item (Some id) (Some account) (Some "2024-01-15T00:00:00Z")
    (Some amount) (Some "COFFEE SHOP") AkahuClient.Absent AkahuClient.Absent.

Definition page1 : AkahuClient.page :=
  AkahuClient.Page [item "tx_1" "acc_1" (-12.5)%float; item "tx_2" "acc_2" (-3)%float]
    (Some "c1").

Definition page2 : AkahuClient.page :=
  AkahuClient.Page [item "tx_3" "acc_1" (-40)%float] None.

Definition two_pages (cursor : option string) : Py.result AkahuClient.page :=
  match cursor with
  | None => Py.Return page1
  | Some _ => Py.Return page2
  end.

(** A provider that always names a next page. *)
Definition endless (cursor : option string) : Py.result AkahuClient.page :=
  Py.Return (AkahuClient.Page [] (Some "again")).

(** [datetime.fromisoformat] on the one text used here. *)
Definition parse_day (s : string) : Py.result PyDatetime.datetime :=
  if String.eqb s "2024-01-15T00:00:00+00:00" then Py.Return Sample.day
  else Py.Raise (Py.Exn "ValueError" "Invalid isoformat string").

End Fixtures.

(** * Properties *)

(** The digest, the float formatting and the fingerprint are computed only
    on closed inputs. *)
Arguments Sha256.hexdigest : simpl never.
Arguments PyFloat.str : simpl never.
Arguments PyFloat.round : simpl never.
Arguments DeduplicationService.generate_hash : simpl never.
Arguments Rows.hash_of : simpl never.

(** ** The models of the library functions, on known values *)

Section KnownValues.

#[local] Set Warnings "-inexact-float".

Example sha256_abc :
  Sha256.hexdigest "abc"
  = "ba7816bf8f01cfea414140de5dae2223b00361a396177a9cb410ff61f20015ad".
Proof. vm_compute. reflexivity. Qed.

Example sha256_empty :
  Sha256.hexdigest ""
  = "e3b0c44298fc1c149afbf4c8996fb92427ae41e4649b934ca495991b7852b855".
Proof. vm_compute. reflexivity. Qed.

Example float_str_values :
  map PyFloat.str [(-12.5)%float; 0.1%float; 100%float; 1e16%float;
                   0.00001%float; 1234.56%float; 0.30000000000000004%float]
  = ["-12.5"; "0.1"; "100.0"; "1e+16"; "1e-05"; "1234.56"; "0.30000000000000004"].
Proof. vm_compute. reflexivity. Qed.

Example milliunits_values :
  map YNABClient.dollars_to_milliunits
      [(-12.5)%float; 0.0005%float; 0.0015%float; 1.005%float; 2.675%float]
  = [Py.Return (-12500); Py.Return 0; Py.Return 2; Py.Return 1005; Py.Return 2675].
Proof. vm_compute. reflexivity. Qed.

Example isoformat_values :
  PyDatetime.isoformat Sample.day = "2024-01-15T00:00:00+00:00"
  /\ PyDatetime.isoformat (PyDatetime.Datetime 2023 12 5 9 3 7 120 None)
     = "2023-12-05T09:03:07.000120"
  /\ PyDatetime.isoformat (PyDatetime.Datetime 2023 12 5 9 3 7 0 (Some (-34200000000)))
     = "2023-12-05T09:03:07-09:30".
Proof. vm_compute. repeat split; reflexivity. Qed.

(** Slices count characters, not bytes. *)
Example str_prefix_values :
  Py.str_prefix 2 "héllo" = "hé"
  /\ String.length "hé" = 3%nat
  /\ Py.str_prefix 50 "short" = "short"
  /\ Py.str_prefix 0 "abc" = "".
Proof. vm_compute. repeat split; reflexivity. Qed.

Example fingerprint_value :
  DeduplicationService.generate_hash Sample.day (-12.5)%float
    (Some "COFFEE SHOP") (Some "COFFEE SHOP")
  = "6f7a1731732997793286723e50d8bb02".
Proof. vm_compute. reflexivity. Qed.

End KnownValues.

(** ** The fingerprint ([generate_hash]) *)

Section Fingerprint.




Lemma hex8_length (w : Z) (tail : string) :
  String.length (Sha256.hex8 w tail) = (8 + String.length tail)%nat.
Proof. reflexivity. Qed.






(** The file-upload path computes the same fingerprint. *)
Lemma csv_hash_same (date : PyDatetime.datetime) (amount : float)
    (payee memo : option string) :
  CSVParser.generate_transaction_hash date amount payee memo
  = DeduplicationService.generate_hash date amount payee memo.
Proof.
  unfold CSVParser.generate_transaction_hash,
    DeduplicationService.generate_hash, DeduplicationService.hash_input.
  reflexivity.
Qed.

End Fingerprint.

(** ** The session and [record_imports_batch] *)

Section Ledger.

Lemma add_rows_spec (pairs : list (TransactionCreate.t * option string))
    (b a : option string) (s : Db.Session) :
  DeduplicationService.add_rows pairs b a s
  = (Py.Return tt,
     Db.mkSession (Db.committed s) (Db.view s)
       (Db.pending s ++ Rows.rows_of pairs b a (Db.now_at s) (Db.ticks s))
       (Db.inactive s) (Db.now_at s) (Db.ticks s + length pairs)%nat).
Proof.
  revert s. induction pairs as [|[tx ynab_id] rest IH]; intros s.
  - cbn. rewrite app_nil_r, Nat.add_0_r. destruct s; reflexivity.
  - cbn [DeduplicationService.add_rows Rows.rows_of].
    unfold Db.bind at 1. cbn [Db.utcnow].
    unfold Db.bind at 1. cbn [Db.add_imported].
    rewrite IH. cbn [Db.committed Db.view Db.pending Db.inactive Db.now_at Db.ticks].
    rewrite <- app_assoc. cbn [app length].
    replace (S (Db.ticks s) + length rest)%nat
      with (Db.ticks s + S (length rest))%nat by lia.
    reflexivity.
Qed.

(** The tail of [record_imports_batch] in a fresh session: the rows are
    added, and the commit either writes them all or raises. *)
Lemma add_commit_spec (pairs : list (TransactionCreate.t * option string))
    (b a : option string) (m : Z) (db : Db.Database)
    (clock : nat -> PyDatetime.timestamp) :
  (DeduplicationService.add_rows pairs b a ;;; Db.commit ;;; Db.ret m)
    (Db.open_session db clock)
  = match Db.flush (Db.imported_transactions db) (Rows.rows_of pairs b a clock 0) with
    | Some table =>
        let db' := Db.mkDatabase table (Db.akahu_accounts db) (Db.sync_logs db) in
        (Py.Return m, Db.mkSession db' db' [] false clock (length pairs))
    | None =>
        (Py.Raise Db.IntegrityError, Db.mkSession db db [] true clock (length pairs))
    end.
Proof.
  unfold Db.bind. rewrite add_rows_spec. unfold Db.commit, Db.open_session, Db.ret.
  cbn [Db.committed Db.view Db.pending Db.inactive Db.now_at Db.ticks app Nat.add].
  destruct (Db.flush _ _); reflexivity.
Qed.

Lemma rows_of_hashes pairs b a clock tick :
  Db.hashes (Rows.rows_of pairs b a clock tick)
  = map (fun p => Rows.hash_of (fst p)) pairs.
Proof.
  revert tick. induction pairs as [|[tx i] rest IH]; intros tick.
  - reflexivity.
  - cbn [Rows.rows_of map fst]. rewrite <- (IH (S tick)).
    unfold Db.hashes, Rows.row_of, Rows.hash_of.
    cbn [map ImportedTransaction.transaction_hash]. reflexivity.
Qed.

(** A flush that meets a fingerprint already in the table fails. *)
Lemma flush_conflict (new table : list ImportedTransaction.t) (h : string) :
  h ∈ Db.hashes new -> h ∈ Db.hashes table -> Db.flush table new = None.
Proof.
  revert table. induction new as [|r rest IH]; intros table Hnew Htab.
  - cbn in Hnew. apply elem_of_nil in Hnew. contradiction.
  - cbn [Db.flush]. case_bool_decide as Hr; [reflexivity|].
    cbn in Hnew. apply elem_of_cons in Hnew as [->|Hnew]; [contradiction|].
    apply IH; [exact Hnew|].
    unfold Db.hashes. rewrite map_app. apply elem_of_app. left. exact Htab.
Qed.

(** A flush that succeeds appends the new rows. *)
Lemma flush_some (new table t : list ImportedTransaction.t) :
  Db.flush table new = Some t -> t = (table ++ new)%list.
Proof.
  revert table. induction new as [|r rest IH]; intros table H; cbn in H.
  - rewrite app_nil_r. congruence.
  - case_bool_decide; [discriminate|].
    apply IH in H. rewrite <- app_assoc in H. exact H.
Qed.

(** C3 (what the code does at the failing input).  Two transactions and a
    one-element id list: [zip] stops after the first pair, so one row is
    inserted, while the call still returns 2. *)
Theorem record_imports_batch_short_ids :
  let r :=
    DeduplicationService.record_imports_batch [Sample.c1; Sample.c2]
      (Some "b1") (Some "ya1") (Some [Some "y1"])
      (Db.open_session Db.empty Sample.clock) in
  fst r = Py.Return 2
  /\ Db.hashes (Db.imported_transactions (Db.committed (snd r)))
     = [Rows.hash_of Sample.c1].
Proof. vm_compute. split; reflexivity. Qed.

(** With an empty id list the same batch is padded and both rows are
    inserted. *)
Lemma record_imports_batch_empty_ids :
  let r :=
    DeduplicationService.record_imports_batch [Sample.c1; Sample.c2]
      (Some "b1") (Some "ya1") (Some [])
      (Db.open_session Db.empty Sample.clock) in
  fst r = Py.Return 2
  /\ Db.hashes (Db.imported_transactions (Db.committed (snd r)))
     = [Rows.hash_of Sample.c1; Rows.hash_of Sample.c2].
Proof. vm_compute. split; reflexivity. Qed.

(** When the call returns, it returns the number of transactions, and the
    rows inserted are those of the [zip]: as many as the shorter of the
    two lists. *)
Lemma record_imports_batch_rows (transactions : list TransactionCreate.t)
    (b a : option string) (ids : option (list (option string)))
    (db : Db.Database) (clock : nat -> PyDatetime.timestamp) :
  let ynab_ids :=
    DeduplicationService.ynab_ids_or_none ids (length transactions) in
  let r :=
    DeduplicationService.record_imports_batch transactions b a ids
      (Db.open_session db clock) in
  forall n, fst r = Py.Return n ->
    n = Z.of_nat (length transactions) /\
    Db.imported_transactions (Db.committed (snd r))
    = (Db.imported_transactions db
       ++ Rows.rows_of (combine transactions ynab_ids) b a clock 0)%list.
Proof.
  intros ynab_ids r n. subst r.
  unfold DeduplicationService.record_imports_batch.
  destruct transactions as [|tx rest].
  - cbn. intros [= <-]. rewrite app_nil_r. split; reflexivity.
  - fold ynab_ids. rewrite add_commit_spec.
    destruct (Db.flush _ _) as [t|] eqn:Hf; cbn [fst snd].
    + intros [= <-]. split; [reflexivity|]. apply flush_some in Hf. exact Hf.
    + discriminate.
Qed.

(** C4 (counterexample).  The ledger holds the fingerprint of [c1]; the
    batch [[c2; c1]] conflicts on its second row.  The commit raises and
    the ledger is as before: the non-conflicting [c2] is not recorded. *)
Lemma record_batch_conflict_loses_batch :
  let r :=
    DeduplicationService.record_imports_batch [Sample.c2; Sample.c1]
      (Some "b1") (Some "ya1") None
      (Db.open_session Sample.db_with_c1 Sample.clock) in
  fst r = Py.Raise Db.IntegrityError
  /\ Db.hashes (Db.imported_transactions (Db.committed (snd r)))
     = [Rows.hash_of Sample.c1]
  /\ Rows.hash_of Sample.c2 <> Rows.hash_of Sample.c1.
Proof. vm_compute. split; [|split]; [reflexivity..|discriminate]. Qed.

(** C4 (amended).  When a transaction of the batch that takes part in the
    [zip] has a fingerprint already in the ledger, the single commit raises
    the uniqueness error and the database is left exactly as it was: no row
    of the batch is inserted and the existing record is not overwritten. *)
Theorem record_imports_batch_conflict_rolls_back
    (transactions : list TransactionCreate.t) (b a : option string)
    (ids : option (list (option string)))
    (db : Db.Database) (clock : nat -> PyDatetime.timestamp)
    (k : nat) (tx : TransactionCreate.t) :
  transactions !! k = Some tx ->
  (k < length (DeduplicationService.ynab_ids_or_none ids (length transactions)))%nat ->
  Rows.hash_of tx ∈ Db.hashes (Db.imported_transactions db) ->
  let r :=
    DeduplicationService.record_imports_batch transactions b a ids
      (Db.open_session db clock) in
  fst r = Py.Raise Db.IntegrityError /\ Db.committed (snd r) = db.
Proof.
  intros Hk Hlen Hin r. subst r.
  unfold DeduplicationService.record_imports_batch.
  destruct transactions as [|tx0 rest]; [discriminate|].
  set (txs := tx0 :: rest) in *.
  set (ynab_ids := DeduplicationService.ynab_ids_or_none ids (length txs)) in *.
  rewrite add_commit_spec.
  rewrite (flush_conflict _ _ (Rows.hash_of tx)); [split; reflexivity| |exact Hin].
  rewrite rows_of_hashes.
  destruct (lookup_lt_is_Some_2 ynab_ids k Hlen) as [i Hi].
  apply list_elem_of_fmap. exists (tx, i). split; [reflexivity|].
  apply list_elem_of_lookup. exists k.
  apply lookup_zip_with_Some. exists tx, i. auto.
Qed.

Lemma record_imports_batch_conflict_rolls_back_witness :
  [Sample.c2; Sample.c1] !! 1%nat = Some Sample.c1
  /\ (1 < length (DeduplicationService.ynab_ids_or_none None 2))%nat
  /\ Rows.hash_of Sample.c1
     ∈ Db.hashes (Db.imported_transactions Sample.db_with_c1)
  /\ fst (DeduplicationService.record_imports_batch [Sample.c2; Sample.c1]
            (Some "b1") (Some "ya1") None
            (Db.open_session Sample.db_with_c1 Sample.clock))
     = Py.Raise Db.IntegrityError
  /\ Db.committed
       (snd (DeduplicationService.record_imports_batch [Sample.c2; Sample.c1]
               (Some "b1") (Some "ya1") None
               (Db.open_session Sample.db_with_c1 Sample.clock)))
     = Sample.db_with_c1.
Proof.
  assert (H1 : [Sample.c2; Sample.c1] !! 1%nat = Some Sample.c1) by reflexivity.
  assert (H2 : (1 < length (DeduplicationService.ynab_ids_or_none None 2))%nat)
    by (cbn; lia).
  assert (H3 : Rows.hash_of Sample.c1
               ∈ Db.hashes (Db.imported_transactions Sample.db_with_c1))
    by (vm_compute; apply list_elem_of_here).
  split; [exact H1|]. split; [exact H2|]. split; [exact H3|].
  exact (record_imports_batch_conflict_rolls_back
           [Sample.c2; Sample.c1] (Some "b1") (Some "ya1") None
           Sample.db_with_c1 Sample.clock 1 Sample.c1 H1 H2 H3).
Defined.

End Ledger.

(** ** The router: unlinking and scheduling *)

Section Router.

(** C10.  Unlinking succeeds whether or not the account is linked, removes
    the row when there is one, and a second unlink changes nothing. *)
Theorem unlink_idempotent (akahu_account_id : string) (db : Db.Database)
    (clock clock' : nat -> PyDatetime.timestamp) :
  let r1 :=
    AkahuRouter.unlink_akahu_account akahu_account_id (Db.open_session db clock) in
  let db1 := Db.committed (snd r1) in
  let r2 :=
    AkahuRouter.unlink_akahu_account akahu_account_id (Db.open_session db1 clock') in
  fst r1 = Py.Return ("success", "Account unlinked")
  /\ Db.akahu_accounts db1 = delete akahu_account_id (Db.akahu_accounts db)
  /\ Db.imported_transactions db1 = Db.imported_transactions db
  /\ Db.sync_logs db1 = Db.sync_logs db
  /\ fst r2 = Py.Return ("success", "Account unlinked")
  /\ Db.committed (snd r2) = db1.
Proof.
  intros r1 db1 r2. subst r2 db1 r1.
  unfold AkahuRouter.unlink_akahu_account, Db.bind, Db.get_account, Db.open_session.
  cbn [Db.view].
  destruct (Db.akahu_accounts db !! akahu_account_id) as [acct|] eqn:Hl.
  - cbn. rewrite lookup_delete_eq. cbn. repeat split; reflexivity.
  - cbn. rewrite Hl. cbn. rewrite delete_id by exact Hl. repeat split; reflexivity.
Qed.

Lemma valid_intervals_cases (v : Z) :
  v ∈ AkahuRouter.valid_intervals <->
  v = 1 \/ v = 2 \/ v = 4 \/ v = 6 \/ v = 12 \/ v = 24.
Proof.
  unfold AkahuRouter.valid_intervals.
  rewrite !elem_of_cons, elem_of_nil. tauto.
Qed.

(** [min(xs, key=key)] returns an element whose key is least. *)
Lemma min_by_spec (key : Z -> Z) (xs : list Z) (x : Z) :
  AkahuRouter.min_by key x xs ∈ x :: xs
  /\ forall y, y ∈ x :: xs -> key (AkahuRouter.min_by key x xs) <= key y.
Proof.
  revert x. induction xs as [|y ys IH]; intros x; cbn [AkahuRouter.min_by].
  - split; [apply list_elem_of_singleton; reflexivity|].
    intros z Hz. apply list_elem_of_singleton in Hz as ->. lia.
  - destruct (IH (if key y <? key x then y else x)) as [Hin Hle].
    split.
    + apply elem_of_cons in Hin as [->|Hin].
      * destruct (key y <? key x); [right; left|left].
      * right; right; exact Hin.
    + intros z Hz.
      assert (Hx : key (AkahuRouter.min_by key (if key y <? key x then y else x) ys)
                   <= key (if key y <? key x then y else x))
        by (apply Hle; left).
      apply elem_of_cons in Hz as [->|Hz]; [|apply elem_of_cons in Hz as [->|Hz]].
      * destruct (Z.ltb_spec (key y) (key x)); lia.
      * destruct (Z.ltb_spec (key y) (key x)); lia.
      * apply Hle. right. exact Hz.
Qed.

(** The snapped interval is an allowed value at the least distance from
    the requested one, and an allowed request is kept. *)
Lemma snap_interval_nearest (h : Z) :
  AkahuRouter.snap_interval h ∈ AkahuRouter.valid_intervals
  /\ (forall v, v ∈ AkahuRouter.valid_intervals ->
        Z.abs (AkahuRouter.snap_interval h - h) <= Z.abs (v - h))
  /\ (h ∈ AkahuRouter.valid_intervals -> AkahuRouter.snap_interval h = h).
Proof.
  unfold AkahuRouter.snap_interval.
  case_bool_decide as Hin.
  - split; [exact Hin|]. split; [intros v _; lia|reflexivity].
  - cbv beta iota delta [AkahuRouter.valid_intervals].
    destruct (min_by_spec (fun x => Z.abs (x - h)) [2; 4; 6; 12; 24] 1)
      as [Hmem Hmin].
    split; [exact Hmem|]. split; [exact Hmin|contradiction].
Qed.

(** C7.  For a linked account, [set_account_schedule] never rejects an
    interval: it stores the allowed value nearest to the requested one
    (the requested one itself when it is allowed), and when the schedule is
    enabled it sets [next_sync_at] to the reading of the clock plus that
    many hours. *)
Theorem set_account_schedule_snaps (akahu_account_id : string)
    (config : ScheduleConfig.t) (jobs : gmap string JobStore.job)
    (db : Db.Database) (clock : nat -> PyDatetime.timestamp)
    (account : AkahuAccount.t) :
  Db.akahu_accounts db !! akahu_account_id = Some account ->
  Py.opt_truthy (AkahuAccount.ynab_account_id account) = true ->
  let h := ScheduleConfig.interval_hours config in
  let snapped := AkahuRouter.snap_interval h in
  let r :=
    AkahuRouter.set_account_schedule akahu_account_id config jobs
      (Db.open_session db clock) in
  snapped ∈ AkahuRouter.valid_intervals
  /\ (forall v, v ∈ AkahuRouter.valid_intervals ->
        Z.abs (snapped - h) <= Z.abs (v - h))
  /\ (h ∈ AkahuRouter.valid_intervals -> snapped = h)
  /\ exists resp jobs' account',
       fst r = Py.Return (resp, jobs')
       /\ Db.akahu_accounts (Db.committed (snd r)) !! akahu_account_id
          = Some account'
       /\ AkahuAccount.schedule_enabled account' = ScheduleConfig.enabled config
       /\ AkahuAccount.schedule_interval_hours account' = snapped
       /\ AkahuAccount.next_sync_at account'
          = (if ScheduleConfig.enabled config
             then Some (clock 0%nat + PyDatetime.timedelta_hours snapped)
             else None)
       /\ AkahuRouter.next_sync_at resp = AkahuAccount.next_sync_at account'.
Proof.
  intros Hacc Hlinked h snapped r.
  destruct (snap_interval_nearest h) as (H1 & H2 & H3).
  split; [exact H1|]. split; [exact H2|]. split; [exact H3|].
  subst r. unfold AkahuRouter.set_account_schedule.
  unfold Db.bind, Db.get_account, Db.open_session.
  cbn [Db.view]. rewrite Hacc, Hlinked. cbn [negb].
  fold h. fold snapped.
  destruct (ScheduleConfig.enabled config) eqn:Hen.
  - cbn. rewrite lookup_alter_eq, Hacc. cbn.
    do 3 eexists. repeat split; reflexivity.
  - cbn. rewrite lookup_alter_eq, Hacc. cbn.
    do 3 eexists. repeat split; reflexivity.
Qed.

Lemma set_account_schedule_snaps_witness :
  Db.akahu_accounts Sample.db !! "acc_1" = Some Sample.account
  /\ Py.opt_truthy (AkahuAccount.ynab_account_id Sample.account) = true
  /\ exists resp jobs' account',
       fst (AkahuRouter.set_account_schedule "acc_1"
              (ScheduleConfig.mk true 5 7) ∅
              (Db.open_session Sample.db Sample.clock))
       = Py.Return (resp, jobs')
       /\ Db.akahu_accounts
            (Db.committed
               (snd (AkahuRouter.set_account_schedule "acc_1"
                       (ScheduleConfig.mk true 5 7) ∅
                       (Db.open_session Sample.db Sample.clock)))) !! "acc_1"
          = Some account'
       /\ AkahuAccount.schedule_interval_hours account' = 4
       /\ AkahuAccount.next_sync_at account' = Some (1000 + 4 * 3600000000)
       /\ AkahuRouter.next_sync_at resp = Some (1000 + 4 * 3600000000).
Proof.
  split; [reflexivity|]. split; [reflexivity|].
  destruct (set_account_schedule_snaps "acc_1" (ScheduleConfig.mk true 5 7) ∅
              Sample.db Sample.clock Sample.account)
    as (_ & _ & _ & resp & jobs' & account' & Hr & Hl & _ & Hi & Hn & Hresp).
  - reflexivity.
  - reflexivity.
  - exists resp, jobs', account'.
    split; [exact Hr|]. split; [exact Hl|]. split; [exact Hi|].
    split; [exact Hn|]. rewrite Hresp. exact Hn.
Defined.

(** Requests between two allowed values go to the nearer one, and to the
    smaller one when both are as near. *)
Example snap_interval_values :
  map AkahuRouter.snap_interval [1; 3; 5; 9; 10; 18; 20; 24]
  = [1; 2; 4; 6; 12; 12; 24; 24].
Proof. vm_compute. reflexivity. Qed.

End Router.

(** ** Syncing the same transaction twice; a failing fetch *)

Section FilterInput.

Lemma string_length_app (a b : string) :
  String.length (a ++ b) = (String.length a + String.length b)%nat.
Proof.
  induction a as [|c a IH]; [reflexivity|].
  change (S (String.length (a ++ b)) = S (String.length a + String.length b)).
  rewrite IH. reflexivity.
Qed.

Lemma str_prefix_truthy (n : nat) (s : string) :
  Py.str_truthy s = true -> Py.str_truthy (Py.str_prefix (S n) s) = true.
Proof.
  destruct s as [|c s]; [discriminate|]. intros _. cbn.
  destruct (Py.is_continuation c); reflexivity.
Qed.

Lemma or_empty_truthy (s : string) :
  Py.str_truthy s = true -> Py.or_empty (Some s) = s.
Proof. intros H. cbn. rewrite H. reflexivity. Qed.

(** The string hashed by the filter and the string hashed when the same
    transaction is recorded differ whenever the description is not empty:
    the filter leaves the memo out. *)
Lemma filter_input_differs (tx : AkahuTransaction.t) :
  Py.str_truthy (AkahuTransaction.description tx) = true ->
  DeduplicationService.hash_input
    (AkahuTransaction.date tx) (AkahuTransaction.amount tx)
    (Some (Convert.merchant_or (AkahuTransaction.merchant tx)
                               (AkahuTransaction.description tx))) None
  <> DeduplicationService.hash_input
       (AkahuTransaction.date tx) (AkahuTransaction.amount tx)
       (Convert.payee tx) (Some (AkahuTransaction.description tx)).
Proof.
  intros Hd H. unfold DeduplicationService.hash_input in H.
  do 4 apply (inj (String.app _)) in H.
  unfold Convert.payee in H. rewrite Hd in H.
  rewrite (or_empty_truthy _ Hd) in H.
  apply (f_equal String.length) in H. rewrite !string_length_app in H.
  assert (Hlen : forall s, Py.str_truthy s = true -> (0 < String.length s)%nat)
    by (intros [|c s]; [discriminate|cbn; lia]).
  pose proof (Hlen _ Hd) as Hpos.
  unfold Convert.merchant_or in H.
  destruct (AkahuTransaction.merchant tx) as [m|].
  - destruct (Py.str_truthy m) eqn:Hm.
    + rewrite (or_empty_truthy _ Hm) in H. cbn [String.length] in H. cbn in H. lia.
    + rewrite (or_empty_truthy _ Hd) in H.
      rewrite (or_empty_truthy _ (str_prefix_truthy 49 _ Hd)) in H.
      pose proof (Hlen _ (str_prefix_truthy 49 _ Hd)). cbn in H. lia.
  - rewrite (or_empty_truthy _ Hd) in H.
    rewrite (or_empty_truthy _ (str_prefix_truthy 49 _ Hd)) in H.
    pose proof (Hlen _ (str_prefix_truthy 49 _ Hd)). cbn in H. lia.
Qed.

End FilterInput.

Section Runs.

Lemma sample_create : Convert.to_create "acc_1" Sample.coffee = Sample.c1.
Proof. reflexivity. Qed.

(** C1 (what the code does at the failing input).  The coffee transaction
    is synced twice by hand.  The first sync records it under the
    fingerprint of (date, amount, payee, memo); the second sync filters with
    the fingerprint of (date, amount, merchant or description) and no memo,
    which is a different digest: the transaction is not skipped, it is sent
    to the gateway again, and recording it raises the uniqueness error.  The
    scheduled job takes the same course. *)
Theorem second_sync_not_skipped :
  let s1 :=
    AkahuRouter.sync_akahu_account Sample.world "acc_1" 30 true
      (Db.open_session Sample.db Sample.clock) in
  let db1 := Db.committed (snd s1) in
  let existing : gset string :=
    list_to_set (Db.hashes (Db.imported_transactions db1)) in
  let s2 :=
    AkahuRouter.sync_akahu_account Sample.world "acc_1" 30 true
      (Db.open_session db1 Sample.clock) in
  let j2 := Scheduler.job_body Sample.world "acc_1" (Db.open_session db1 Sample.clock) in
  fst s1 = Py.Return (AkahuRouter.Synced 1 0 0 ["id-YNAB:-12500:2024-01-15:1"])
  /\ Db.hashes (Db.imported_transactions db1) = ["6f7a1731732997793286723e50d8bb02"]
  /\ Convert.filter_hash Sample.coffee = "10152e58c5ec699041d330a489f9abf6"
  /\ AkahuRouter.partition true existing "acc_1" [Sample.coffee] [] [] 0
     = ([Convert.to_dict Sample.coffee], [Sample.c1], 0)
  /\ Scheduler.partition existing "acc_1" [Sample.coffee] [] [] 0
     = ([Convert.to_dict Sample.coffee], [Sample.c1], 0)
  /\ fst s2 = Py.Raise Db.IntegrityError
  /\ fst j2 = Py.Raise Db.IntegrityError.
Proof. vm_compute. repeat split; reflexivity. Qed.

(** C6 (what the code does at the failing input).  The account's
    [next_sync_at] is 500 and its interval 6 hours.  The fetch fails: the
    log row and the account are marked failed at time 1001, and
    [next_sync_at] is still 500; after a successful run it is the clock
    reading plus 6 hours. *)
Theorem fetch_failure_keeps_next_sync_at :
  let failed :=
    Db.committed (snd (Scheduler.sync_akahu_account_job Sample.world_fetch_fails
                         "acc_1" (Db.open_session Sample.db Sample.clock))) in
  let ok :=
    Db.committed (snd (Scheduler.sync_akahu_account_job Sample.world
                         "acc_1" (Db.open_session Sample.db Sample.clock))) in
  (SyncLog.status <$> Db.sync_logs failed !! 0%nat) = Some "failed"
  /\ (SyncLog.completed_at <$> Db.sync_logs failed !! 0%nat) = Some (Some 1001)
  /\ (AkahuAccount.last_sync_status <$> Db.akahu_accounts failed !! "acc_1")
     = Some (Some "failed")
  /\ (AkahuAccount.last_sync_message <$> Db.akahu_accounts failed !! "acc_1")
     = Some (Some "timed out")
  /\ (AkahuAccount.next_sync_at <$> Db.akahu_accounts failed !! "acc_1")
     = Some (Some 500)
  /\ (SyncLog.completed_at <$> Db.sync_logs ok !! 0%nat) = Some (Some 1002)
  /\ (AkahuAccount.next_sync_at <$> Db.akahu_accounts ok !! "acc_1")
     = Some (Some (1004 + PyDatetime.timedelta_hours 6)).
Proof. vm_compute. repeat split; reflexivity. Qed.

End Runs.

Section FetchFailure.

Lemma alter_snoc {A} (f : A -> A) (l : list A) (x : A) :
  alter f (length l) (l ++ [x])%list = (l ++ [f x])%list.
Proof.
  rewrite <- (Nat.add_0_r (length l)) at 1. rewrite alter_app_r. reflexivity.
Qed.

(** After a fetch failure the account row has new status and message and
    nothing else: [next_sync_at] is what it was before the run. *)
Lemma fetch_failure_account (w : World.t) (id : string) (db : Db.Database)
    (clock : nat -> PyDatetime.timestamp) (link : AkahuAccount.t) (e : Py.exn) :
  Db.akahu_accounts db !! id = Some link ->
  Py.opt_truthy (AkahuAccount.ynab_account_id link) = true ->
  (forall days, World.get_account_transactions w id days = Py.Raise e) ->
  let db' :=
    Db.committed (snd (Scheduler.sync_akahu_account_job w id (Db.open_session db clock))) in
  Db.akahu_accounts db' !! id
  = Some (AkahuAccount.set_last_sync_message (Some (Py.str_exn e))
            (AkahuAccount.set_last_sync_status (Some "failed")
               (AkahuAccount.set_last_sync_status (Some "running") link)))
  /\ (AkahuAccount.next_sync_at <$> Db.akahu_accounts db' !! id)
     = Some (AkahuAccount.next_sync_at link)
  /\ (SyncLog.status <$> last (Db.sync_logs db')) = Some "failed".
Proof.
  intros Hl Ht Hf db'. subst db'.
  unfold Scheduler.sync_akahu_account_job, Scheduler.job_body, Db.try_except.
  unfold Db.bind, Db.get_account, Db.open_session.
  cbn [Db.view]. rewrite Hl, Ht. cbn [negb]. rewrite Hf.
  cbn. rewrite !lookup_alter_eq, Hl. cbn.
  split; [reflexivity|]. split; [reflexivity|].
  rewrite !alter_snoc, last_snoc. reflexivity.
Qed.
End FetchFailure.

(** ** A failing gateway leaves the ledger alone *)

Section Gateway.

Lemma keeps_ret {A} (a : A) : keeps (Db.ret a).
Proof. intros L s H. exact H. Qed.

Lemma keeps_raise {A} (e : Py.exn) : keeps (@Db.raise A e).
Proof. intros L s H. exact H. Qed.

Lemma keeps_bind {A B} (c : Db.M A) (k : A -> Db.M B) :
  keeps c -> (forall a, keeps (k a)) -> keeps (Db.bind c k).
Proof.
  intros Hc Hk L s H. unfold Db.bind.
  specialize (Hc L s H). destruct (c s) as [[a|e] s']; cbn [snd] in *.
  - apply Hk. exact Hc.
  - exact Hc.
Qed.

Lemma keeps_try_except {A} (c : Db.M A) (h : Py.exn -> Db.M A) :
  keeps c -> (forall e, keeps (h e)) -> keeps (Db.try_except c h).
Proof.
  intros Hc Hh L s H. unfold Db.try_except.
  specialize (Hc L s H). destruct (c s) as [[a|e] s']; cbn [snd] in *.
  - exact Hc.
  - apply Hh. exact Hc.
Qed.

Lemma keeps_utcnow : keeps Db.utcnow.
Proof. intros L s H. exact H. Qed.

Lemma keeps_get_account k : keeps (Db.get_account k).
Proof. intros L s H. exact H. Qed.

Lemma keeps_update_account k f : keeps (Db.update_account k f).
Proof. intros L s H. exact H. Qed.

Lemma keeps_add_sync_log l : keeps (Db.add_sync_log l).
Proof. intros L s H. exact H. Qed.

Lemma keeps_update_sync_log i f : keeps (Db.update_sync_log i f).
Proof. intros L s H. exact H. Qed.

Lemma keeps_get_existing_hashes : keeps DeduplicationService.get_existing_hashes.
Proof. intros L s H. exact H. Qed.

Lemma keeps_commit : keeps Db.commit.
Proof.
  intros L s (H1 & H2 & H3). unfold Db.commit.
  destruct (Db.inactive s); [repeat split; assumption|].
  rewrite H3, H2. cbn. repeat split; reflexivity.
Qed.

Lemma keeps_finish_failed k i m1 m2 : keeps (Scheduler.finish_failed k i m1 m2).
Proof.
  unfold Scheduler.finish_failed.
  repeat (apply keeps_bind; [|intros ?]);
    auto using keeps_update_sync_log, keeps_update_account, keeps_utcnow, keeps_commit.
Qed.

Lemma keeps_finish_success k i h m n : keeps (Scheduler.finish_success k i h m n).
Proof.
  unfold Scheduler.finish_success.
  repeat (apply keeps_bind; [|intros ?]);
    auto using keeps_update_sync_log, keeps_update_account, keeps_utcnow, keeps_commit.
Qed.

Variable w : World.t.
Hypothesis gateway_down :
  forall budget_id rows, Py.is_raise (World.post_transactions w budget_id rows) = true.

(** With the gateway down, [import_transactions] raises for every batch
    that is not empty. *)
Lemma import_raises (b a : string) (t : YNABClient.tx_dict)
    (l : list YNABClient.tx_dict) :
  exists e, World.import_transactions w b a (t :: l) = Py.Raise e.
Proof.
  unfold World.import_transactions, YNABClient.import_transactions,
    YNABClient.create_transactions.
  destruct (YNABClient.convert _ _ _ _ _) as [rows|e]; [|eauto].
  specialize (gateway_down b rows).
  destruct (World.post_transactions w b rows) as [r|e]; [discriminate|eauto].
Qed.

Lemma keeps_manual (id : string) (days : Z) (skip : bool) :
  keeps (AkahuRouter.sync_akahu_account w id days skip).
Proof.
  unfold AkahuRouter.sync_akahu_account.
  apply keeps_bind; [apply keeps_get_account|]. intros [link|]; [|apply keeps_raise].
  destruct (negb _); [apply keeps_raise|].
  destruct (World.get_account_transactions w id days) as [[|tx txs]|e];
    [apply keeps_ret| |apply keeps_raise].
  apply keeps_bind; [apply keeps_get_existing_hashes|]. intros existing.
  destruct (AkahuRouter.partition _ _ _ _ _ _ _) as [[[|d ds] creates] skipped];
    [apply keeps_ret|].
  destruct (import_raises (Convert.fmt_opt (AkahuAccount.ynab_budget_id link))
              (Convert.fmt_opt (AkahuAccount.ynab_account_id link)) d ds) as [e ->].
  apply keeps_raise.
Qed.

Lemma keeps_job (id : string) : keeps (Scheduler.sync_akahu_account_job w id).
Proof.
  unfold Scheduler.sync_akahu_account_job.
  apply keeps_try_except.
  - unfold Scheduler.job_body.
    apply keeps_bind; [apply keeps_get_account|]. intros [link|]; [|apply keeps_ret].
    destruct (negb _); [apply keeps_ret|].
    apply keeps_bind; [apply keeps_utcnow|]. intros started.
    apply keeps_bind; [apply keeps_add_sync_log|]. intros i.
    apply keeps_bind; [apply keeps_commit|]. intros _.
    apply keeps_bind; [apply keeps_update_account|]. intros _.
    apply keeps_bind; [apply keeps_commit|]. intros _.
    destruct (World.get_account_transactions w id _) as [txs|e];
      [|apply keeps_finish_failed].
    apply keeps_bind; [apply keeps_update_sync_log|]. intros _.
    destruct txs as [|tx txs].
    { apply keeps_bind; [apply keeps_finish_success|]. intros _. apply keeps_commit. }
    apply keeps_bind; [apply keeps_get_existing_hashes|]. intros existing.
    destruct (Scheduler.partition _ _ _ _ _ _) as [[[|d ds] creates] skipped].
    { apply keeps_bind; [apply keeps_update_sync_log|]. intros _.
      apply keeps_bind; [apply keeps_finish_success|]. intros _. apply keeps_commit. }
    apply keeps_bind; [apply keeps_update_sync_log|]. intros _.
    destruct (import_raises (Convert.fmt_opt (AkahuAccount.ynab_budget_id link))
                (Convert.fmt_opt (AkahuAccount.ynab_account_id link)) d ds) as [e ->].
    apply keeps_finish_failed.
  - intros e. unfold Scheduler.recover. apply keeps_try_except.
    + repeat (apply keeps_bind; [|intros ?]);
        auto using keeps_update_account, keeps_commit.
    + intros _. apply keeps_ret.
Qed.

(** C9.  When the gateway is down (every POST raises), neither the manual
    sync nor the scheduled job changes the table of imported transactions:
    no Import Record is created for any transaction of the batch. *)
Theorem gateway_failure_leaves_ledger (id : string) (days : Z) (skip : bool)
    (db : Db.Database) (clock : nat -> PyDatetime.timestamp) :
  Db.imported_transactions
    (Db.committed (snd (AkahuRouter.sync_akahu_account w id days skip
                          (Db.open_session db clock))))
  = Db.imported_transactions db
  /\ Db.imported_transactions
       (Db.committed (snd (Scheduler.sync_akahu_account_job w id
                             (Db.open_session db clock))))
     = Db.imported_transactions db.
Proof.
  assert (H0 : ledger_is (Db.imported_transactions db) (Db.open_session db clock))
    by (repeat split; reflexivity).
  split.
  - apply (keeps_manual id days skip _ _ H0).
  - apply (keeps_job id _ _ H0).
Qed.

End Gateway.

Lemma gateway_failure_leaves_ledger_witness :
  (forall budget_id rows,
     Py.is_raise (World.post_transactions Sample.world_gateway_fails budget_id rows)
     = true)
  /\ Db.imported_transactions
       (Db.committed (snd (AkahuRouter.sync_akahu_account Sample.world_gateway_fails
                             "acc_1" 30 true
                             (Db.open_session Sample.db_with_c1 Sample.clock))))
     = Db.imported_transactions Sample.db_with_c1
  /\ Db.imported_transactions
       (Db.committed (snd (Scheduler.sync_akahu_account_job Sample.world_gateway_fails
                             "acc_1"
                             (Db.open_session Sample.db_with_c1 Sample.clock))))
     = Db.imported_transactions Sample.db_with_c1.
Proof.
  split; [intros budget_id rows; reflexivity|].
  apply (gateway_failure_leaves_ledger Sample.world_gateway_fails).
  intros budget_id rows. reflexivity.
Defined.

(** In that run the gateway is reached and its failure is reported: the
    request ends in a 500, the job marks log and account as failed. *)
Example gateway_failure_reported :
  let manual :=
    AkahuRouter.sync_akahu_account Sample.world_gateway_fails "acc_1" 30 true
      (Db.open_session Sample.db_with_c1 Sample.clock) in
  let job :=
    Db.committed (snd (Scheduler.sync_akahu_account_job Sample.world_gateway_fails
                         "acc_1" (Db.open_session Sample.db_with_c1 Sample.clock))) in
  fst manual = Py.Raise (Py.HTTPException 500 "Failed to import to YNAB: timed out")
  /\ (SyncLog.status <$> Db.sync_logs job !! 0%nat) = Some "failed"
  /\ (AkahuAccount.last_sync_message <$> Db.akahu_accounts job !! "acc_1")
     = Some (Some "YNAB import failed: timed out").
Proof. vm_compute. repeat split; reflexivity. Qed.


(** ** Runs in flight *)

Section ManualIgnoresState.

Lemma agrees_ret {A} (a : A) : agrees (Db.ret a).
Proof. intros s s' H. split; [reflexivity|exact H]. Qed.

Lemma agrees_raise {A} (e : Py.exn) : agrees (@Db.raise A e).
Proof. intros s s' H. split; [reflexivity|exact H]. Qed.

Lemma agrees_bind {A B} (c : Db.M A) (k : A -> Db.M B) :
  agrees c -> (forall a, agrees (k a)) -> agrees (Db.bind c k).
Proof.
  intros Hc Hk s s' H. unfold Db.bind.
  destruct (Hc s s' H) as [Hf Hs].
  destruct (c s) as [[a|e] s1], (c s') as [[a'|e'] s1']; cbn [fst snd] in *;
    try discriminate.
  - injection Hf as <-. apply Hk. exact Hs.
  - injection Hf as <-. split; [reflexivity|exact Hs].
Qed.

Lemma agrees_utcnow : agrees Db.utcnow.
Proof.
  intros s s' (H1 & H2 & H3 & H4 & H5 & H6). unfold Db.utcnow. cbn.
  rewrite H5, H6. repeat split; assumption || (f_equal; assumption).
Qed.

Lemma agrees_update_account k f : agrees (Db.update_account k f).
Proof.
  intros s s' (H1 & H2 & H3 & H4 & H5 & H6).
  split; [reflexivity|]. repeat split; assumption.
Qed.

Lemma agrees_get_existing_hashes : agrees DeduplicationService.get_existing_hashes.
Proof.
  intros s s' (H1 & H2 & H3 & H4 & H5 & H6).
  unfold DeduplicationService.get_existing_hashes, Db.bind, Db.select_hashes, Db.ret.
  cbn [fst snd]. rewrite H2. split; [reflexivity|]. repeat split; assumption.
Qed.

Lemma agrees_add_rows pairs b a : agrees (DeduplicationService.add_rows pairs b a).
Proof.
  intros s s' (H1 & H2 & H3 & H4 & H5 & H6). rewrite !add_rows_spec.
  cbn [fst snd]. split; [reflexivity|].
  repeat split; cbn; try assumption.
  - rewrite H3, H5, H6. reflexivity.
  - rewrite H6. reflexivity.
Qed.

Lemma agrees_commit : agrees Db.commit.
Proof.
  intros s s' (H1 & H2 & H3 & H4 & H5 & H6). unfold Db.commit.
  rewrite <- H4, <- H2, <- H3.
  destruct (Db.inactive s) eqn:Hi; cbn [fst snd].
  - split; [reflexivity|]. unfold same_ledger. rewrite Hi. repeat split; assumption.
  - destruct (Db.flush _ _); cbn [fst snd]; (split; [reflexivity|]);
      unfold same_ledger; cbn; repeat split; assumption.
Qed.

Lemma agrees_record_imports_batch txs b a ids :
  agrees (DeduplicationService.record_imports_batch txs b a ids).
Proof.
  unfold DeduplicationService.record_imports_batch.
  destruct txs as [|tx txs]; [apply agrees_ret|].
  apply agrees_bind; [apply agrees_add_rows|]. intros _.
  apply agrees_bind; [apply agrees_commit|]. intros _. apply agrees_ret.
Qed.

Lemma bind_get_account {B} (id : string) (k : option AkahuAccount.t -> Db.M B)
    (s : Db.Session) :
  Db.bind (Db.get_account id) k s = k (Db.akahu_accounts (Db.view s) !! id) s.
Proof. reflexivity. Qed.

(** The answer of a manual sync does not depend on the account's
    [last_sync_status]: the handler never looks at it. *)
Lemma manual_sync_ignores_run_state (w : World.t) (id : string) (days : Z)
    (skip : bool) (db : Db.Database) (clock : nat -> PyDatetime.timestamp)
    (link : AkahuAccount.t) (status : option string) :
  Db.akahu_accounts db !! id = Some link ->
  let db' :=
    Db.mkDatabase (Db.imported_transactions db)
      (<[id := AkahuAccount.set_last_sync_status status link]> (Db.akahu_accounts db))
      (Db.sync_logs db) in
  fst (AkahuRouter.sync_akahu_account w id days skip (Db.open_session db' clock))
  = fst (AkahuRouter.sync_akahu_account w id days skip (Db.open_session db clock)).
Proof.
  intros Hl db'. subst db'.
  unfold AkahuRouter.sync_akahu_account. rewrite !bind_get_account.
  unfold Db.open_session at 1 3. cbn [Db.view Db.akahu_accounts].
  rewrite lookup_insert_eq, Hl.
  cbn [AkahuAccount.set_last_sync_status AkahuAccount.ynab_account_id
       AkahuAccount.ynab_budget_id].
  match goal with
  | |- fst (?k ?s1) = fst (?k ?s2) => enough (Hk : agrees k) by (apply Hk; repeat split)
  end.
  destruct (negb _); [apply agrees_raise|].
  destruct (World.get_account_transactions w id days) as [[|tx txs]|e];
    [apply agrees_ret| |apply agrees_raise].
  apply agrees_bind; [apply agrees_get_existing_hashes|]. intros existing.
  destruct (AkahuRouter.partition _ _ _ _ _ _ _) as [[[|d ds] creates] skipped];
    [apply agrees_ret|].
  destruct (World.import_transactions _ _ _ _) as [res|e]; [|apply agrees_raise].
  apply agrees_bind; [apply agrees_record_imports_batch|]. intros _.
  apply agrees_bind; [apply agrees_utcnow|]. intros now.
  apply agrees_bind; [apply agrees_update_account|]. intros _.
  apply agrees_bind; [apply agrees_commit|]. intros _.
  apply agrees_ret.
Qed.

End ManualIgnoresState.

Section SingleFlight.

Lemma step_keeps_scheduled (st : Orchestrator.state) (ev : Orchestrator.event) :
  at_most_one_scheduled st -> at_most_one_scheduled (Orchestrator.step st ev).
Proof.
  intros H id. destruct ev as [j|j|a|a]; cbn [Orchestrator.step].
  - destruct (Orchestrator.jobs st !! j); [|apply H].
    destruct (Nat.leb_spec Scheduler.max_instances (Orchestrator.scheduled_running st j))
      as [Hfull|Hfree]; [apply H|].
    unfold Orchestrator.scheduled_running at 1. cbn [Orchestrator.instances].
    destruct (decide (j = id)) as [->|Hne].
    + rewrite lookup_insert_eq. cbn. lia.
    + rewrite lookup_insert_ne by exact Hne. apply H.
  - unfold Orchestrator.scheduled_running at 1. cbn [Orchestrator.instances].
    destruct (decide (j = id)) as [->|Hne].
    + rewrite lookup_insert_eq. cbn. specialize (H id). lia.
    + rewrite lookup_insert_ne by exact Hne. apply H.
  - destruct (Orchestrator.linked st a); apply H.
  - apply H.
Qed.

Lemma run_keeps_scheduled (evs : list Orchestrator.event) (st : Orchestrator.state) :
  at_most_one_scheduled st -> at_most_one_scheduled (Orchestrator.run st evs).
Proof.
  revert st. induction evs as [|ev evs IH]; intros st H; [exact H|].
  cbn. apply IH. apply step_keeps_scheduled. exact H.
Qed.

(** C2 (counterexample).  The job of account [acc_1] is running when a
    manual sync of the same account arrives: the request is served, and two
    runs of the account execute at once.  The handler itself, given the
    account with [last_sync_status = 'running'], goes through the whole
    pipeline. *)
Lemma manual_sync_during_scheduled_run :
  let st0 :=
    Orchestrator.start (Db.akahu_accounts Sample.db)
      (JobStore.schedule_account_sync Sample.account ∅) in
  let st1 := Orchestrator.step st0 (Orchestrator.TriggerFires "sync_acc_1") in
  let st2 := Orchestrator.step st1 (Orchestrator.ManualSync "acc_1") in
  Orchestrator.scheduled_running st1 "sync_acc_1" = 1%nat
  /\ Orchestrator.running st1 "acc_1" = 1%nat
  /\ Orchestrator.running st2 "acc_1" = 2%nat
  /\ fst (AkahuRouter.sync_akahu_account Sample.world "acc_1" 30 true
            (Db.open_session Sample.db_running Sample.clock))
     = Py.Return (AkahuRouter.Synced 1 0 0 ["id-YNAB:-12500:2024-01-15:1"]).
Proof. vm_compute. repeat split; reflexivity. Qed.

(** C2 (amended).  From the start of the scheduler on, no job ever has more
    than one instance running: a trigger that fires while the instance of
    its job runs changes nothing (it is dropped, not queued).  A manual sync
    is not subject to this: it starts a run of every linked account,
    whatever is running. *)
Theorem scheduled_runs_single_flight
    (accounts : gmap string AkahuAccount.t) (jobs : gmap string JobStore.job)
    (evs : list Orchestrator.event) :
  let st := Orchestrator.run (Orchestrator.start accounts jobs) evs in
  (forall id, (Orchestrator.scheduled_running st id <= 1)%nat)
  /\ (forall id, Orchestrator.scheduled_running st id = 1%nat ->
        Orchestrator.step st (Orchestrator.TriggerFires id) = st)
  /\ (forall a,
        Orchestrator.manual_running (Orchestrator.step st (Orchestrator.ManualSync a)) a
        = (Orchestrator.manual_running st a
           + (if Orchestrator.linked st a then 1 else 0))%nat
        /\ Orchestrator.scheduled_running
             (Orchestrator.step st (Orchestrator.ManualSync a)) (JobStore.job_id a)
           = Orchestrator.scheduled_running st (JobStore.job_id a)).
Proof.
  intros st. split; [|split].
  - apply run_keeps_scheduled. intros id.
    unfold Orchestrator.scheduled_running, Orchestrator.start.
    cbn [Orchestrator.instances]. rewrite lookup_empty.
    unfold Scheduler.max_instances. cbn. lia.
  - intros id Hid. cbn [Orchestrator.step]. rewrite Hid.
    destruct (Orchestrator.jobs st !! id); reflexivity.
  - intros a. cbn [Orchestrator.step].
    destruct (Orchestrator.linked st a); split; try reflexivity.
    + unfold Orchestrator.manual_running. cbn [Orchestrator.requests count_occ].
      destruct (string_dec a a); [lia|contradiction].
    + lia.
Qed.

End SingleFlight.

(** ** Import keys *)

Section ImportKey.

Variable fromisoformat : string -> Py.result PyDatetime.datetime.

Lemma counts_agree_insert (counts : gmap string Z) (earlier : list string)
    (key : string) :
  counts_agree counts earlier ->
  counts_agree (<[key := default 0 (counts !! key) + 1]> counts) (earlier ++ [key]).
Proof.
  intros H key'. rewrite count_occ_app. cbn [count_occ].
  destruct (decide (key = key')) as [->|Hne].
  - rewrite lookup_insert_eq. cbn [default]. rewrite H.
    unfold id. destruct (string_dec key' key'); [lia|contradiction].
  - rewrite lookup_insert_ne by exact Hne. rewrite H.
    destruct (string_dec key key'); [contradiction|lia].
Qed.

Lemma convert_expected (account_id : string)
    (items : list (YNABClient.tx_dict * (PyDatetime.date * Z)))
    (counts : gmap string Z) (earlier : list string)
    (acc : list YNABClient.ynab_tx) :
  Forall (fun it => ImportKeys.parsed fromisoformat (fst it) = Py.Return (snd it)) items ->
  counts_agree counts earlier ->
  YNABClient.convert fromisoformat account_id (map fst items) counts acc
  = Py.Return (acc ++ ImportKeys.expected account_id earlier items)%list.
Proof.
  revert counts earlier acc.
  induction items as [|[tx [d mu]] rest IH]; intros counts earlier acc Hall Hc.
  - cbn. rewrite app_nil_r. reflexivity.
  - apply Forall_cons in Hall as [Hp Hall]. cbn [fst snd] in Hp.
    unfold ImportKeys.parsed in Hp.
    cbn [map fst YNABClient.convert].
    destruct (YNABClient.parse_date fromisoformat (YNABClient.date tx)) as [d'|e];
      [|discriminate].
    destruct (YNABClient.dollars_to_milliunits (YNABClient.amount tx)) as [mu'|e];
      [|discriminate].
    injection Hp as -> ->.
    rewrite (IH _ (earlier ++ [YNABClient.base_key mu d])%list).
    + rewrite <- app_assoc. cbn [app ImportKeys.expected].
      unfold ImportKeys.occurrence, ImportKeys.key_of. cbn [fst snd].
      rewrite (Hc (YNABClient.base_key mu d)).
      rewrite (Z.add_comm 1). reflexivity.
    + exact Hall.
    + apply counts_agree_insert. exact Hc.
Qed.

Lemma expected_length account_id earlier items :
  length (ImportKeys.expected account_id earlier items) = length items.
Proof.
  revert earlier. induction items as [|[tx [d mu]] rest IH]; intros earlier;
    [reflexivity|]. cbn [ImportKeys.expected length]. rewrite IH. reflexivity.
Qed.

Lemma expected_lookup account_id items : forall earlier i it,
  items !! i = Some it ->
  (YNABClient.import_id <$> ImportKeys.expected account_id earlier items !! i)
  = Some (YNABClient.generate_import_id (fst (snd it)) (snd (snd it))
            (ImportKeys.occurrence
               (earlier ++ map ImportKeys.key_of (take i items))
               (ImportKeys.key_of it))).
Proof.
  induction items as [|[tx [d mu]] rest IH]; intros earlier i it Hi; [discriminate|].
  destruct i as [|i].
  - injection Hi as <-. cbn. rewrite app_nil_r. reflexivity.
  - cbn [ImportKeys.expected]. cbn [lookup list_lookup].
    rewrite (IH _ i it Hi). cbn [take map]. rewrite <- app_assoc. reflexivity.
Qed.


(** Two transactions with the same date and amount get keys that differ in
    the trailing counter only, whatever their payees. *)
Lemma same_amount_date_differ_in_counter (account_id : string)
    (t1 t2 : YNABClient.tx_dict) (d : PyDatetime.date) (mu : Z) :
  ImportKeys.parsed fromisoformat t1 = Py.Return (d, mu) ->
  YNABClient.date t2 = YNABClient.date t1 ->
  YNABClient.amount t2 = YNABClient.amount t1 ->
  exists y1 y2,
    YNABClient.convert fromisoformat account_id [t1; t2] ∅ [] = Py.Return [y1; y2]
    /\ YNABClient.import_id y1
       = "YNAB:" ++ Py.str_int mu ++ ":" ++ PyDatetime.date_isoformat d ++ ":" ++ "1"
    /\ YNABClient.import_id y2
       = "YNAB:" ++ Py.str_int mu ++ ":" ++ PyDatetime.date_isoformat d ++ ":" ++ "2"
    /\ YNABClient.payee_name y1 = YNABClient.payee t1
    /\ YNABClient.payee_name y2 = YNABClient.payee t2.
Proof.
  intros H1 Hd Ha.
  assert (H2 : ImportKeys.parsed fromisoformat t2 = Py.Return (d, mu)).
  { unfold ImportKeys.parsed in *. rewrite Hd, Ha. exact H1. }
  pose proof (convert_expected account_id [(t1, (d, mu)); (t2, (d, mu))] ∅ [] []) as Hc.
  cbn [map fst] in Hc. rewrite Hc.
  - cbn [app ImportKeys.expected]. do 2 eexists. split; [reflexivity|].
    unfold ImportKeys.occurrence, ImportKeys.key_of. cbn [fst snd app count_occ].
    destruct (string_dec _ _) as [_|Hne]; [|contradiction].
    repeat split; reflexivity.
  - repeat constructor; assumption.
  - intros key. rewrite lookup_empty. reflexivity.
Qed.

End ImportKey.


(** * Further properties *)

(** ** More on the ledger: [services/dedup.py] *)

Section Preserves.

Context (P : Db.Session -> Prop).

Lemma preserves_ret {A} (a : A) : preserves P (Db.ret a).
Proof. intros s H. exact H. Qed.

Lemma preserves_raise {A} (e : Py.exn) : preserves P (@Db.raise A e).
Proof. intros s H. exact H. Qed.

Lemma preserves_lift {A} (r : Py.result A) : preserves P (Db.lift r).
Proof. intros s H. exact H. Qed.

Lemma preserves_bind {A B} (c : Db.M A) (k : A -> Db.M B) :
  preserves P c -> (forall a, preserves P (k a)) -> preserves P (Db.bind c k).
Proof.
  intros Hc Hk s H. unfold Db.bind. specialize (Hc s H).
  destruct (c s) as [[a|e] s']; cbn in *; [apply Hk; exact Hc | exact Hc].
Qed.

Lemma preserves_try_except {A} (c : Db.M A) (h : Py.exn -> Db.M A) :
  preserves P c -> (forall e, preserves P (h e)) -> preserves P (Db.try_except c h).
Proof.
  intros Hc Hh s H. unfold Db.try_except. specialize (Hc s H).
  destruct (c s) as [[a|e] s']; cbn in *; [exact Hc | apply Hh; exact Hc].
Qed.

End Preserves.

Section LedgerMore.

(** The flush succeeds exactly when the new rows have fingerprints that
    differ from each other and from those of the table. *)
Lemma flush_is_Some (new table : list ImportedTransaction.t) :
  is_Some (Db.flush table new)
  <-> NoDup (Db.hashes new)
      /\ forall h, h ∈ Db.hashes new -> h ∉ Db.hashes table.
Proof.
  revert table. induction new as [|r rest IH]; intros table.
  - cbn. split; [intros _; split; [constructor | intros h Hh; inversion Hh] | eauto].
  - cbn [Db.flush]. case_bool_decide as Hr.
    + split; [intros [x Hx]; discriminate|].
      intros [_ Hd]. exfalso. apply (Hd _ (list_elem_of_here _ _)). exact Hr.
    + rewrite IH. unfold Db.hashes in *. cbn [map]. rewrite map_app. cbn [map].
      rewrite NoDup_cons. setoid_rewrite elem_of_cons.
      setoid_rewrite elem_of_app. setoid_rewrite list_elem_of_singleton.
      split.
      * intros [Hnd Hd]. split; [split; [|exact Hnd]|].
        -- intros Hin. apply (Hd _ Hin). right. reflexivity.
        -- intros h [->|Hh]; [exact Hr|]. intros Ht. apply (Hd _ Hh). left. exact Ht.
      * intros [[Hnin Hnd] Hd]. split; [exact Hnd|].
        intros h Hh [Ht| ->]; [apply (Hd h); [right; exact Hh | exact Ht] | contradiction].
Qed.

Lemma flush_NoDup (new table t : list ImportedTransaction.t) :
  NoDup (Db.hashes table) -> Db.flush table new = Some t -> NoDup (Db.hashes t).
Proof.
  intros Hnd H. pose proof (flush_some _ _ _ H) as ->.
  assert (is_Some (Db.flush table new)) as Hs by (rewrite H; eauto).
  apply flush_is_Some in Hs as [Hn Hd].
  unfold Db.hashes in *. rewrite map_app. apply NoDup_app. repeat split; try assumption.
  intros h Ht Hn'. exact (Hd h Hn' Ht).
Qed.

(** X1.  [record_imports_batch] returns exactly when the fingerprints of the
    transactions that the [zip] reaches differ from each other and from
    every fingerprint of the ledger: it then returns the number of
    transactions and appends their rows.  In every other case, two equal
    transactions in one batch included, it raises [IntegrityError] and the
    database is as it was. *)
Theorem record_imports_batch_returns_iff
    (transactions : list TransactionCreate.t) (b a : option string)
    (ids : option (list (option string)))
    (db : Db.Database) (clock : nat -> PyDatetime.timestamp) :
  let zipped :=
    combine transactions
      (DeduplicationService.ynab_ids_or_none ids (length transactions)) in
  let fresh :=
    NoDup (map (fun p => Rows.hash_of (fst p)) zipped)
    /\ forall p, p ∈ zipped ->
         Rows.hash_of (fst p) ∉ Db.hashes (Db.imported_transactions db) in
  let r :=
    DeduplicationService.record_imports_batch transactions b a ids
      (Db.open_session db clock) in
  (fresh ->
     fst r = Py.Return (Z.of_nat (length transactions))
     /\ Db.imported_transactions (Db.committed (snd r))
        = (Db.imported_transactions db ++ Rows.rows_of zipped b a clock 0)%list)
  /\ (~ fresh ->
     fst r = Py.Raise Db.IntegrityError /\ Db.committed (snd r) = db).
Proof.
  intros zipped fresh r.
  destruct transactions as [|tx rest].
  { subst r fresh zipped. cbn. split; [intros _; rewrite app_nil_r; auto|].
    intros H. exfalso. apply H. split; [constructor | intros p Hp; inversion Hp]. }
  assert (Hr : r = (DeduplicationService.add_rows zipped b a ;;; Db.commit ;;;
                    Db.ret (Z.of_nat (length (tx :: rest))))
                     (Db.open_session db clock)) by reflexivity.
  rewrite add_commit_spec in Hr.
  assert (Hf : is_Some (Db.flush (Db.imported_transactions db)
                                 (Rows.rows_of zipped b a clock 0)) <-> fresh).
  { rewrite flush_is_Some, rows_of_hashes. subst fresh.
    apply and_iff_compat_l. split.
    - intros H p Hp. apply H. apply list_elem_of_fmap. exists p. auto.
    - intros H h Hh. apply list_elem_of_fmap in Hh as [p [-> Hp]]. apply H, Hp. }
  destruct (Db.flush (Db.imported_transactions db)
                     (Rows.rows_of zipped b a clock 0)) as [t|] eqn:E.
  - split.
    + intros _. rewrite Hr. cbn. split; [reflexivity|].
      apply flush_some in E. exact E.
    + intros Hn. exfalso. apply Hn, Hf. eauto.
  - split.
    + intros H. apply Hf in H as [x Hx]. discriminate.
    + intros _. rewrite Hr. cbn. auto.
Qed.

End LedgerMore.

(** Walking through a computation, one layer at a time, with [prim] for
    the steps that are specific to the property. *)
Ltac preserves_step prim :=
  lazymatch goal with
  | |- preserves _ (Db.bind _ _) => apply preserves_bind; [|intros ?]
  | |- preserves _ (Db.try_except _ _) => apply preserves_try_except; [|intros ?]
  | |- preserves _ (Db.ret _) => apply preserves_ret
  | |- preserves _ (Db.raise _) => apply preserves_raise
  | |- preserves _ (Db.lift _) => apply preserves_lift
  | |- preserves _ (let _ := _ in _) => cbv zeta
  | |- preserves _ (match ?x with _ => _ end) => destruct x eqn:?
  | |- preserves _ _ => prim
  end.

Ltac preserves_walk prim := repeat (preserves_step prim).

Section UniqueLedger.

Lemma unique_ledger_same (s s' : Db.Session) :
  Db.imported_transactions (Db.committed s')
  = Db.imported_transactions (Db.committed s) ->
  Db.imported_transactions (Db.view s') = Db.imported_transactions (Db.view s) ->
  unique_ledger s -> unique_ledger s'.
Proof. intros H1 H2 [Hc Hv]. split; [rewrite H1 | rewrite H2]; assumption. Qed.

Lemma unique_commit : preserves unique_ledger Db.commit.
Proof.
  intros s [Hc Hv]. unfold Db.commit.
  destruct (Db.inactive s); [split; assumption|].
  destruct (Db.flush _ _) as [t|] eqn:E; cbn.
  - apply flush_NoDup in E; [|exact Hv]. split; exact E.
  - split; exact Hc.
Qed.

Lemma unique_add_rows pairs b a :
  preserves unique_ledger (DeduplicationService.add_rows pairs b a).
Proof.
  intros s H. rewrite add_rows_spec. cbn.
  apply (unique_ledger_same s); [reflexivity..|exact H].
Qed.

Ltac unique_prim :=
  idtac;
  lazymatch goal with
  | |- preserves _ Db.commit => apply unique_commit
  | |- preserves _ (DeduplicationService.add_rows _ _ _) => apply unique_add_rows
  | |- preserves _ _ =>
      let s := fresh "s" in let H := fresh "H" in
      intros s H; apply (unique_ledger_same s); [reflexivity..|exact H]
  end.

Lemma unique_record_imports_batch transactions b a ids :
  preserves unique_ledger
    (DeduplicationService.record_imports_batch transactions b a ids).
Proof.
  unfold DeduplicationService.record_imports_batch.
  destruct transactions; preserves_walk unique_prim.
Qed.

Lemma unique_finish_success k i h m n :
  preserves unique_ledger (Scheduler.finish_success k i h m n).
Proof. unfold Scheduler.finish_success. preserves_walk unique_prim. Qed.

Lemma unique_finish_failed k i m1 m2 :
  preserves unique_ledger (Scheduler.finish_failed k i m1 m2).
Proof. unfold Scheduler.finish_failed. preserves_walk unique_prim. Qed.

Ltac unique_more :=
  idtac;
  lazymatch goal with
  | |- preserves _ (DeduplicationService.record_imports_batch _ _ _ _) =>
      apply unique_record_imports_batch
  | |- preserves _ (Scheduler.finish_success _ _ _ _ _) => apply unique_finish_success
  | |- preserves _ (Scheduler.finish_failed _ _ _ _) => apply unique_finish_failed
  | |- preserves _ _ => unique_prim
  end.

(** X2.  The unique index at work: whatever the collaborators answer, no
    operation that writes to the ledger ever leaves two rows with the same
    fingerprint in it. *)
Theorem ledger_fingerprints_stay_unique (w : World.t) :
  (forall transactions b a ids,
      preserves unique_ledger
        (DeduplicationService.record_imports_batch transactions b a ids))
  /\ (forall tx h b a id,
      preserves unique_ledger (DeduplicationService.record_import tx h b a id))
  /\ (forall id days skip,
      preserves unique_ledger (AkahuRouter.sync_akahu_account w id days skip))
  /\ (forall id, preserves unique_ledger (Scheduler.sync_akahu_account_job w id))
  /\ (forall transactions b a skip,
      preserves unique_ledger
        (CsvRouter.import_csv_transactions w transactions b a skip)).
Proof.
  split; [|split; [|split; [|split]]]; intros.
  - apply unique_record_imports_batch.
  - unfold DeduplicationService.record_import. preserves_walk unique_prim.
  - unfold AkahuRouter.sync_akahu_account.
    preserves_walk unique_more.
  - unfold Scheduler.sync_akahu_account_job, Scheduler.job_body, Scheduler.recover.
    preserves_walk unique_more.
  - unfold CsvRouter.import_csv_transactions.
    preserves_walk unique_more.
Qed.

End UniqueLedger.

Section KnownFingerprints.

Lemma filter_by_hash (l : list ImportedTransaction.t) (h : string) :
  NoDup (Db.hashes l) ->
  ((h ∉ Db.hashes l)
   /\ filter (fun r => ImportedTransaction.transaction_hash r = h) l = [])
  \/ (h ∈ Db.hashes l
      /\ exists r, filter (fun r => ImportedTransaction.transaction_hash r = h) l = [r]
                   /\ ImportedTransaction.transaction_hash r = h).
Proof.
  induction l as [|r0 l IH]; intros Hnd.
  - left. split; [apply not_elem_of_nil | reflexivity].
  - unfold Db.hashes in *. cbn [map] in *. apply NoDup_cons in Hnd as [Hnin Hnd].
    rewrite filter_cons. destruct (decide (ImportedTransaction.transaction_hash r0 = h)) as [E|E].
    + right. split; [rewrite E; apply list_elem_of_here|].
      destruct (IH Hnd) as [[_ ->]|[Hin _]]; [eauto|].
      rewrite E in Hnin. contradiction.
    + destruct (IH Hnd) as [[Hn ->]|[Hin Hr]].
      * left. split; [|reflexivity]. rewrite elem_of_cons. intros [->|?]; auto.
      * right. split; [apply list_elem_of_further; exact Hin | exact Hr].
Qed.

Lemma is_duplicate_known (s : Db.Session) (h : string) :
  NoDup (Db.hashes (Db.imported_transactions (Db.view s))) ->
  DeduplicationService.is_duplicate h s
  = (Py.Return (bool_decide (h ∈ Db.hashes (Db.imported_transactions (Db.view s)))), s).
Proof.
  intros Hnd. unfold DeduplicationService.is_duplicate, Db.bind, Db.select_by_hash.
  destruct (filter_by_hash _ h Hnd) as [[Hn ->]|[Hin [r [-> _]]]]; cbn.
  - rewrite bool_decide_eq_false_2; auto.
  - rewrite bool_decide_eq_true_2; auto.
Qed.


Lemma record_imports_batch_returned
    (transactions : list TransactionCreate.t) (b a : option string)
    (ids : option (list (option string)))
    (db : Db.Database) (clock : nat -> PyDatetime.timestamp) (n : Z)
    (s' : Db.Session) :
  DeduplicationService.record_imports_batch transactions b a ids
    (Db.open_session db clock) = (Py.Return n, s') ->
  Db.view s' = Db.committed s'
  /\ Db.imported_transactions (Db.committed s')
     = (Db.imported_transactions db
        ++ Rows.rows_of
             (combine transactions
                (DeduplicationService.ynab_ids_or_none ids (length transactions)))
             b a clock 0)%list.
Proof.
  unfold DeduplicationService.record_imports_batch.
  destruct transactions as [|tx rest].
  - cbn. intros [= <- <-]. cbn. rewrite app_nil_r. auto.
  - rewrite add_commit_spec.
    destruct (Db.flush _ _) as [t|] eqn:Hf; [|discriminate].
    intros [= <- <-]. cbn. split; [reflexivity|]. apply flush_some in Hf. exact Hf.
Qed.

Lemma zipped_hash_in_rows (transactions : list TransactionCreate.t)
    (ynab_ids : list (option string)) (b a : option string)
    (clock : nat -> PyDatetime.timestamp) (tick k : nat) (tx : TransactionCreate.t) :
  transactions !! k = Some tx -> (k < length ynab_ids)%nat ->
  Rows.hash_of tx ∈ Db.hashes (Rows.rows_of (combine transactions ynab_ids) b a clock tick).
Proof.
  intros Hk Hlt. rewrite rows_of_hashes.
  destruct (lookup_lt_is_Some_2 ynab_ids k Hlt) as [i Hi].
  apply list_elem_of_fmap. exists (tx, i). split; [reflexivity|].
  apply list_elem_of_lookup. exists k.
  change (combine transactions ynab_ids) with (zip transactions ynab_ids).
  rewrite lookup_zip_with_Some. exists tx, i. auto.
Qed.

(** After a batch has been recorded, every fingerprint of the ledger, old
    or new, is known. *)
Lemma known_after_batch
    (transactions : list TransactionCreate.t) (b a : option string)
    (ids : option (list (option string)))
    (db : Db.Database) (clock : nat -> PyDatetime.timestamp) (n : Z)
    (s' : Db.Session) (h : string) :
  NoDup (Db.hashes (Db.imported_transactions db)) ->
  DeduplicationService.record_imports_batch transactions b a ids
    (Db.open_session db clock) = (Py.Return n, s') ->
  h ∈ Db.hashes (Db.imported_transactions db)
  \/ h ∈ Db.hashes
           (Rows.rows_of
              (combine transactions
                 (DeduplicationService.ynab_ids_or_none ids (length transactions)))
              b a clock 0) ->
  DeduplicationService.is_duplicate h s' = (Py.Return true, s').
Proof.
  intros Hnd Hr Hh.
  assert (Hu : unique_ledger s').
  { pose proof (unique_record_imports_batch transactions b a ids
                  (Db.open_session db clock)) as H.
    rewrite Hr in H. apply H. split; exact Hnd. }
  destruct (record_imports_batch_returned _ _ _ _ _ _ _ _ Hr) as [Hv Hl].
  rewrite is_duplicate_known by apply Hu.
  rewrite bool_decide_eq_true_2; [reflexivity|].
  rewrite Hv, Hl. unfold Db.hashes in *. rewrite map_app. apply elem_of_app.
  exact Hh.
Qed.

(** X4.  What [record_imports_batch] has recorded is known afterwards: when
    the call returns, [is_duplicate] answers [True] for the fingerprint of
    every transaction that the [zip] reached, and for every fingerprint
    that was in the ledger before. *)
Theorem recorded_transactions_are_known
    (transactions : list TransactionCreate.t) (b a : option string)
    (ids : option (list (option string)))
    (db : Db.Database) (clock : nat -> PyDatetime.timestamp) (n : Z)
    (s' : Db.Session) :
  NoDup (Db.hashes (Db.imported_transactions db)) ->
  DeduplicationService.record_imports_batch transactions b a ids
    (Db.open_session db clock) = (Py.Return n, s') ->
  (forall k tx,
      transactions !! k = Some tx ->
      (k < length (DeduplicationService.ynab_ids_or_none ids (length transactions)))%nat ->
      DeduplicationService.is_duplicate (Rows.hash_of tx) s' = (Py.Return true, s'))
  /\ (forall h,
      h ∈ Db.hashes (Db.imported_transactions db) ->
      DeduplicationService.is_duplicate h s' = (Py.Return true, s')).
Proof.
  intros Hnd Hr. split.
  - intros k tx Hk Hlt. apply (known_after_batch _ _ _ _ _ _ _ _ _ Hnd Hr).
    right. eapply zipped_hash_in_rows; eassumption.
  - intros h Hh. apply (known_after_batch _ _ _ _ _ _ _ _ _ Hnd Hr).
    left. exact Hh.
Qed.

(** X5.  [record_import] stores the transaction under the fingerprint that
    the caller passes, whatever the fields are.  If that fingerprint is in
    the ledger the call raises [IntegrityError] and the database is as it
    was; if not, the returned row is appended, with [imported_at] the
    first reading of the clock, and the ledger is otherwise unchanged. *)
Theorem record_import_outcomes (tx : TransactionCreate.t) (h : string)
    (b a : string) (id : option string)
    (db : Db.Database) (clock : nat -> PyDatetime.timestamp) :
  let r :=
    DeduplicationService.record_import tx h b a id (Db.open_session db clock) in
  (h ∈ Db.hashes (Db.imported_transactions db) ->
     fst r = Py.Raise Db.IntegrityError /\ Db.committed (snd r) = db)
  /\ (h ∉ Db.hashes (Db.imported_transactions db) ->
     exists row,
       fst r = Py.Return row
       /\ ImportedTransaction.transaction_hash row = h
       /\ ImportedTransaction.imported_at row = clock 0%nat
       /\ Db.imported_transactions (Db.committed (snd r))
          = (Db.imported_transactions db ++ [row])%list
       /\ Db.akahu_accounts (Db.committed (snd r)) = Db.akahu_accounts db
       /\ Db.sync_logs (Db.committed (snd r)) = Db.sync_logs db).
Proof.
  intros r. subst r.
  unfold DeduplicationService.record_import, Db.bind, Db.utcnow, Db.add_imported,
    Db.commit, Db.ret, Db.open_session.
  cbn. split; intros Hh.
  - rewrite bool_decide_eq_true_2 by exact Hh. cbn. auto.
  - rewrite bool_decide_eq_false_2 by exact Hh. cbn.
    eexists. repeat split.
Qed.

End KnownFingerprints.


Lemma recorded_transactions_are_known_witness :
  let s0 := Db.open_session Sample.db_with_c1 Sample.clock in
  let r :=
    DeduplicationService.record_imports_batch [Sample.c2] (Some "b1") (Some "ya1")
      None s0 in
  NoDup (Db.hashes (Db.imported_transactions Sample.db_with_c1))
  /\ r = (Py.Return 1, snd r)
  /\ DeduplicationService.is_duplicate (Rows.hash_of Sample.c2) (snd r)
     = (Py.Return true, snd r)
  /\ DeduplicationService.is_duplicate (Rows.hash_of Sample.c1) (snd r)
     = (Py.Return true, snd r).
Proof.
  intros s0 r.
  assert (Hnd : NoDup (Db.hashes (Db.imported_transactions Sample.db_with_c1)))
    by (cbn; apply NoDup_singleton).
  assert (Hr : r = (Py.Return 1, snd r)) by (vm_compute; reflexivity).
  destruct (recorded_transactions_are_known [Sample.c2] (Some "b1") (Some "ya1")
              None Sample.db_with_c1 Sample.clock 1 (snd r) Hnd Hr) as [H1 H2].
  split; [exact Hnd|]. split; [exact Hr|]. split.
  - apply (H1 0%nat Sample.c2); [reflexivity | cbn; lia].
  - apply H2. cbn. apply list_elem_of_here.
Defined.

(** ** The file-upload path: preview, import, preview again *)

Section CsvPath.

Lemma filter_none {A} (P : A -> Prop) `{forall x, Decision (P x)} (l : list A) :
  Forall (fun x => ~ P x) l -> filter P l = [].
Proof.
  induction 1 as [|x l Hx _ IH]; [reflexivity|].
  rewrite filter_cons. destruct (decide (P x)); [contradiction | exact IH].
Qed.

Lemma check_duplicates_spec (previews : list TransactionPreview.t) (s : Db.Session) :
  DeduplicationService.check_duplicates previews s
  = (Py.Return
       (map (fun tx =>
               TransactionPreview.set_is_duplicate
                 (bool_decide
                    (TransactionPreview.transaction_hash tx
                     ∈ Db.hashes (Db.imported_transactions (Db.view s)))) tx)
            previews), s).
Proof.
  unfold DeduplicationService.check_duplicates,
    DeduplicationService.get_existing_hashes, Db.bind, Db.select_hashes, Db.ret.
  do 2 f_equal. apply map_ext. intros tx. f_equal.
  apply bool_decide_ext. apply elem_of_list_to_set.
Qed.

(** X6.  Importing a parsed file twice finds nothing to import the second
    time.  The previews are checked, those not flagged are recorded (every
    one of them having a place in the [zip]); once that has returned, a
    new check of the same previews flags every one of them, so that
    [to_transaction_creates] keeps none. *)
Theorem csv_reimport_is_all_duplicates
    (previews checked : list TransactionPreview.t)
    (source_account b a : option string) (ids : option (list (option string)))
    (db : Db.Database) (clock : nat -> PyDatetime.timestamp)
    (n : Z) (s' : Db.Session) :
  Forall parsed_preview previews ->
  fst (DeduplicationService.check_duplicates previews (Db.open_session db clock))
  = Py.Return checked ->
  (length (CSVParser.to_transaction_creates checked source_account)
   <= length (DeduplicationService.ynab_ids_or_none ids
                (length (CSVParser.to_transaction_creates checked source_account))))%nat ->
  DeduplicationService.record_imports_batch
    (CSVParser.to_transaction_creates checked source_account) b a ids
    (Db.open_session db clock) = (Py.Return n, s') ->
  exists again,
    DeduplicationService.check_duplicates previews s' = (Py.Return again, s')
    /\ Forall (fun p => TransactionPreview.is_duplicate p = true) again
    /\ CSVParser.to_transaction_creates again source_account = [].
Proof.
  intros Hparsed Hchecked Hlen Hr.
  rewrite check_duplicates_spec in Hchecked. cbn in Hchecked.
  injection Hchecked as <-.
  destruct (record_imports_batch_returned _ _ _ _ _ _ _ _ Hr) as [Hv Hl].
  rewrite check_duplicates_spec. eexists. split; [reflexivity|].
  assert (Hall : Forall (fun p => TransactionPreview.is_duplicate p = true)
            (map (fun tx =>
               TransactionPreview.set_is_duplicate
                 (bool_decide
                    (TransactionPreview.transaction_hash tx
                     ∈ Db.hashes (Db.imported_transactions (Db.view s')))) tx)
            previews)).
  { apply Forall_fmap. apply Forall_forall. intros p Hp. cbn.
    apply bool_decide_eq_true_2. rewrite Hv, Hl.
    unfold Db.hashes. rewrite map_app. apply elem_of_app.
    destruct (decide (TransactionPreview.transaction_hash p
                      ∈ map ImportedTransaction.transaction_hash
                          (Db.imported_transactions db))) as [Hin|Hnin];
      [left; exact Hin | right].
    set (c := TransactionCreate.mk (TransactionPreview.date p)
                (TransactionPreview.amount p) (TransactionPreview.payee p)
                (TransactionPreview.memo p) "csv" source_account None).
    assert (Hc : c ∈ CSVParser.to_transaction_creates
                   (map (fun tx =>
                      TransactionPreview.set_is_duplicate
                        (bool_decide
                           (TransactionPreview.transaction_hash tx
                            ∈ Db.hashes (Db.imported_transactions
                                           (Db.view (Db.open_session db clock))))) tx)
                      previews) source_account).
    { unfold CSVParser.to_transaction_creates. apply list_elem_of_fmap.
      exists (TransactionPreview.set_is_duplicate false p). split; [reflexivity|].
      apply list_elem_of_filter. split; [reflexivity|].
      apply list_elem_of_fmap. exists p. split; [|exact Hp].
      rewrite bool_decide_eq_false_2; [reflexivity | exact Hnin]. }
    apply list_elem_of_lookup_1 in Hc as [k Hk].
    assert (Hh : TransactionPreview.transaction_hash p = Rows.hash_of c).
    { rewrite Forall_forall in Hparsed. rewrite (Hparsed p Hp).
      apply csv_hash_same. }
    rewrite Hh.
    eapply (zipped_hash_in_rows _ _ _ _ _ _ k c); [exact Hk|].
    eapply Nat.lt_le_trans; [apply (lookup_lt_Some _ _ _ Hk) | exact Hlen]. }
  split; [exact Hall|].
  unfold CSVParser.to_transaction_creates.
  rewrite filter_none; [reflexivity|].
  eapply Forall_impl; [exact Hall|]. cbn. intros p ->. discriminate.
Qed.

End CsvPath.

Lemma csv_reimport_is_all_duplicates_witness :
  let previews := [Fixtures.coffee_preview; Fixtures.grocer_preview] in
  let s0 := Db.open_session Db.empty Sample.clock in
  let creates := CSVParser.to_transaction_creates previews (Some "cheque") in
  let r :=
    DeduplicationService.record_imports_batch creates (Some "b1") (Some "ya1")
      None s0 in
  Forall parsed_preview previews
  /\ fst (DeduplicationService.check_duplicates previews s0) = Py.Return previews
  /\ (length creates
      <= length (DeduplicationService.ynab_ids_or_none None (length creates)))%nat
  /\ r = (Py.Return 2, snd r)
  /\ exists again,
       DeduplicationService.check_duplicates previews (snd r)
       = (Py.Return again, snd r)
       /\ Forall (fun p => TransactionPreview.is_duplicate p = true) again
       /\ CSVParser.to_transaction_creates again (Some "cheque") = [].
Proof.
  intros previews s0 creates r.
  assert (H1 : Forall parsed_preview previews)
    by (repeat constructor).
  assert (H2 : fst (DeduplicationService.check_duplicates previews s0)
               = Py.Return previews) by (vm_compute; reflexivity).
  assert (H3 : (length creates
                <= length (DeduplicationService.ynab_ids_or_none None
                             (length creates)))%nat) by (vm_compute; lia).
  assert (H4 : r = (Py.Return 2, snd r)) by (vm_compute; reflexivity).
  split; [exact H1|]. split; [exact H2|]. split; [exact H3|]. split; [exact H4|].
  exact (csv_reimport_is_all_duplicates previews previews (Some "cheque")
           (Some "b1") (Some "ya1") None Db.empty Sample.clock 2 (snd r)
           H1 H2 H3 H4).
Defined.

(** ** The duplicate filter of the two sync paths and of the preview *)

Section Filter.

Lemma partition_acc (skip : bool) (existing : gset string) (id : string)
    (transactions : list AkahuTransaction.t)
    (ys : list YNABClient.tx_dict) (cs : list TransactionCreate.t) (k : Z) :
  AkahuRouter.partition skip existing id transactions ys cs k
  = ((ys ++ map Convert.to_dict (let_through skip existing transactions))%list,
     (cs ++ map (Convert.to_create id) (let_through skip existing transactions))%list,
     k + (Z.of_nat (length transactions)
          - Z.of_nat (length (let_through skip existing transactions)))).
Proof.
  revert ys cs k. induction transactions as [|tx rest IH]; intros ys cs k.
  - cbn. rewrite !app_nil_r. do 2 f_equal. lia.
  - cbn [AkahuRouter.partition]. unfold let_through in *. cbn [List.filter].
    destruct (skip && bool_decide (Convert.filter_hash tx ∈ existing)); cbn [negb].
    + rewrite IH. f_equal. cbn [length]. lia.
    + rewrite IH. cbn [map length]. rewrite <- !app_assoc. cbn [app].
      f_equal. lia.
Qed.

Lemma scheduler_partition_acc (existing : gset string) (id : string)
    (transactions : list AkahuTransaction.t)
    (ys : list YNABClient.tx_dict) (cs : list TransactionCreate.t) (k : Z) :
  Scheduler.partition existing id transactions ys cs k
  = AkahuRouter.partition true existing id transactions ys cs k.
Proof.
  revert ys cs k. induction transactions as [|tx rest IH]; intros ys cs k.
  - reflexivity.
  - cbn [Scheduler.partition AkahuRouter.partition andb].
    destruct (bool_decide _); apply IH.
Qed.

(** X7.  The filter loop of the manual sync splits the fetched
    transactions without losing or reordering any: what is sent to the
    gateway and what is handed to the ledger are the same transactions in
    the order of the fetch, namely those whose filter fingerprint is not in
    the ledger (all of them when [skip_duplicates] is off), and [skipped]
    counts the others.  The loop of the scheduled job is the same loop with
    [skip_duplicates] on. *)
Theorem partition_splits_the_fetch (skip : bool) (existing : gset string)
    (id : string) (transactions : list AkahuTransaction.t) :
  let sent :=
    List.filter
      (fun tx =>
         negb (skip && bool_decide (Convert.filter_hash tx ∈ existing)))
      transactions in
  AkahuRouter.partition skip existing id transactions [] [] 0
  = (map Convert.to_dict sent, map (Convert.to_create id) sent,
     Z.of_nat (length transactions) - Z.of_nat (length sent))
  /\ (skip = false -> sent = transactions)
  /\ Scheduler.partition existing id transactions [] [] 0
     = AkahuRouter.partition true existing id transactions [] [] 0.
Proof.
  intros sent. split; [|split].
  - rewrite partition_acc. reflexivity.
  - intros ->. subst sent. cbn [andb negb].
    induction transactions as [|tx rest IH]; [reflexivity|].
    cbn [List.filter]. f_equal. exact IH.
  - apply scheduler_partition_acc.
Qed.

(** X8.  The preview flags what a sync would skip.  GET [/akahu/transactions]
    changes nothing in the session and returns one row per transaction, in
    order, carrying the filter fingerprint; the rows flagged as duplicates
    are as many as a sync of the same transactions with [skip_duplicates]
    would count as skipped, and the rows not flagged as many as it would
    send. *)
Theorem preview_flags_what_sync_skips (transactions : list AkahuTransaction.t)
    (id : string) (db : Db.Database) (clock : nat -> PyDatetime.timestamp) :
  let s := Db.open_session db clock in
  exists rows existing,
    AkahuRouter.get_akahu_transactions (Py.Return transactions) s
    = (Py.Return rows, s)
    /\ DeduplicationService.get_existing_hashes s = (Py.Return existing, s)
    /\ map AkahuRouter.p_transaction_hash rows
       = map Convert.filter_hash transactions
    /\ map AkahuRouter.p_id rows = map AkahuTransaction.id transactions
    /\ let '(ynab_transactions, _, skipped) :=
         AkahuRouter.partition true existing id transactions [] [] 0 in
       skipped
       = Z.of_nat (length (List.filter AkahuRouter.p_is_duplicate rows))
       /\ length ynab_transactions
          = length (List.filter (fun p => negb (AkahuRouter.p_is_duplicate p)) rows).
Proof.
  intros s.
  eexists. eexists. split; [reflexivity|]. split; [reflexivity|].
  split; [rewrite map_map; reflexivity|]. split; [rewrite map_map; reflexivity|].
  rewrite partition_acc. cbn [app andb].
  set (existing := list_to_set (Db.hashes (Db.imported_transactions (Db.view s)))
                   : gset string).
  assert (Hlen : forall l : list AkahuTransaction.t,
    length (List.filter (fun p => negb (AkahuRouter.p_is_duplicate p))
      (map (fun tx =>
         AkahuRouter.Preview (AkahuTransaction.id tx)
           (AkahuTransaction.account_id tx)
           (PyDatetime.isoformat (AkahuTransaction.date tx))
           (AkahuTransaction.amount tx) (AkahuTransaction.description tx)
           (AkahuTransaction.merchant tx) (AkahuTransaction.category tx)
           (bool_decide (Convert.filter_hash tx ∈ existing))
           (Convert.filter_hash tx)) l))
    = length (let_through true existing l)
    /\ (length (List.filter AkahuRouter.p_is_duplicate
      (map (fun tx =>
         AkahuRouter.Preview (AkahuTransaction.id tx)
           (AkahuTransaction.account_id tx)
           (PyDatetime.isoformat (AkahuTransaction.date tx))
           (AkahuTransaction.amount tx) (AkahuTransaction.description tx)
           (AkahuTransaction.merchant tx) (AkahuTransaction.category tx)
           (bool_decide (Convert.filter_hash tx ∈ existing))
           (Convert.filter_hash tx)) l))
       + length (let_through true existing l) = length l)%nat).
  { unfold let_through. cbn [andb].
    induction l as [|tx rest [IH1 IH2]]; [split; reflexivity|].
    cbn [map List.filter AkahuRouter.p_is_duplicate].
    destruct (bool_decide (Convert.filter_hash tx ∈ existing));
      cbn [negb length]; split; lia. }
  destruct (Hlen transactions) as [H1 H2]. unfold let_through in *. cbn [andb] in *.
  split.
  - cbn [Db.ret Db.bind]. fold existing. lia.
  - rewrite length_map. symmetry. exact H1.
Qed.

End Filter.

(** ** What a sync writes besides the ledger *)

Section Both.

Context (Q : Db.Database -> Prop).

Lemma both_view (f : Db.Database -> Db.Database) :
  (forall db, Q db -> Q (f db)) -> preserves (both Q) (Db.set_view f).
Proof. intros Hf s [Hv Hc]. split; [apply Hf; exact Hv | exact Hc]. Qed.

(** A property that does not depend on the ledger survives a commit,
    whether the commit writes or rolls back. *)
Lemma both_commit :
  (forall t db, Q db -> Q (Db.mkDatabase t (Db.akahu_accounts db) (Db.sync_logs db))) ->
  preserves (both Q) Db.commit.
Proof.
  intros HQ s [Hv Hc]. unfold Db.commit.
  destruct (Db.inactive s); [split; assumption|].
  destruct (Db.flush _ _) as [t|]; cbn.
  - split; apply HQ; exact Hv.
  - split; exact Hc.
Qed.

Lemma both_add_rows pairs b a :
  preserves (both Q) (DeduplicationService.add_rows pairs b a).
Proof. intros s H. rewrite add_rows_spec. exact H. Qed.

Lemma both_record_imports_batch transactions b a ids :
  (forall t db, Q db -> Q (Db.mkDatabase t (Db.akahu_accounts db) (Db.sync_logs db))) ->
  preserves (both Q)
    (DeduplicationService.record_imports_batch transactions b a ids).
Proof.
  intros HQ. unfold DeduplicationService.record_imports_batch.
  destruct transactions; [apply preserves_ret|].
  apply preserves_bind; [apply both_add_rows|]. intros _.
  apply preserves_bind; [apply both_commit, HQ|]. intros _.
  apply preserves_ret.
Qed.

Lemma try_except_post {A} (P : Db.Session -> Prop) (c : Db.M A)
    (h : Py.exn -> Db.M A) (s : Db.Session) :
  P (snd (c s)) -> (forall e, preserves P (h e)) -> P (snd (Db.try_except c h s)).
Proof.
  intros Hc Hh. unfold Db.try_except.
  destruct (c s) as [[a|e] s']; cbn in *; [exact Hc | apply Hh; exact Hc].
Qed.

End Both.

(** The steps that are the same for every property of the accounts and the
    logs: [tac] proves that the property survives the change that a step
    makes to the database. *)
Ltac both_prim tac :=
  idtac;
  lazymatch goal with
  | |- preserves _ Db.commit => apply both_commit; tac
  | |- preserves _ (Db.update_account _ _) => apply both_view; tac
  | |- preserves _ (Db.delete_account _) => apply both_view; tac
  | |- preserves _ (Db.add_account _) => apply both_view; tac
  | |- preserves _ (Db.update_sync_log _ _) => apply both_view; tac
  | |- preserves _ (DeduplicationService.record_imports_batch _ _ _ _) =>
      apply both_record_imports_batch; tac
  | |- preserves _ (Scheduler.finish_success _ _ _ _ _) =>
      unfold Scheduler.finish_success
  | |- preserves _ (Scheduler.finish_failed _ _ _ _) =>
      unfold Scheduler.finish_failed
  | |- preserves _ _ =>
      let s := fresh "s" in let H := fresh "H" in intros s H; exact H
  end.

Ltac logs_tac := intros; cbn; assumption.

Ltac others_tac :=
  intros; cbn;
  first [ rewrite lookup_alter_ne by congruence
        | rewrite lookup_delete_ne by congruence
        | rewrite lookup_insert_ne by congruence
        | idtac ];
  auto.

Ltac resynced_tac :=
  intros; cbn;
  first [ assumption
        | rewrite lookup_alter_eq;
          lazymatch goal with
          | H : _ <$> ?m !! ?id = _ |- _ <$> (_ <$> ?m !! ?id) = _ =>
              rewrite <- H; destruct (m !! id); reflexivity
          end ].

Section ManualSync.

Lemma manual_keeps_logs (w : World.t) (id : string) (days : Z) (skip : bool)
    (L : list SyncLog.t) :
  preserves (logs_are L) (AkahuRouter.sync_akahu_account w id days skip).
Proof.
  unfold AkahuRouter.sync_akahu_account, logs_are.
  preserves_walk ltac:(both_prim logs_tac).
Qed.

Lemma manual_keeps_others (w : World.t) (id : string) (days : Z) (skip : bool)
    (accounts : gmap string AkahuAccount.t) :
  preserves (others_are id accounts) (AkahuRouter.sync_akahu_account w id days skip).
Proof.
  unfold AkahuRouter.sync_akahu_account, others_are.
  preserves_walk ltac:(both_prim others_tac).
Qed.

Lemma manual_resyncs (w : World.t) (id : string) (days : Z) (skip : bool)
    (accounts : gmap string AkahuAccount.t) :
  preserves (resynced id accounts) (AkahuRouter.sync_akahu_account w id days skip).
Proof.
  unfold AkahuRouter.sync_akahu_account, resynced.
  preserves_walk ltac:(both_prim resynced_tac).
Qed.

(** X9.  A manual sync leaves no trace in the sync log and none in the
    schedule state: whatever the collaborators answer and whether it
    returns or raises, it writes no [SyncLog] row, it leaves every other
    account row as it was, and the row of the synced account differs from
    what it was in [last_synced_at] and [updated_at] at most: its link,
    its schedule, [next_sync_at] and the [last_sync_*] fields of the
    scheduled runs are untouched. *)
Theorem manual_sync_writes_time_stamps_only (w : World.t) (id : string)
    (days : Z) (skip : bool) (db : Db.Database)
    (clock : nat -> PyDatetime.timestamp) :
  let db' :=
    Db.committed (snd (AkahuRouter.sync_akahu_account w id days skip
                         (Db.open_session db clock))) in
  Db.sync_logs db' = Db.sync_logs db
  /\ (forall k, k <> id -> Db.akahu_accounts db' !! k = Db.akahu_accounts db !! k)
  /\ (unstamped <$> Db.akahu_accounts db' !! id)
     = (unstamped <$> Db.akahu_accounts db !! id).
Proof.
  intros db'. subst db'. split; [|split].
  - apply (manual_keeps_logs w id days skip (Db.sync_logs db)
             (Db.open_session db clock)). split; reflexivity.
  - apply (manual_keeps_others w id days skip (Db.akahu_accounts db)
             (Db.open_session db clock)). split; intros; reflexivity.
  - apply (manual_resyncs w id days skip (Db.akahu_accounts db)
             (Db.open_session db clock)). split; reflexivity.
Qed.

End ManualSync.

Section Frame.



End Frame.


Section RunLog.

Ltac logged_tac :=
  intros; cbn;
  lazymatch goal with
  | H : exists row, _ |- exists row, alter _ _ _ = _ /\ _ =>
      let row := fresh "row" in
      let Hl := fresh "Hl" in
      let Hr := fresh "Hr" in
      destruct H as (row & Hl & Hr);
      rewrite Hl, alter_snoc; eexists; split; [reflexivity|];
      destruct Hr as (? & ? & ? & ?);
      repeat split; cbn; first [assumption | repeat constructor]
  | H : exists row, _ |- _ => exact H
  end.

Lemma bind_returns {A B} (c : Db.M A) (k : A -> Db.M B) (s s' : Db.Session)
    (a : A) :
  c s = (Py.Return a, s') -> Db.bind c k s = k a s'.
Proof. intros H. unfold Db.bind. rewrite H. reflexivity. Qed.

Lemma job_returns (w : World.t) (id : string) (s : Db.Session) :
  fst (Scheduler.sync_akahu_account_job w id s) = Py.Return tt.
Proof.
  unfold Scheduler.sync_akahu_account_job, Db.try_except.
  destruct (Scheduler.job_body w id s) as [[[]|e] s']; [reflexivity|].
  unfold Scheduler.recover, Db.try_except.
  match goal with
  | |- fst (match ?x with _ => _ end) = _ => destruct x as [[[]|e'] s'']
  end; reflexivity.
Qed.

(** X11.  The scheduled job never raises, and it writes exactly one log
    row per run of a linked account: whatever the collaborators answer,
    the log afterwards is the log before followed by one row, which names
    the account, has the trigger [scheduled], the first clock reading as
    its start, and one of the three statuses.  For an account that is
    missing or not linked the job changes nothing at all. *)
Theorem scheduled_run_logs_once (w : World.t) (id : string)
    (db : Db.Database) (clock : nat -> PyDatetime.timestamp) :
  let r := Scheduler.sync_akahu_account_job w id (Db.open_session db clock) in
  fst r = Py.Return tt
  /\ match Db.akahu_accounts db !! id with
     | Some link =>
         if Py.opt_truthy (AkahuAccount.ynab_account_id link) then
           exists row,
             Db.sync_logs (Db.committed (snd r)) = (Db.sync_logs db ++ [row])%list
             /\ run_row id (clock 0%nat) row
         else snd r = Db.open_session db clock
     | None => snd r = Db.open_session db clock
     end.
Proof.
  intros r. subst r. split; [apply job_returns|].
  destruct (Db.akahu_accounts db !! id) as [link|] eqn:Hl.
  2:{ unfold Scheduler.sync_akahu_account_job, Scheduler.job_body, Db.try_except,
        Db.bind, Db.get_account, Db.open_session. cbn [Db.view]. rewrite Hl.
      reflexivity. }
  destruct (Py.opt_truthy (AkahuAccount.ynab_account_id link)) eqn:Ht.
  2:{ unfold Scheduler.sync_akahu_account_job, Scheduler.job_body, Db.try_except,
        Db.bind, Db.get_account, Db.open_session. cbn [Db.view]. rewrite Hl, Ht.
      reflexivity. }
  enough (H : logged (Db.sync_logs db) id (clock 0%nat)
                (snd (Scheduler.sync_akahu_account_job w id
                        (Db.open_session db clock)))) by apply H.
  unfold Scheduler.sync_akahu_account_job.
  apply try_except_post.
  - unfold Scheduler.job_body.
    unfold Db.bind at 1. unfold Db.get_account at 1, Db.open_session at 1.
    cbn [Db.view]. rewrite Hl, Ht. cbn [negb].
    do 5 (erewrite bind_returns by reflexivity; cbn beta).
    cbn [Db.view Db.committed Db.pending Db.inactive Db.now_at Db.ticks
         Db.open_session Db.sync_logs Db.imported_transactions Db.akahu_accounts].
    lazymatch goal with
    | |- logged ?o ?i ?t (snd (?c ?s)) =>
        cut (preserves (logged o i t) c);
        [ let Hp := fresh "Hp" in intros Hp; apply Hp | ]
    end.
    + split; cbn; eexists; (split; [reflexivity|]);
        repeat split; repeat constructor.
    + unfold logged. preserves_walk ltac:(both_prim logged_tac).
  - intros e. unfold Scheduler.recover, logged.
    preserves_walk ltac:(both_prim logged_tac).
Qed.

End RunLog.

(** ** The schedule: account rows and the job store *)

Section Jobs.

Lemma job_id_inj (k k' : string) : JobStore.job_id k = JobStore.job_id k' -> k = k'.
Proof. unfold JobStore.job_id. cbn. intros [= H]. exact H. Qed.

Lemma schedule_lookup_other (account : AkahuAccount.t)
    (jobs : gmap string JobStore.job) (k : string) :
  k <> AkahuAccount.akahu_account_id account ->
  JobStore.schedule_account_sync account jobs !! JobStore.job_id k
  = jobs !! JobStore.job_id k.
Proof.
  intros Hk. unfold JobStore.schedule_account_sync, JobStore.remove_job.
  assert (JobStore.job_id (AkahuAccount.akahu_account_id account)
          <> JobStore.job_id k) by (intros E; apply job_id_inj in E; congruence).
  destruct (negb _).
  - rewrite lookup_delete_ne by assumption. reflexivity.
  - rewrite lookup_insert_ne, lookup_delete_ne by assumption. reflexivity.
Qed.

Lemma schedule_lookup_own (account : AkahuAccount.t)
    (jobs : gmap string JobStore.job) :
  AkahuAccount.schedule_enabled account = true ->
  has_job (JobStore.schedule_account_sync account jobs)
    (AkahuAccount.akahu_account_id account)
    (AkahuAccount.schedule_interval_hours account).
Proof.
  intros He. unfold JobStore.schedule_account_sync, has_job. rewrite He. cbn [negb].
  rewrite lookup_insert_eq. eexists. repeat split.
Qed.

Lemma load_schedules_cons (a : AkahuAccount.t) (l : list AkahuAccount.t)
    (jobs : gmap string JobStore.job) :
  JobStore.load_schedules (a :: l) jobs
  = JobStore.load_schedules l
      (if AkahuAccount.schedule_enabled a
          && Py.opt_truthy (AkahuAccount.ynab_account_id a)
       then JobStore.schedule_account_sync a jobs else jobs).
Proof.
  unfold JobStore.load_schedules. rewrite filter_cons.
  destruct (decide (AkahuAccount.schedule_enabled a = true)) as [E|E].
  - rewrite E. cbn [fold_left andb]. reflexivity.
  - apply not_true_is_false in E. rewrite E. reflexivity.
Qed.

(** Accounts that are not both enabled and linked leave the job of [k] as
    it is. *)
Lemma load_schedules_out (l : list AkahuAccount.t)
    (jobs : gmap string JobStore.job) (k : string) :
  (forall a, a ∈ l -> AkahuAccount.akahu_account_id a = k ->
             AkahuAccount.schedule_enabled a
             && Py.opt_truthy (AkahuAccount.ynab_account_id a) = false) ->
  JobStore.load_schedules l jobs !! JobStore.job_id k = jobs !! JobStore.job_id k.
Proof.
  revert jobs. induction l as [|a l IH]; intros jobs H; [reflexivity|].
  rewrite load_schedules_cons, IH.
  - destruct (_ && _) eqn:E; [|reflexivity].
    apply schedule_lookup_other. intros ->.
    rewrite (H a) in E; [discriminate | apply list_elem_of_here | reflexivity].
  - intros a' Ha'. apply H. apply list_elem_of_further. exact Ha'.
Qed.

Lemma load_schedules_in (l : list AkahuAccount.t)
    (jobs : gmap string JobStore.job) (a : AkahuAccount.t) :
  NoDup (map AkahuAccount.akahu_account_id l) ->
  a ∈ l ->
  AkahuAccount.schedule_enabled a = true ->
  Py.opt_truthy (AkahuAccount.ynab_account_id a) = true ->
  has_job (JobStore.load_schedules l jobs) (AkahuAccount.akahu_account_id a)
    (AkahuAccount.schedule_interval_hours a).
Proof.
  revert jobs. induction l as [|a0 l IH]; intros jobs Hnd Hin He Ht.
  - inversion Hin.
  - cbn [map] in Hnd. apply NoDup_cons in Hnd as [Hnin Hnd].
    rewrite load_schedules_cons.
    apply elem_of_cons in Hin as [<-|Hin].
    + rewrite He, Ht. cbn [andb].
      destruct (schedule_lookup_own a jobs He) as (j & Hj & Hi & Ha).
      exists j. split; [|auto].
      rewrite load_schedules_out; [exact Hj|].
      intros a' Ha' Hid. exfalso. apply Hnin. rewrite <- Hid.
      apply list_elem_of_fmap. exists a'. auto.
    + apply IH; assumption.
Qed.

(** X12.  Starting the scheduler loads the stored schedules: if it runs
    already nothing happens; otherwise it runs afterwards, every account
    that is enabled and linked has a job that fires at the account's
    interval with the account as its argument, and the job of any other
    account is what the store held before. *)
Theorem initialize_scheduler_loads_schedules
    (accounts : gmap string AkahuAccount.t) (s : JobStore.scheduler) :
  well_keyed accounts ->
  let s' := JobStore.initialize_scheduler accounts s in
  (JobStore.running s = true -> s' = s)
  /\ (JobStore.running s = false ->
      JobStore.running s' = true
      /\ forall k,
           match accounts !! k with
           | Some a =>
               if AkahuAccount.schedule_enabled a
                  && Py.opt_truthy (AkahuAccount.ynab_account_id a)
               then has_job (JobStore.jobs s') k
                      (AkahuAccount.schedule_interval_hours a)
               else JobStore.jobs s' !! JobStore.job_id k
                    = JobStore.jobs s !! JobStore.job_id k
           | None =>
               JobStore.jobs s' !! JobStore.job_id k
               = JobStore.jobs s !! JobStore.job_id k
           end).
Proof.
  intros Hwk s'. subst s'. unfold JobStore.initialize_scheduler.
  split; [intros ->; reflexivity|]. intros ->. cbn [JobStore.running JobStore.jobs].
  split; [reflexivity|]. intros k.
  assert (Hmem : forall a, a ∈ map snd (map_to_list accounts)
                 <-> accounts !! AkahuAccount.akahu_account_id a = Some a).
  { intros a. rewrite list_elem_of_fmap. split.
    - intros [[k' a'] [-> Hin]]. apply elem_of_map_to_list in Hin. cbn.
      rewrite (Hwk _ _ Hin). exact Hin.
    - intros Ha. exists (AkahuAccount.akahu_account_id a, a). split; [reflexivity|].
      apply elem_of_map_to_list. exact Ha. }
  assert (Hnd : NoDup (map AkahuAccount.akahu_account_id (map snd (map_to_list accounts)))).
  { rewrite map_map.
    rewrite (map_ext_in _ fst); [apply NoDup_fst_map_to_list|].
    intros [k' a'] Hin. cbn. apply Hwk. apply elem_of_map_to_list.
    apply list_elem_of_In. exact Hin. }
  destruct (accounts !! k) as [a|] eqn:Ha.
  - pose proof (Hwk _ _ Ha) as Hid.
    destruct (_ && _) eqn:E.
    + apply andb_true_iff in E as [He Ht]. rewrite <- Hid.
      apply load_schedules_in; [exact Hnd | | exact He | exact Ht].
      apply Hmem. rewrite Hid. exact Ha.
    + apply load_schedules_out. intros a' Ha' Hid'.
      apply Hmem in Ha'. rewrite Hid', Ha in Ha'. injection Ha' as <-. exact E.
  - apply load_schedules_out. intros a' Ha' Hid'.
    apply Hmem in Ha'. rewrite Hid', Ha in Ha'. discriminate.
Qed.

End Jobs.

Lemma initialize_scheduler_loads_schedules_witness :
  let s' :=
    JobStore.initialize_scheduler Fixtures.accounts (JobStore.Scheduler false ∅) in
  well_keyed Fixtures.accounts
  /\ JobStore.running s' = true
  /\ has_job (JobStore.jobs s') "acc_1" 6
  /\ has_job (JobStore.jobs s') "acc_2" 12
  /\ JobStore.jobs s' !! JobStore.job_id "acc_3" = None.
Proof.
  intros s'.
  assert (Hwk : well_keyed Fixtures.accounts).
  { intros k a. unfold Fixtures.accounts.
    rewrite !lookup_insert_Some, lookup_singleton_Some.
    intros [[<- <-]|[_ [[<- <-]|[_ [<- <-]]]]]; reflexivity. }
  destruct (initialize_scheduler_loads_schedules Fixtures.accounts
              (JobStore.Scheduler false ∅) Hwk) as [_ H].
  destruct (H eq_refl) as [Hrun Hjobs].
  split; [exact Hwk|]. split; [exact Hrun|].
  split; [exact (Hjobs "acc_1")|]. split; [exact (Hjobs "acc_2")|].
  exact (Hjobs "acc_3").
Defined.

Section ScheduleEndpoints.

(** X13.  After [set_account_schedule] has returned, the row and the job
    store are in step and [get_account_schedule] reports what was set:
    the requested flag and days, the interval snapped to an allowed value,
    and the [next_sync_at] of the response.  If the schedule is enabled
    the store holds the account's job firing at that interval, if not it
    holds no job for the account; the jobs of other accounts are as
    before. *)
Theorem schedule_store_follows_row (id : string) (config : ScheduleConfig.t)
    (jobs jobs' : gmap string JobStore.job) (db : Db.Database)
    (clock : nat -> PyDatetime.timestamp)
    (resp : AkahuRouter.schedule_response) (s' : Db.Session) :
  well_keyed (Db.akahu_accounts db) ->
  AkahuRouter.set_account_schedule id config jobs (Db.open_session db clock)
  = (Py.Return (resp, jobs'), s') ->
  exists info,
    AkahuRouter.get_account_schedule id s' = (Py.Return info, s')
    /\ AkahuRouter.si_enabled info = ScheduleConfig.enabled config
    /\ AkahuRouter.si_interval_hours info
       = AkahuRouter.snap_interval (ScheduleConfig.interval_hours config)
    /\ AkahuRouter.si_days_to_sync info = ScheduleConfig.days_to_sync config
    /\ AkahuRouter.si_next_sync_at info = AkahuRouter.next_sync_at resp
    /\ (if AkahuRouter.si_enabled info
        then has_job jobs' id (AkahuRouter.si_interval_hours info)
        else jobs' !! JobStore.job_id id = None)
    /\ forall k, k <> id ->
         jobs' !! JobStore.job_id k = jobs !! JobStore.job_id k.
Proof.
  intros Hwk H.
  unfold AkahuRouter.set_account_schedule, Db.bind, Db.get_account,
    Db.open_session in H.
  cbn [Db.view] in H.
  destruct (Db.akahu_accounts db !! id) as [a|] eqn:Hacc; [|discriminate].
  pose proof (Hwk _ _ Hacc) as Hid.
  destruct (Py.opt_truthy (AkahuAccount.ynab_account_id a)); [|discriminate].
  cbn [negb] in H.
  destruct (ScheduleConfig.enabled config) eqn:Hen; cbn in H;
    injection H as <- <- <-;
    unfold AkahuRouter.get_account_schedule, Db.bind, Db.get_account;
    cbn; rewrite lookup_alter_eq, Hacc; cbn;
    eexists; (split; [reflexivity|]); cbn; repeat (split; [reflexivity|]).
  - rewrite Hid. unfold JobStore.remove_job. split.
    + unfold has_job. rewrite lookup_insert_eq. eexists. repeat split.
    + intros k Hk.
      assert (JobStore.job_id id <> JobStore.job_id k)
        by (intros E; apply job_id_inj in E; congruence).
      rewrite lookup_insert_ne, lookup_delete_ne by assumption. reflexivity.
  - unfold JobStore.remove_account_schedule, JobStore.remove_job. split.
    + apply lookup_delete_eq.
    + intros k Hk. apply lookup_delete_ne. intros E. apply job_id_inj in E.
      congruence.
Qed.

(** X14.  [disable_account_schedule] answers 404 for an account without a
    row and changes nothing then.  For any other account, linked or not,
    it returns; afterwards [get_account_schedule] reports a disabled
    schedule without [next_sync_at] and with the interval and days of
    before, the link of the account is what it was, the job store holds no
    job for the account, and the jobs of other accounts and the ledger are
    untouched. *)
Theorem disable_account_schedule_outcomes (id : string)
    (jobs : gmap string JobStore.job) (db : Db.Database)
    (clock : nat -> PyDatetime.timestamp) :
  let r := AkahuRouter.disable_account_schedule id jobs (Db.open_session db clock) in
  match Db.akahu_accounts db !! id with
  | None =>
      r = (Py.Raise (Py.HTTPException 404 "Account not found"),
           Db.open_session db clock)
  | Some a =>
      exists jobs' info,
        fst r = Py.Return (("success", "Schedule disabled"), jobs')
        /\ jobs' !! JobStore.job_id id = None
        /\ (forall k, k <> id ->
              jobs' !! JobStore.job_id k = jobs !! JobStore.job_id k)
        /\ AkahuRouter.get_account_schedule id (snd r) = (Py.Return info, snd r)
        /\ AkahuRouter.si_enabled info = false
        /\ AkahuRouter.si_next_sync_at info = None
        /\ AkahuRouter.si_interval_hours info
           = AkahuAccount.schedule_interval_hours a
        /\ AkahuRouter.si_days_to_sync info = AkahuAccount.schedule_days_to_sync a
        /\ (AkahuAccount.ynab_account_id <$> Db.akahu_accounts (Db.committed (snd r)) !! id)
           = Some (AkahuAccount.ynab_account_id a)
        /\ Db.imported_transactions (Db.committed (snd r))
           = Db.imported_transactions db
  end.
Proof.
  intros r. subst r.
  unfold AkahuRouter.disable_account_schedule, Db.bind, Db.get_account,
    Db.open_session.
  cbn [Db.view].
  destruct (Db.akahu_accounts db !! id) as [a|] eqn:Hacc; [|reflexivity].
  cbn. unfold AkahuRouter.get_account_schedule, Db.bind, Db.get_account. cbn.
  rewrite !lookup_alter_eq, Hacc. cbn.
  do 2 eexists. split; [reflexivity|].
  unfold JobStore.remove_account_schedule, JobStore.remove_job.
  split; [apply lookup_delete_eq|].
  split.
  { intros k Hk. apply lookup_delete_ne. intros E. apply job_id_inj in E.
    congruence. }
  split; [reflexivity|]. repeat split.
Qed.

(** X15.  [link_akahu_to_ynab] on an account that has a row replaces the
    link and [auto_sync] and nothing else but [updated_at]: the schedule
    and the last-sync fields stay, and the provider is not asked, so the
    call returns whatever [get_accounts] would answer.  On an account
    without a row it asks the provider: if that raises, the exception is
    passed on as it is and nothing is stored; if not, a row is stored
    whether or not the provider lists the account, holding the link, the
    listed name if there is one, and a disabled schedule of 6 hours and 7
    days. *)
Theorem link_akahu_to_ynab_outcomes
    (get_accounts : Py.result (list AkahuAccountResponse.t))
    (link : AkahuAccountLink.t) (db : Db.Database)
    (clock : nat -> PyDatetime.timestamp) :
  let id := AkahuAccountLink.akahu_account_id link in
  let r := AkahuRouter.link_akahu_to_ynab get_accounts link (Db.open_session db clock) in
  let linked_as (a' : AkahuAccount.t) :=
    AkahuAccount.ynab_budget_id a' = Some (AkahuAccountLink.ynab_budget_id link)
    /\ AkahuAccount.ynab_account_id a' = Some (AkahuAccountLink.ynab_account_id link)
    /\ AkahuAccount.auto_sync a' = AkahuAccountLink.auto_sync link in
  match Db.akahu_accounts db !! id with
  | Some a =>
      fst r = Py.Return ("success", "Account linked successfully")
      /\ exists a',
           Db.akahu_accounts (Db.committed (snd r)) !! id = Some a'
           /\ linked_as a'
           /\ AkahuAccount.set_link None None false (AkahuAccount.set_updated_at None a')
              = AkahuAccount.set_link None None false (AkahuAccount.set_updated_at None a)
  | None =>
      match get_accounts with
      | Py.Raise e => r = (Py.Raise e, Db.open_session db clock)
      | Py.Return accounts =>
          fst r = Py.Return ("success", "Account linked successfully")
          /\ exists a',
               Db.akahu_accounts (Db.committed (snd r)) !! id = Some a'
               /\ linked_as a'
               /\ AkahuAccount.akahu_account_id a' = id
               /\ AkahuAccount.account_name a'
                  = (AkahuAccountResponse.name
                       <$> List.find (fun x => String.eqb (AkahuAccountResponse.id x) id)
                             accounts)
               /\ AkahuAccount.schedule_enabled a' = false
               /\ AkahuAccount.schedule_interval_hours a' = 6
               /\ AkahuAccount.schedule_days_to_sync a' = 7
               /\ AkahuAccount.next_sync_at a' = None
               /\ AkahuAccount.last_sync_status a' = None
      end
  end.
Proof.
  intros id r linked_as. subst r linked_as.
  unfold AkahuRouter.link_akahu_to_ynab, Db.bind, Db.get_account, Db.open_session.
  cbn [Db.view]. fold id.
  destruct (Db.akahu_accounts db !! id) as [a|] eqn:Hacc.
  - cbn. rewrite !lookup_alter_eq, Hacc. cbn.
    split; [reflexivity|]. eexists. split; [reflexivity|]. repeat split.
  - destruct get_accounts as [accounts|e]; [|reflexivity].
    cbn. rewrite lookup_insert_eq.
    split; [reflexivity|]. eexists. split; [reflexivity|]. repeat split.
Qed.

End ScheduleEndpoints.

Lemma schedule_store_follows_row_witness :
  let config := ScheduleConfig.mk true 5 7 in
  let r :=
    AkahuRouter.set_account_schedule "acc_1" config ∅
      (Db.open_session Sample.db Sample.clock) in
  well_keyed (Db.akahu_accounts Sample.db)
  /\ (exists resp jobs', r = (Py.Return (resp, jobs'), snd r))
  /\ exists info,
       AkahuRouter.get_account_schedule "acc_1" (snd r) = (Py.Return info, snd r)
       /\ AkahuRouter.si_enabled info = true
       /\ AkahuRouter.si_interval_hours info = 4
       /\ AkahuRouter.si_days_to_sync info = 7.
Proof.
  intros config r.
  assert (Hwk : well_keyed (Db.akahu_accounts Sample.db)).
  { intros k a. cbn. rewrite lookup_singleton_Some. intros [<- <-]. reflexivity. }
  assert (Hr : r = (Py.Return (fst (match fst r with
                                    | Py.Return x => x
                                    | Py.Raise _ =>
                                        (AkahuRouter.ScheduleResponse "" "" None, ∅)
                                    end),
                               snd (match fst r with
                                    | Py.Return x => x
                                    | Py.Raise _ =>
                                        (AkahuRouter.ScheduleResponse "" "" None, ∅)
                                    end)), snd r)) by reflexivity.
  split; [exact Hwk|]. split; [eauto|].
  destruct (schedule_store_follows_row "acc_1" config ∅ _ Sample.db Sample.clock
              _ (snd r) Hwk Hr) as (info & Hg & He & Hi & Hd & _).
  exists info. split; [exact Hg|]. split; [exact He|]. split; [|exact Hd].
  rewrite Hi. reflexivity.
Defined.

(** ** [services/ynab_client.py]: the import ids of one batch *)

Section Digits.

Lemma digit_char (n : Z) :
  Z.of_N (N_of_ascii (ascii_of_N (Z.to_N (48 + n mod 10)))) = 48 + n mod 10.
Proof.
  pose proof (Z.mod_pos_bound n 10 ltac:(lia)) as Hb.
  rewrite N_ascii_embedding; [lia|]. lia.
Qed.

Lemma digits_fuel_undigits (fuel : nat) : forall (n : Z) (acc : string),
  0 <= n < 2 ^ Z.of_nat fuel ->
  undigits (Py.digits_fuel fuel n acc) 0 = undigits acc n.
Proof.
  induction fuel as [|fuel IH]; intros n acc Hn.
  - cbn in *. assert (n = 0) as -> by lia. reflexivity.
  - cbn [Py.digits_fuel]. rewrite Nat2Z.inj_succ, Z.pow_succ_r in Hn by lia.
    destruct (n <? 10) eqn:E.
    + apply Z.ltb_lt in E. cbn [undigits]. rewrite digit_char.
      rewrite Z.mod_small by lia. f_equal. lia.
    + apply Z.ltb_ge in E. rewrite IH.
      * cbn [undigits]. rewrite digit_char. f_equal.
        pose proof (Z.div_mod n 10 ltac:(lia)). lia.
      * split; [apply Z.div_pos; lia|].
        apply Z.div_lt_upper_bound; lia.
Qed.

Lemma nat_digits_undigits (n : Z) : 0 <= n -> undigits (Py.nat_digits n) 0 = n.
Proof.
  intros Hn. unfold Py.nat_digits. rewrite digits_fuel_undigits; [reflexivity|].
  split; [exact Hn|].
  rewrite Nat2Z.inj_succ, Z2Nat.id by apply Z.log2_nonneg.
  destruct (Z.eq_dec n 0) as [->|Hne]; [cbn; lia|].
  apply Z.log2_spec. lia.
Qed.

Lemma str_int_inj (n n' : Z) : 0 <= n -> 0 <= n' ->
  Py.str_int n = Py.str_int n' -> n = n'.
Proof.
  intros Hn Hn' H. unfold Py.str_int in H.
  rewrite (proj2 (Z.ltb_ge n 0)), (proj2 (Z.ltb_ge n' 0)) in H by assumption.
  rewrite <- (nat_digits_undigits n), <- (nat_digits_undigits n') by assumption.
  rewrite H. reflexivity.
Qed.

Lemma digits_fuel_no_colon (fuel : nat) : forall (n : Z) (acc : string),
  no_colon acc -> no_colon (Py.digits_fuel fuel n acc).
Proof.
  induction fuel as [|fuel IH]; intros n acc Hacc; [exact Hacc|].
  cbn [Py.digits_fuel].
  assert (Hc : no_colon (String (ascii_of_N (Z.to_N (48 + n mod 10))) acc)).
  { split; [|exact Hacc]. intros E.
    pose proof (digit_char n) as Hd. rewrite E in Hd. cbn in Hd.
    pose proof (Z.mod_pos_bound n 10 ltac:(lia)). lia. }
  destruct (n <? 10); [exact Hc | apply IH, Hc].
Qed.

Lemma str_int_no_colon (n : Z) : 0 <= n -> no_colon (Py.str_int n).
Proof.
  intros Hn. unfold Py.str_int.
  rewrite (proj2 (Z.ltb_ge n 0)) by assumption.
  apply digits_fuel_no_colon. exact I.
Qed.

(** A string is split at its last colon in one way only. *)
Lemma split_at_last_colon (a b x y : string) :
  no_colon x -> no_colon y ->
  a ++ String ":" x = b ++ String ":" y -> a = b /\ x = y.
Proof.
  intros Hx Hy. revert b. induction a as [|c a IH]; intros [|c' b] H; cbn in H.
  - injection H as ->. auto.
  - injection H as <- ->. exfalso. clear -Hx.
    induction b as [|c b IHb]; cbn in Hx; [destruct Hx as [Hx _]; auto|].
    destruct Hx as [_ Hx]. auto.
  - injection H as -> <-. exfalso. clear -Hy.
    induction a as [|c a IHa]; cbn in Hy; [destruct Hy as [Hy _]; auto|].
    destruct Hy as [_ Hy]. auto.
  - injection H as -> H. destruct (IH _ H) as [-> ->]. auto.
Qed.

Lemma string_append_assoc (a b c : string) : (a ++ b) ++ c = a ++ (b ++ c).
Proof.
  induction a as [|ch a IH]; [reflexivity|].
  change (String ch ((a ++ b) ++ c) = String ch (a ++ (b ++ c))). f_equal. exact IH.
Qed.

Lemma generate_import_id_key (d : PyDatetime.date) (mu n : Z) :
  YNABClient.generate_import_id d mu n
  = ("YNAB:" ++ YNABClient.base_key mu d) ++ String ":" (Py.str_int n).
Proof.
  unfold YNABClient.generate_import_id, YNABClient.base_key.
  cbn [String.append]. rewrite !string_append_assoc. reflexivity.
Qed.

Lemma generate_import_id_inj (d d' : PyDatetime.date) (mu mu' n n' : Z) :
  0 <= n -> 0 <= n' ->
  YNABClient.generate_import_id d mu n = YNABClient.generate_import_id d' mu' n' ->
  YNABClient.base_key mu d = YNABClient.base_key mu' d' /\ n = n'.
Proof.
  intros Hn Hn' H. rewrite !generate_import_id_key in H.
  apply split_at_last_colon in H as [Hk Hd];
    [|apply str_int_no_colon; assumption..].
  cbn in Hk. injection Hk as Hk. split; [exact Hk|].
  apply str_int_inj; assumption.
Qed.

End Digits.

Section ImportIds.

Variable fromisoformat : string -> Py.result PyDatetime.datetime.

Lemma convert_returns_parsed (account_id : string)
    (transactions : list YNABClient.tx_dict) :
  forall (counts : gmap string Z) (acc rows : list YNABClient.ynab_tx),
    YNABClient.convert fromisoformat account_id transactions counts acc
    = Py.Return rows ->
    exists items,
      map fst items = transactions
      /\ Forall (fun it => ImportKeys.parsed fromisoformat (fst it)
                           = Py.Return (snd it)) items.
Proof.
  induction transactions as [|tx rest IH]; intros counts acc rows H.
  - exists []. split; [reflexivity | constructor].
  - cbn [YNABClient.convert] in H.
    destruct (YNABClient.parse_date fromisoformat (YNABClient.date tx)) as [d|e] eqn:Hd;
      [|discriminate].
    destruct (YNABClient.dollars_to_milliunits (YNABClient.amount tx)) as [mu|e] eqn:Hm;
      [|discriminate].
    destruct (IH _ _ _ H) as (items & Hi & Hall).
    exists ((tx, (d, mu)) :: items). split; [cbn; rewrite Hi; reflexivity|].
    constructor; [|exact Hall].
    unfold ImportKeys.parsed. cbn [fst snd]. rewrite Hd, Hm. reflexivity.
Qed.

Lemma count_occ_take_lt (keys earlier : list string) (i j : nat) (key : string) :
  (i < j)%nat -> keys !! i = Some key ->
  (count_occ string_dec (earlier ++ take i keys) key
   < count_occ string_dec (earlier ++ take j keys) key)%nat.
Proof.
  intros Hij Hi.
  replace j with (i + S (j - i - 1))%nat by lia.
  rewrite <- take_take_drop.
  rewrite (drop_S _ _ _ Hi). cbn [take].
  rewrite !count_occ_app. cbn [count_occ].
  destruct (string_dec key key); [lia | contradiction].
Qed.

(** X16.  The import ids of one request are pairwise distinct: whenever
    the conversion loop of [create_transactions] returns, no two of the
    rows it has built carry the same [import_id], so that the gateway
    never sees one batch row as the duplicate of another. *)
Theorem import_ids_distinct (account_id : string)
    (transactions : list YNABClient.tx_dict) (rows : list YNABClient.ynab_tx) :
  YNABClient.convert fromisoformat account_id transactions ∅ [] = Py.Return rows ->
  NoDup (map YNABClient.import_id rows).
Proof.
  intros H.
  destruct (convert_returns_parsed _ _ _ _ _ H) as (items & <- & Hall).
  rewrite (convert_expected fromisoformat account_id items ∅ [] [] Hall) in H.
  2:{ intros key. rewrite lookup_empty. reflexivity. }
  cbn [app] in H. injection H as <-.
  assert (Hkey : forall i j it it' x,
             (i < j)%nat -> items !! i = Some it -> items !! j = Some it' ->
             (YNABClient.import_id <$> ImportKeys.expected account_id [] items !! i)
             = Some x ->
             (YNABClient.import_id <$> ImportKeys.expected account_id [] items !! j)
             = Some x -> False).
  { intros i j it it' x Hij Hi Hj Hxi Hxj.
    rewrite (expected_lookup _ _ [] i it Hi) in Hxi.
    rewrite (expected_lookup _ _ [] j it' Hj) in Hxj.
    rewrite <- Hxj in Hxi. apply (inj Some) in Hxi.
    unfold ImportKeys.occurrence in Hxi.
    apply generate_import_id_inj in Hxi as [Hk Hn]; [|lia..].
    assert (Hlt := count_occ_take_lt (map ImportKeys.key_of items) [] i j
                     (ImportKeys.key_of it) Hij).
    rewrite list_lookup_fmap, Hi in Hlt. specialize (Hlt eq_refl).
    rewrite <- !fmap_take in Hlt.
    change (YNABClient.base_key (snd (snd it)) (fst (snd it)))
      with (ImportKeys.key_of it) in Hk.
    change (YNABClient.base_key (snd (snd it')) (fst (snd it')))
      with (ImportKeys.key_of it') in Hk.
    rewrite <- Hk in Hn. cbn [app] in *.
    change (ImportKeys.key_of <$> take i items)
      with (map ImportKeys.key_of (take i items)) in Hlt.
    change (ImportKeys.key_of <$> take j items)
      with (map ImportKeys.key_of (take j items)) in Hlt.
    lia. }
  apply NoDup_alt. intros i j x Hi Hj.
  rewrite list_lookup_fmap in Hi, Hj.
  destruct (lookup_lt_is_Some_2 items i) as [it Hit].
  { rewrite <- (expected_length account_id [] items).
    destruct (ImportKeys.expected account_id [] items !! i) eqn:E; [|discriminate].
    apply lookup_lt_Some in E. exact E. }
  destruct (lookup_lt_is_Some_2 items j) as [it' Hit'].
  { rewrite <- (expected_length account_id [] items).
    destruct (ImportKeys.expected account_id [] items !! j) eqn:E; [|discriminate].
    apply lookup_lt_Some in E. exact E. }
  destruct (Nat.lt_trichotomy i j) as [Hlt|[Heq|Hgt]]; [|exact Heq|].
  - exfalso. exact (Hkey i j it it' x Hlt Hit Hit' Hi Hj).
  - exfalso. exact (Hkey j i it' it x Hgt Hit' Hit Hj Hi).
Qed.

Variable post_transactions :
  string -> list YNABClient.ynab_tx -> Py.result YNABImportResult.t.

Lemma convert_raises (account_id : string) (tx : YNABClient.tx_dict)
    (e0 : Py.exn) (transactions : list YNABClient.tx_dict) :
  tx ∈ transactions ->
  YNABClient.dollars_to_milliunits (YNABClient.amount tx) = Py.Raise e0 ->
  forall counts acc,
    exists e,
      YNABClient.convert fromisoformat account_id transactions counts acc
      = Py.Raise e.
Proof.
  intros Hin Hm. induction transactions as [|t rest IH]; intros counts acc.
  - inversion Hin.
  - cbn [YNABClient.convert].
    destruct (YNABClient.parse_date fromisoformat (YNABClient.date t)) as [d|e];
      [|eauto].
    apply elem_of_cons in Hin as [<-|Hin].
    + rewrite Hm. eauto.
    + destruct (YNABClient.dollars_to_milliunits (YNABClient.amount t)) as [mu|e];
        [|eauto].
      apply IH. exact Hin.
Qed.

(** X17.  An amount that is not a finite number rejects the whole batch
    before anything is sent: if one transaction of the batch has the
    amount NaN or an infinity, [import_transactions] raises, and it does so
    whatever the gateway would have answered. *)
Theorem non_finite_amount_rejects_batch (budget_id account_id : string)
    (transactions : list YNABClient.tx_dict) (tx : YNABClient.tx_dict) :
  tx ∈ transactions ->
  (Prim2SF (YNABClient.amount tx) = S754_nan
   \/ exists sign, Prim2SF (YNABClient.amount tx) = S754_infinity sign) ->
  exists e,
    YNABClient.import_transactions fromisoformat post_transactions
      budget_id account_id transactions = Py.Raise e
    /\ forall post,
         YNABClient.import_transactions fromisoformat post
           budget_id account_id transactions = Py.Raise e.
Proof.
  intros Hin Hnf.
  assert (Hm : exists e0,
             YNABClient.dollars_to_milliunits (YNABClient.amount tx) = Py.Raise e0).
  { unfold YNABClient.dollars_to_milliunits, PyFloat.round.
    rewrite mul_spec. destruct Hnf as [->|[sign ->]].
    - cbn. eauto.
    - vm_compute. eauto. }
  destruct Hm as [e0 Hm].
  destruct (convert_raises account_id tx e0 transactions Hin Hm ∅ []) as [e He].
  exists e.
  assert (forall post,
             YNABClient.import_transactions fromisoformat post
               budget_id account_id transactions = Py.Raise e) as Hall.
  { intros post. unfold YNABClient.import_transactions,
      YNABClient.create_transactions.
    destruct transactions as [|t rest]; [inversion Hin|].
    rewrite He. reflexivity. }
  split; [apply Hall | exact Hall].
Qed.

End ImportIds.

Lemma import_ids_distinct_witness :
  exists rows,
    YNABClient.convert Sample.no_parse "ya1"
      [Sample.coffee_dict; Sample.bakery_dict; Sample.coffee_dict] ∅ []
    = Py.Return rows
    /\ NoDup (map YNABClient.import_id rows).
Proof.
  eexists. split; [vm_compute; reflexivity|].
  apply (import_ids_distinct Sample.no_parse "ya1"
           [Sample.coffee_dict; Sample.bakery_dict; Sample.coffee_dict]).
  vm_compute. reflexivity.
Defined.

Lemma non_finite_amount_rejects_batch_witness :
  let bad := YNABClient.TxDict (YNABClient.OfDatetime Sample.day) nan None None in
  bad ∈ [Sample.coffee_dict; bad]
  /\ Prim2SF (YNABClient.amount bad) = S754_nan
  /\ exists e,
       YNABClient.import_transactions Sample.no_parse Sample.accept_all "b1" "ya1"
         [Sample.coffee_dict; bad] = Py.Raise e.
Proof.
  intros bad.
  assert (Hin : bad ∈ [Sample.coffee_dict; bad]) by (right; left).
  assert (Hnan : Prim2SF (YNABClient.amount bad) = S754_nan) by reflexivity.
  split; [exact Hin|]. split; [exact Hnan|].
  destruct (non_finite_amount_rejects_batch Sample.no_parse Sample.accept_all
              "b1" "ya1" _ bad Hin (or_introl Hnan)) as [e [He _]].
  exists e. exact He.
Defined.

(** ** [services/akahu_client.py]: the pages of [get_transactions] *)

Section Pages.

Variable fromisoformat : string -> Py.result PyDatetime.datetime.
Variable request : option string -> Py.result AkahuClient.page.

Lemma collect_app (account_id : option string) (l1 l2 : list AkahuClient.item) :
  forall all,
    AkahuClient.collect fromisoformat account_id (l1 ++ l2) all
    = match AkahuClient.collect fromisoformat account_id l1 all with
      | Py.Raise e => Py.Raise e
      | Py.Return all' => AkahuClient.collect fromisoformat account_id l2 all'
      end.
Proof.
  induction l1 as [|tx l1 IH]; intros all; [reflexivity|].
  cbn [app AkahuClient.collect].
  destruct (_ && _); [apply IH|].
  destruct (AkahuClient.to_transaction fromisoformat tx); [apply IH | reflexivity].
Qed.

Lemma paginate_pages (account_id : option string) (pages : list AkahuClient.page) :
  forall (fuel : nat) (cursor : option string) (all : list AkahuTransaction.t),
    serves request cursor pages ->
    (length pages <= fuel)%nat ->
    AkahuClient.paginate fromisoformat request fuel account_id cursor all
    = Some (AkahuClient.collect fromisoformat account_id
              (concat (map AkahuClient.items pages)) all).
Proof.
  induction pages as [|p rest IH]; intros fuel cursor all Hs Hf; [destruct Hs|].
  destruct fuel as [|fuel]; [cbn in Hf; lia|].
  destruct Hs as [Hreq Hrest].
  cbn [AkahuClient.paginate map concat]. rewrite Hreq, collect_app.
  destruct (AkahuClient.collect fromisoformat account_id (AkahuClient.items p) all)
    as [all'|e]; [|reflexivity].
  destruct rest as [|p' rest'].
  - rewrite Hrest. cbn. reflexivity.
  - destruct Hrest as [-> Hrest]. apply IH; [exact Hrest | cbn in *; lia].
Qed.

(** X18.  Paging is transparent.  When the provider answers with a chain of
    pages, each but the last naming the cursor of the next, the loop of
    [get_transactions] ends after one request per page, and its result is
    that of reading all the items, in order, as one page: the transactions
    of the account asked for, or the first error met. *)
Theorem get_transactions_reads_all_pages (account_id : option string)
    (pages : list AkahuClient.page) (fuel : nat) :
  serves request None pages ->
  (length pages <= fuel)%nat ->
  AkahuClient.get_transactions fromisoformat request fuel account_id
  = Some (AkahuClient.collect fromisoformat account_id
            (concat (map AkahuClient.items pages)) []).
Proof. intros Hs Hf. apply paginate_pages; assumption. Qed.




(** X20.  The loop has no bound of its own: against a provider that names
    a next cursor on every page (the items being readable), no number of
    requests ends [get_transactions]. *)
Theorem get_transactions_follows_every_cursor (account_id : option string) :
  (forall cursor all, exists data all',
      request cursor = Py.Return data
      /\ Py.opt_truthy (AkahuClient.next data) = true
      /\ AkahuClient.collect fromisoformat account_id (AkahuClient.items data) all
         = Py.Return all') ->
  forall fuel,
    AkahuClient.get_transactions fromisoformat request fuel account_id = None.
Proof.
  intros H fuel. unfold AkahuClient.get_transactions.
  generalize (@nil AkahuTransaction.t) as all. generalize (@None string) as cursor.
  induction fuel as [|fuel IH]; intros cursor all; [reflexivity|].
  destruct (H cursor all) as (data & all' & Hr & Hn & Hc).
  cbn [AkahuClient.paginate]. rewrite Hr, Hc, Hn. apply IH.
Qed.

End Pages.

Lemma get_transactions_reads_all_pages_witness :
  serves Fixtures.two_pages None [Fixtures.page1; Fixtures.page2]
  /\ (length [Fixtures.page1; Fixtures.page2] <= 5)%nat
  /\ (AkahuTransaction.id <$>
        match AkahuClient.get_transactions Fixtures.parse_day Fixtures.two_pages 5
                (Some "acc_1") with
        | Some (Py.Return l) => l
        | _ => []
        end) = ["tx_1"; "tx_3"].
Proof.
  assert (Hs : serves Fixtures.two_pages None [Fixtures.page1; Fixtures.page2])
    by (cbn; auto).
  assert (Hf : (length [Fixtures.page1; Fixtures.page2] <= 5)%nat) by (cbn; lia).
  split; [exact Hs|]. split; [exact Hf|].
  rewrite (get_transactions_reads_all_pages Fixtures.parse_day Fixtures.two_pages
             (Some "acc_1") _ 5 Hs Hf).
  vm_compute. reflexivity.
Defined.


Lemma get_transactions_follows_every_cursor_witness :
  (forall cursor all, exists data all',
      Fixtures.endless cursor = Py.Return data
      /\ Py.opt_truthy (AkahuClient.next data) = true
      /\ AkahuClient.collect Fixtures.parse_day None (AkahuClient.items data) all
         = Py.Return all')
  /\ AkahuClient.get_transactions Fixtures.parse_day Fixtures.endless 1000 None
     = None.
Proof.
  assert (H : forall cursor all, exists data all',
      Fixtures.endless cursor = Py.Return data
      /\ Py.opt_truthy (AkahuClient.next data) = true
      /\ AkahuClient.collect Fixtures.parse_day None (AkahuClient.items data) all
         = Py.Return all').
  { intros cursor all. do 2 eexists. repeat split. }
  split; [exact H|].
  exact (get_transactions_follows_every_cursor Fixtures.parse_day Fixtures.endless
           None H 1000%nat).
Defined.

(** ** [routers/csv.py]: the import of a parsed file *)

Section CsvImport.

Variable w : World.t.

(** X21.  When the gateway is down, POST [/csv/import] records nothing: the
    session is left exactly as it was, the answer is never that of a
    completed import, and when there was something to send the exception
    of the gateway call is passed on as it is. *)
Theorem csv_import_gateway_failure (transactions : list CsvRouter.tx)
    (b a : string) (skip : bool) (s : Db.Session) :
  (forall budget_id rows,
      Py.is_raise (World.post_transactions w budget_id rows) = true) ->
  let r := CsvRouter.import_csv_transactions w transactions b a skip s in
  let tx_creates :=
    map CsvRouter.to_create (List.filter (CsvRouter.kept skip) transactions) in
  snd r = s
  /\ (forall n d ids, fst r <> Py.Return (CsvRouter.Imported n d ids))
  /\ (tx_creates <> [] ->
      exists e,
        World.import_transactions w b a (map CsvRouter.to_dict tx_creates)
        = Py.Raise e
        /\ fst r = Py.Raise e).
Proof.
  intros Hdown r tx_creates. subst r.
  unfold CsvRouter.import_csv_transactions. fold tx_creates.
  destruct transactions as [|t0 rest].
  { cbn. repeat split; [discriminate | intros H; contradiction]. }
  destruct tx_creates as [|c cs] eqn:E.
  { cbn. repeat split; [discriminate | intros H; contradiction]. }
  cbn [map].
  destruct (import_raises w Hdown b a (CsvRouter.to_dict c)
              (map CsvRouter.to_dict cs)) as [e He].
  unfold Db.bind, Db.lift. rewrite He. cbn.
  repeat split; [discriminate|]. intros _. exists e. auto.
Qed.

(** X22.  What POST [/csv/import] sends it records under the fingerprint
    that the parser computed for the preview.  When the import returns and
    the gateway has answered with no ids or with at least one id per
    transaction sent, every transaction sent is known to [is_duplicate]
    afterwards under [generate_transaction_hash] of its date, amount,
    payee and memo. *)
Theorem csv_import_records_parser_fingerprints (transactions : list CsvRouter.tx)
    (b a : string) (skip : bool) (db : Db.Database)
    (clock : nat -> PyDatetime.timestamp) (n d : Z) (ids : list string)
    (s' : Db.Session) (t : CsvRouter.tx) :
  NoDup (Db.hashes (Db.imported_transactions db)) ->
  CsvRouter.import_csv_transactions w transactions b a skip
    (Db.open_session db clock) = (Py.Return (CsvRouter.Imported n d ids), s') ->
  (length (List.filter (CsvRouter.kept skip) transactions)
   <= length (DeduplicationService.ynab_ids_or_none (Some (map Some ids))
                (length (List.filter (CsvRouter.kept skip) transactions))))%nat ->
  t ∈ transactions ->
  CsvRouter.kept skip t = true ->
  DeduplicationService.is_duplicate
    (CSVParser.generate_transaction_hash (CsvRouter.date t) (CsvRouter.amount t)
       (CsvRouter.payee t) (CsvRouter.memo t)) s'
  = (Py.Return true, s').
Proof.
  intros Hnd Hr Hlen Hin Hkept.
  unfold CsvRouter.import_csv_transactions in Hr.
  destruct transactions as [|t0 rest]; [discriminate|].
  set (sent := List.filter (CsvRouter.kept skip) (t0 :: rest)) in *.
  destruct (map CsvRouter.to_create sent) as [|c cs] eqn:E; [discriminate|].
  rewrite <- E in Hr. clear E c cs.
  unfold Db.bind at 1, Db.lift in Hr.
  destruct (World.import_transactions w b a _) as [result|e]; [|discriminate].
  unfold Db.bind in Hr.
  destruct (DeduplicationService.record_imports_batch _ _ _ _ _)
    as [[m|e] s1] eqn:Hrec; [|discriminate].
  cbn in Hr. injection Hr as <- <- <- <-.
  apply (known_after_batch _ _ _ _ _ _ _ _ _ Hnd Hrec). right.
  assert (Hs : t ∈ sent).
  { apply list_elem_of_In, filter_In. split; [apply list_elem_of_In; exact Hin|].
    exact Hkept. }
  apply list_elem_of_lookup_1 in Hs as [k Hk].
  rewrite csv_hash_same.
  assert (Hh : DeduplicationService.generate_hash (CsvRouter.date t)
                 (CsvRouter.amount t) (CsvRouter.payee t) (CsvRouter.memo t)
               = Rows.hash_of (CsvRouter.to_create t))
    by (unfold Rows.hash_of; reflexivity).
  rewrite Hh.
  apply (zipped_hash_in_rows _ _ _ _ _ _ k).
  - rewrite list_lookup_fmap, Hk. reflexivity.
  - rewrite length_map. apply lookup_lt_Some in Hk. fold sent in Hlen. lia.
Qed.

End CsvImport.

Lemma csv_import_gateway_failure_witness :
  let r :=
    CsvRouter.import_csv_transactions Sample.world_gateway_fails
      [Fixtures.coffee_row; Fixtures.grocer_row] "b1" "ya1" true
      (Db.open_session Sample.db_with_c1 Sample.clock) in
  (forall budget_id rows,
      Py.is_raise (World.post_transactions Sample.world_gateway_fails budget_id rows)
      = true)
  /\ snd r = Db.open_session Sample.db_with_c1 Sample.clock
  /\ fst r = Py.Raise (Py.Exn "ReadTimeout" "timed out").
Proof.
  intros r.
  assert (Hdown : forall budget_id rows,
             Py.is_raise (World.post_transactions Sample.world_gateway_fails
                            budget_id rows) = true)
    by (intros; reflexivity).
  destruct (csv_import_gateway_failure Sample.world_gateway_fails
              [Fixtures.coffee_row; Fixtures.grocer_row] "b1" "ya1" true
              (Db.open_session Sample.db_with_c1 Sample.clock) Hdown)
    as (Hs & _ & He).
  split; [exact Hdown|]. split; [exact Hs|].
  destruct (He ltac:(discriminate)) as (e & Hi & Hr).
  fold r in Hr. rewrite Hr. vm_compute in Hi. injection Hi as <-. reflexivity.
Defined.

Lemma csv_import_records_parser_fingerprints_witness :
  let r :=
    CsvRouter.import_csv_transactions Sample.world
      [Fixtures.coffee_row; Fixtures.grocer_row] "b1" "ya1" true
      (Db.open_session Db.empty Sample.clock) in
  let ids := ["id-YNAB:-12500:2024-01-15:1"; "id-YNAB:-40000:2024-01-15:1"] in
  NoDup (Db.hashes (Db.imported_transactions Db.empty))
  /\ r = (Py.Return (CsvRouter.Imported 2 0 ids), snd r)
  /\ Fixtures.grocer_row ∈ [Fixtures.coffee_row; Fixtures.grocer_row]
  /\ CsvRouter.kept true Fixtures.grocer_row = true
  /\ DeduplicationService.is_duplicate
       (TransactionPreview.transaction_hash Fixtures.grocer_preview) (snd r)
     = (Py.Return true, snd r).
Proof.
  intros r ids.
  assert (Hnd : NoDup (Db.hashes (Db.imported_transactions Db.empty)))
    by constructor.
  assert (Hr : r = (Py.Return (CsvRouter.Imported 2 0 ids), snd r))
    by (vm_compute; reflexivity).
  assert (Hin : Fixtures.grocer_row ∈ [Fixtures.coffee_row; Fixtures.grocer_row])
    by (right; left).
  split; [exact Hnd|]. split; [exact Hr|]. split; [exact Hin|].
  split; [reflexivity|].
  apply (csv_import_records_parser_fingerprints Sample.world
           [Fixtures.coffee_row; Fixtures.grocer_row] "b1" "ya1" true Db.empty
           Sample.clock 2 0 ids (snd r) Fixtures.grocer_row Hnd Hr);
    [vm_compute; lia | exact Hin | reflexivity].
Defined.

(** ** The outcome of a scheduled run *)

Lemma bind_assoc {A B C} (c : Db.M A) (k : A -> Db.M B) (k' : B -> Db.M C)
    (s : Db.Session) :
  Db.bind (Db.bind c k) k' s = Db.bind c (fun a => Db.bind (k a) k') s.
Proof. unfold Db.bind. destruct (c s) as [[a|e] s']; reflexivity. Qed.

Lemma record_imports_batch_run (transactions : list TransactionCreate.t)
    (b a : option string) (ids : option (list (option string)))
    (s : Db.Session) :
  Db.inactive s = false -> Db.pending s = [] ->
  DeduplicationService.record_imports_batch transactions b a ids s
  = match transactions with
    | [] => (Py.Return 0, s)
    | _ :: _ =>
        let pairs :=
          combine transactions
            (DeduplicationService.ynab_ids_or_none ids (length transactions)) in
        match Db.flush (Db.imported_transactions (Db.view s))
                (Rows.rows_of pairs b a (Db.now_at s) (Db.ticks s)) with
        | Some table =>
            let db' :=
              Db.mkDatabase table (Db.akahu_accounts (Db.view s))
                (Db.sync_logs (Db.view s)) in
            (Py.Return (Z.of_nat (length transactions)),
             Db.mkSession db' db' [] false (Db.now_at s)
               (Db.ticks s + length pairs))
        | None =>
            (Py.Raise Db.IntegrityError,
             Db.mkSession (Db.committed s) (Db.committed s) [] true (Db.now_at s)
               (Db.ticks s + length pairs))
        end
    end.
Proof.
  intros Hi Hp. unfold DeduplicationService.record_imports_batch.
  destruct transactions as [|tx rest]; [reflexivity|].
  cbv zeta. unfold Db.bind at 1. rewrite add_rows_spec.
  unfold Db.bind, Db.commit, Db.ret.
  cbn [Db.view Db.committed Db.pending Db.inactive Db.now_at Db.ticks].
  rewrite Hi, Hp. cbn [app].
  destruct (Db.flush _ _); reflexivity.
Qed.

(** One step of a run: the first computation of a chain is evaluated in the
    session at hand. *)
Ltac run_step :=
  erewrite bind_returns by reflexivity;
  cbn beta;
  cbn [Db.view Db.committed Db.pending Db.inactive Db.now_at Db.ticks
       Db.open_session Db.sync_logs Db.imported_transactions Db.akahu_accounts].

Ltac run_commit :=
  unfold Db.commit;
  cbn [Db.view Db.committed Db.pending Db.inactive Db.now_at Db.ticks
       Db.open_session Db.sync_logs Db.imported_transactions Db.akahu_accounts
       Db.flush].

Section RunOutcome.

Variable w : World.t.
Variable id : string.
Variable db : Db.Database.
Variable clock : nat -> PyDatetime.timestamp.
Variable link : AkahuAccount.t.

Lemma outcome_success (s : Db.Session) (message : string) (n : Z) :
  Db.inactive s = false -> Db.pending s = [] -> Db.now_at s = clock ->
  (exists row0, Db.sync_logs (Db.view s) = (Db.sync_logs db ++ [row0])%list) ->
  (exists a0, Db.akahu_accounts (Db.view s) !! id = Some a0) ->
  run_outcome id link clock db
    (after_run id
       ((Scheduler.finish_success id (length (Db.sync_logs db))
           (AkahuAccount.schedule_interval_hours link) message n ;;;
         Db.commit) s)).
Proof.
  intros Hi Hp Hc [row0 Hlogs] [a0 Ha0].
  unfold Scheduler.finish_success. rewrite !bind_assoc.
  do 11 (rewrite ?bind_assoc; run_step). run_commit. rewrite Hi, Hp. cbn [Db.flush].
  unfold after_run, run_outcome. cbn [Db.committed Db.akahu_accounts Db.sync_logs].
  rewrite !lookup_alter_eq, Ha0, Hlogs, !alter_snoc, last_snoc, Hc. cbn.
  do 2 eexists. split; [reflexivity|]. split; [reflexivity|].
  split; [reflexivity|]. left. split; [reflexivity|]. split; [discriminate|].
  eexists. split; reflexivity.
Qed.

Lemma outcome_failed (s : Db.Session) (m1 m2 : string) :
  Db.inactive s = false -> Db.pending s = [] ->
  (exists row0, Db.sync_logs (Db.view s) = (Db.sync_logs db ++ [row0])%list) ->
  (exists a0,
      Db.akahu_accounts (Db.view s) !! id = Some a0
      /\ AkahuAccount.next_sync_at a0 = AkahuAccount.next_sync_at link
      /\ AkahuAccount.last_synced_at a0 = AkahuAccount.last_synced_at link) ->
  Db.imported_transactions (Db.view s) = Db.imported_transactions db ->
  run_outcome id link clock db
    (after_run id (Scheduler.finish_failed id (length (Db.sync_logs db)) m1 m2 s)).
Proof.
  intros Hi Hp [row0 Hlogs] (a0 & Ha0 & Hn & Hs) Hled.
  unfold Scheduler.finish_failed.
  do 6 run_step. run_commit. rewrite Hi, Hp. cbn [Db.flush].
  unfold after_run, run_outcome.
  cbn [Db.committed Db.akahu_accounts Db.sync_logs Db.imported_transactions].
  rewrite !lookup_alter_eq, Ha0, Hlogs, !alter_snoc, last_snoc. cbn.
  do 2 eexists. split; [reflexivity|]. split; [reflexivity|].
  split; [reflexivity|]. right. left.
  split; [reflexivity|]. split; [discriminate|]. auto.
Qed.

Lemma outcome_running (s : Db.Session) (e : Py.exn) :
  Db.inactive s = true ->
  (exists row0,
      Db.sync_logs (Db.committed s) = (Db.sync_logs db ++ [row0])%list
      /\ SyncLog.status row0 = "running" /\ SyncLog.completed_at row0 = None) ->
  (exists a0,
      Db.akahu_accounts (Db.committed s) !! id = Some a0
      /\ AkahuAccount.last_sync_status a0 = Some "running"
      /\ AkahuAccount.next_sync_at a0 = AkahuAccount.next_sync_at link
      /\ AkahuAccount.last_synced_at a0 = AkahuAccount.last_synced_at link) ->
  Db.imported_transactions (Db.committed s) = Db.imported_transactions db ->
  run_outcome id link clock db (after_run id (Py.Raise e, s)).
Proof.
  intros Hi (row0 & Hlogs & Hst & Hco) (a0 & Ha0 & Hs0 & Hn & Hs) Hled.
  unfold after_run, Scheduler.recover, Db.try_except.
  do 2 run_step. run_commit. rewrite Hi. cbn.
  unfold run_outcome. rewrite Ha0, Hlogs, last_snoc.
  do 2 eexists. split; [reflexivity|]. split; [reflexivity|].
  split; [rewrite Hs0, Hst; reflexivity|]. right. right. auto.
Qed.

Ltac side :=
  cbn; rewrite ?alter_snoc, ?lookup_alter_eq; cbn;
  repeat match goal with
         | H : _ !! _ = Some _ |- _ => rewrite H
         end;
  cbn; eauto 10.

Lemma job_after_run (s : Db.Session) :
  Db.committed (snd (Scheduler.sync_akahu_account_job w id s))
  = after_run id (Scheduler.job_body w id s).
Proof.
  unfold Scheduler.sync_akahu_account_job, Db.try_except, after_run.
  destruct (Scheduler.job_body w id s) as [[[]|e] s']; reflexivity.
Qed.

(** X23.  How a scheduled run leaves the account and its log row.  For a
    linked account the run ends in one of three ways, and in each the
    status of the account is the status of the log row.  Success: the row
    is completed and [next_sync_at] is a clock reading plus the account's
    interval, read right after the one stored as [last_synced_at].
    Failed: the row is completed, and [next_sync_at], [last_synced_at] and
    the ledger are what they were before the run.  Running: the row was
    never completed (recording the imports raised and the session could
    not be used any more), and again nothing else has moved. *)
Theorem scheduled_run_outcome :
  Db.akahu_accounts db !! id = Some link ->
  Py.opt_truthy (AkahuAccount.ynab_account_id link) = true ->
  let db' :=
    Db.committed (snd (Scheduler.sync_akahu_account_job w id
                         (Db.open_session db clock))) in
  exists a' row,
    Db.akahu_accounts db' !! id = Some a'
    /\ last (Db.sync_logs db') = Some row
    /\ AkahuAccount.last_sync_status a' = Some (SyncLog.status row)
    /\ ((SyncLog.status row = "success"
         /\ SyncLog.completed_at row <> None
         /\ exists k,
              AkahuAccount.last_synced_at a' = Some (clock k)
              /\ AkahuAccount.next_sync_at a'
                 = Some (clock (S k)
                         + PyDatetime.timedelta_hours
                             (AkahuAccount.schedule_interval_hours link)))
        \/ (SyncLog.status row = "failed"
            /\ SyncLog.completed_at row <> None
            /\ AkahuAccount.next_sync_at a' = AkahuAccount.next_sync_at link
            /\ AkahuAccount.last_synced_at a' = AkahuAccount.last_synced_at link
            /\ Db.imported_transactions db' = Db.imported_transactions db)
        \/ (SyncLog.status row = "running"
            /\ SyncLog.completed_at row = None
            /\ AkahuAccount.next_sync_at a' = AkahuAccount.next_sync_at link
            /\ AkahuAccount.last_synced_at a' = AkahuAccount.last_synced_at link
            /\ Db.imported_transactions db' = Db.imported_transactions db)).
Proof.
  intros Hl Ht db'. subst db'.
  change (run_outcome id link clock db
            (Db.committed (snd (Scheduler.sync_akahu_account_job w id
                                  (Db.open_session db clock))))).
  rewrite job_after_run.
  unfold Scheduler.job_body.
  unfold Db.bind at 1. unfold Db.get_account at 1, Db.open_session at 1.
  cbn [Db.view]. rewrite Hl, Ht. cbn [negb]. cbv zeta.
  do 5 run_step.
  destruct (World.get_account_transactions w id _) as [txs|e].
  2:{ apply outcome_failed; try reflexivity; side. }
  run_step.
  destruct txs as [|tx txs].
  { apply outcome_success; try reflexivity; side. }
  run_step.
  destruct (Scheduler.partition _ _ _ _ _ _) as [[ys cs] sk].
  run_step.
  destruct ys as [|y ys].
  { apply outcome_success; try reflexivity; side. }
  destruct (World.import_transactions w _ _ _) as [result|e].
  2:{ apply outcome_failed; try reflexivity; side. }
  unfold Db.bind at 1. rewrite record_imports_batch_run by reflexivity.
  destruct cs as [|c cs].
  { cbn beta iota. run_step. apply outcome_success; try reflexivity; side. }
  cbv zeta.
  cbn [Db.view Db.committed Db.pending Db.inactive Db.now_at Db.ticks
       Db.sync_logs Db.imported_transactions Db.akahu_accounts].
  destruct (Db.flush _ _) as [table|].
  - cbn beta iota. run_step. apply outcome_success; try reflexivity; side.
  - apply outcome_running; try reflexivity; side.
Qed.


End RunOutcome.

Lemma scheduled_run_outcome_witness :
  Db.akahu_accounts Sample.db !! "acc_1" = Some Sample.account
  /\ Py.opt_truthy (AkahuAccount.ynab_account_id Sample.account) = true
  /\ run_outcome "acc_1" Sample.account Sample.clock Sample.db
       (Db.committed (snd (Scheduler.sync_akahu_account_job Sample.world "acc_1"
                             (Db.open_session Sample.db Sample.clock)))).
Proof.
  split; [reflexivity|]. split; [reflexivity|].
  exact (scheduled_run_outcome Sample.world "acc_1" Sample.db Sample.clock
           Sample.account eq_refl eq_refl).
Defined.

(** ** A manual sync that does not complete *)

Section ManualOutcome.

Variable w : World.t.

Ltac ends :=
  lazymatch goal with
  | P := _ |- _ => subst P
  end;
  cbn; split; intros; first [discriminate | reflexivity].

(** X24.  A manual sync is all or nothing.  If POST [/akahu/sync] raises,
    be it for a missing link, a failed fetch, a failed import or a
    fingerprint that is already in the ledger, the database is exactly
    what it was before the request; and when it answers that there was
    nothing to import it has not touched the session at all. *)
Theorem manual_sync_all_or_nothing (id : string) (days : Z) (skip : bool)
    (db : Db.Database) (clock : nat -> PyDatetime.timestamp) :
  let r := AkahuRouter.sync_akahu_account w id days skip (Db.open_session db clock) in
  (forall e, fst r = Py.Raise e -> Db.committed (snd r) = db)
  /\ (forall imported skipped message,
        fst r = Py.Return (AkahuRouter.Nothing imported skipped message) ->
        snd r = Db.open_session db clock).
Proof.
  intros r.
  set (P := fun r : Py.result AkahuRouter.sync_response * Db.Session =>
              (forall e, fst r = Py.Raise e -> Db.committed (snd r) = db)
              /\ (forall imported skipped message,
                    fst r = Py.Return (AkahuRouter.Nothing imported skipped message) ->
                    snd r = Db.open_session db clock)).
  change (P r). subst r.
  unfold AkahuRouter.sync_akahu_account.
  unfold Db.bind at 1. unfold Db.get_account at 1, Db.open_session at 1.
  cbn [Db.view].
  destruct (Db.akahu_accounts db !! id) as [link|]; [|ends].
  destruct (negb _); [ends|].
  destruct (World.get_account_transactions w id days) as [[|tx txs]|e];
    [ends| |ends].
  run_step.
  destruct (AkahuRouter.partition _ _ _ _ _ _ _) as [[[|y ys] cs] sk]; [ends|].
  destruct (World.import_transactions w _ _ _) as [result|e]; [|ends].
  unfold Db.bind at 1. rewrite record_imports_batch_run by reflexivity.
  destruct cs as [|c cs].
  { cbn beta iota. do 3 run_step. ends. }
  cbv zeta.
  cbn [Db.view Db.committed Db.pending Db.inactive Db.now_at Db.ticks
       Db.sync_logs Db.imported_transactions Db.akahu_accounts].
  destruct (Db.flush _ _) as [table|].
  - cbn beta iota. do 3 run_step. ends.
  - ends.
Qed.

End ManualOutcome.

(** ** The two sync paths record alike *)

Section SamePaths.

Variable w : World.t.
Variable id : string.
Variable db : Db.Database.
Variable clock : nat -> PyDatetime.timestamp.

Lemma flush_inserted (table new : list ImportedTransaction.t) :
  match Db.flush table new with
  | Some t => Db.hashes t
  | None => Db.hashes table
  end = inserted (Db.hashes table) (Db.hashes new).
Proof.
  unfold inserted. pose proof (flush_is_Some new table) as H.
  rewrite <- Forall_forall in H.
  destruct (Db.flush table new) as [t|] eqn:E.
  - rewrite bool_decide_eq_true_2 by (apply H; eauto).
    apply flush_some in E. subst t. unfold Db.hashes. apply map_app.
  - rewrite bool_decide_eq_false_2; [reflexivity|].
    intros Hf. apply H in Hf as [x Hx]. discriminate.
Qed.

Lemma keeps_recover (e : Py.exn) : keeps (Scheduler.recover id e).
Proof.
  unfold Scheduler.recover. apply keeps_try_except.
  - repeat (apply keeps_bind; [|intros ?]);
      auto using keeps_update_account, keeps_commit.
  - intros _. apply keeps_ret.
Qed.

(** A computation that keeps the ledger, run as the rest of a job. *)
Lemma after_run_keeps (c : Db.M unit) (L : list ImportedTransaction.t)
    (s : Db.Session) :
  keeps c -> ledger_is L s ->
  Db.imported_transactions (after_run id (c s)) = L.
Proof.
  intros Hc Hs. unfold after_run. specialize (Hc L s Hs).
  destruct (c s) as [[[]|e] s']; cbn in *.
  - apply Hc.
  - apply (keeps_recover e L s' Hc).
Qed.

Lemma keeps_success_commit i h m n :
  keeps (Scheduler.finish_success id i h m n ;;; Db.commit).
Proof.
  apply keeps_bind; [apply keeps_finish_success | intros _; apply keeps_commit].
Qed.

Lemma job_fingerprints (link : AkahuAccount.t) :
  Db.akahu_accounts db !! id = Some link ->
  Db.hashes
    (Db.imported_transactions
       (Db.committed (snd (Scheduler.sync_akahu_account_job w id
                             (Db.open_session db clock)))))
  = sync_fingerprints w id
      (if AkahuAccount.schedule_days_to_sync link =? 0 then 7
       else AkahuAccount.schedule_days_to_sync link) db.
Proof.
  intros Hl. rewrite job_after_run. unfold sync_fingerprints. rewrite Hl.
  unfold Scheduler.job_body.
  unfold Db.bind at 1. unfold Db.get_account at 1, Db.open_session at 1.
  cbn [Db.view]. rewrite Hl.
  destruct (negb _); [reflexivity|]. cbv zeta.
  do 5 run_step.
  destruct (World.get_account_transactions w id _) as [txs|e].
  2:{ apply (f_equal Db.hashes). apply after_run_keeps; [apply keeps_finish_failed|].
      repeat split. }
  run_step.
  destruct txs as [|tx txs].
  { cbn [AkahuRouter.partition]. apply (f_equal Db.hashes).
    apply after_run_keeps; [apply keeps_success_commit | repeat split]. }
  run_step. rewrite scheduler_partition_acc.
  destruct (AkahuRouter.partition _ _ _ _ _ _ _) as [[ys cs] sk].
  run_step.
  destruct ys as [|y ys].
  { apply (f_equal Db.hashes). apply after_run_keeps; [apply keeps_success_commit | repeat split]. }
  destruct (World.import_transactions w _ _ _) as [result|e].
  2:{ apply (f_equal Db.hashes). apply after_run_keeps; [apply keeps_finish_failed | repeat split]. }
  unfold Db.bind at 1. rewrite record_imports_batch_run by reflexivity.
  rewrite <- (rows_of_hashes _ (AkahuAccount.ynab_budget_id link)
                (AkahuAccount.ynab_account_id link) clock 1).
  rewrite <- flush_inserted.
  destruct cs as [|c cs].
  { cbn beta iota. run_step. cbn [combine Rows.rows_of Db.flush].
    apply (f_equal Db.hashes). apply after_run_keeps; [apply keeps_success_commit | repeat split]. }
  cbv zeta.
  cbn [Db.view Db.committed Db.pending Db.inactive Db.now_at Db.ticks
       Db.sync_logs Db.imported_transactions Db.akahu_accounts].
  destruct (Db.flush _ _) as [table|].
  - cbn beta iota. run_step. apply (f_equal Db.hashes).
    apply after_run_keeps; [apply keeps_success_commit | repeat split].
  - apply (f_equal Db.hashes). apply (after_run_keeps (fun s => (Py.Raise Db.IntegrityError, s))).
    + intros L s H. exact H.
    + repeat split.
Qed.

Lemma manual_fingerprints (days : Z) :
  Db.hashes
    (Db.imported_transactions
       (Db.committed (snd (AkahuRouter.sync_akahu_account w id days true
                             (Db.open_session db clock)))))
  = sync_fingerprints w id days db.
Proof.
  unfold sync_fingerprints, AkahuRouter.sync_akahu_account.
  unfold Db.bind at 1. unfold Db.get_account at 1, Db.open_session at 1.
  cbn [Db.view].
  destruct (Db.akahu_accounts db !! id) as [link|]; [|reflexivity].
  destruct (negb _); [reflexivity|].
  destruct (World.get_account_transactions w id days) as [[|tx txs]|e];
    [reflexivity| |reflexivity].
  run_step.
  destruct (AkahuRouter.partition _ _ _ _ _ _ _) as [[[|y ys] cs] sk];
    [reflexivity|].
  destruct (World.import_transactions w _ _ _) as [result|e]; [|reflexivity].
  unfold Db.bind at 1. rewrite record_imports_batch_run by reflexivity.
  rewrite <- (rows_of_hashes _ (AkahuAccount.ynab_budget_id link)
                (AkahuAccount.ynab_account_id link) clock 0).
  rewrite <- flush_inserted.
  destruct cs as [|c cs].
  { cbn beta iota. do 3 run_step. reflexivity. }
  cbv zeta.
  cbn [Db.view Db.committed Db.pending Db.inactive Db.now_at Db.ticks
       Db.sync_logs Db.imported_transactions Db.akahu_accounts].
  destruct (Db.flush _ _) as [table|].
  - cbn beta iota. do 3 run_step. reflexivity.
  - reflexivity.
Qed.

(** X25.  The scheduled job and the manual sync record alike.  Run on the
    same database against the same collaborators, the job and a manual
    sync with [skip_duplicates] over the number of days that the job uses
    (the account's [schedule_days_to_sync], or 7 if that is 0) leave the
    same fingerprints in the ledger, in the same order. *)
Theorem scheduled_and_manual_record_alike (link : AkahuAccount.t) :
  Db.akahu_accounts db !! id = Some link ->
  let days :=
    if AkahuAccount.schedule_days_to_sync link =? 0 then 7
    else AkahuAccount.schedule_days_to_sync link in
  Db.hashes
    (Db.imported_transactions
       (Db.committed (snd (Scheduler.sync_akahu_account_job w id
                             (Db.open_session db clock)))))
  = Db.hashes
      (Db.imported_transactions
         (Db.committed (snd (AkahuRouter.sync_akahu_account w id days true
                               (Db.open_session db clock))))).
Proof.
  intros Hl days. rewrite (job_fingerprints link Hl), manual_fingerprints.
  reflexivity.
Qed.

End SamePaths.

Lemma scheduled_and_manual_record_alike_witness :
  Db.akahu_accounts Sample.db !! "acc_1" = Some Sample.account
  /\ Db.hashes
       (Db.imported_transactions
          (Db.committed (snd (Scheduler.sync_akahu_account_job Sample.world "acc_1"
                                (Db.open_session Sample.db Sample.clock)))))
     = Db.hashes
         (Db.imported_transactions
            (Db.committed (snd (AkahuRouter.sync_akahu_account Sample.world
                                  "acc_1" 7 true
                                  (Db.open_session Sample.db Sample.clock))))).
Proof.
  split; [reflexivity|].
  exact (scheduled_and_manual_record_alike Sample.world "acc_1" Sample.db
           Sample.clock Sample.account eq_refl).
Defined.

(** ** Two equal transactions in one fetch *)

Section Twins.

Variable w : World.t.

Lemma twins_not_NoDup {A} (l : list A) (i j : nat) (x : A) :
  l !! i = Some x -> l !! j = Some x -> i <> j -> ~ NoDup l.
Proof. intros Hi Hj Hne Hnd. apply Hne. exact (proj1 (NoDup_alt l) Hnd i j x Hi Hj). Qed.

(** X26.  Two bookings that agree on date, amount, merchant and description
    cannot be synced in one run.  If the transactions that the filter lets
    through hold two such bookings (their ids may differ) and the gateway
    accepts the batch, answering with no ids or with enough ids to reach
    the second of them, then recording the batch violates the unique index:
    the manual sync raises [IntegrityError] after the gateway call, and the
    database, the ledger included, is what it was before. *)
Theorem sync_twin_transactions_raise (id : string) (days : Z) (skip : bool)
    (db : Db.Database) (clock : nat -> PyDatetime.timestamp)
    (link : AkahuAccount.t) (transactions : list AkahuTransaction.t)
    (result : YNABImportResult.t) (i j : nat) (t1 t2 : AkahuTransaction.t) :
  Db.akahu_accounts db !! id = Some link ->
  Py.opt_truthy (AkahuAccount.ynab_account_id link) = true ->
  World.get_account_transactions w id days = Py.Return transactions ->
  let sent :=
    let_through skip (list_to_set (Db.hashes (Db.imported_transactions db)))
      transactions in
  World.import_transactions w
    (Convert.fmt_opt (AkahuAccount.ynab_budget_id link))
    (Convert.fmt_opt (AkahuAccount.ynab_account_id link))
    (map Convert.to_dict sent) = Py.Return result ->
  sent !! i = Some t1 -> sent !! j = Some t2 -> (i < j)%nat ->
  (j < length (DeduplicationService.ynab_ids_or_none
                 (Some (map Some (YNABImportResult.transaction_ids result)))
                 (length sent)))%nat ->
  AkahuTransaction.date t1 = AkahuTransaction.date t2 ->
  AkahuTransaction.amount t1 = AkahuTransaction.amount t2 ->
  AkahuTransaction.merchant t1 = AkahuTransaction.merchant t2 ->
  AkahuTransaction.description t1 = AkahuTransaction.description t2 ->
  let r := AkahuRouter.sync_akahu_account w id days skip (Db.open_session db clock) in
  fst r = Py.Raise Db.IntegrityError /\ Db.committed (snd r) = db.
Proof.
  intros Hl Ht Hfetch sent Himport Hi Hj Hij Hlen Hd Ha Hm Hdesc r.
  set (P := fun r : Py.result AkahuRouter.sync_response * Db.Session =>
              fst r = Py.Raise Db.IntegrityError /\ Db.committed (snd r) = db).
  change (P r). subst r.
  assert (Hsame : Rows.hash_of (Convert.to_create id t1)
                  = Rows.hash_of (Convert.to_create id t2)).
  { unfold Rows.hash_of, Convert.to_create, Convert.payee.
    cbn [TransactionCreate.date TransactionCreate.amount TransactionCreate.payee
         TransactionCreate.memo].
    rewrite Hd, Ha, Hm, Hdesc. reflexivity. }
  assert (Hdup : forall b a tick,
             ~ NoDup (Db.hashes
                        (Rows.rows_of
                           (combine (map (Convert.to_create id) sent)
                              (DeduplicationService.ynab_ids_or_none
                                 (Some (map Some
                                          (YNABImportResult.transaction_ids result)))
                                 (length (map (Convert.to_create id) sent))))
                           b a clock tick))).
  { intros b a tick. rewrite rows_of_hashes, length_map.
    set (ids := DeduplicationService.ynab_ids_or_none
                  (Some (map Some (YNABImportResult.transaction_ids result)))
                  (length sent)) in *.
    destruct (lookup_lt_is_Some_2 ids j Hlen) as [yj Hyj].
    destruct (lookup_lt_is_Some_2 ids i ltac:(lia)) as [yi Hyi].
    assert (Hzip : forall k t0 y0, sent !! k = Some t0 -> ids !! k = Some y0 ->
              map (fun p => Rows.hash_of (fst p))
                (combine (map (Convert.to_create id) sent) ids) !! k
              = Some (Rows.hash_of (Convert.to_create id t0))).
    { intros k t0 y0 Hk Hy. rewrite list_lookup_fmap.
      change (combine (map (Convert.to_create id) sent) ids)
        with (zip (map (Convert.to_create id) sent) ids).
      rewrite (proj2 (lookup_zip_with_Some pair _ _ k (Convert.to_create id t0, y0)));
        [reflexivity|].
      exists (Convert.to_create id t0), y0. split; [reflexivity|].
      split; [|exact Hy]. rewrite list_lookup_fmap, Hk. reflexivity. }
    apply (twins_not_NoDup _ i j (Rows.hash_of (Convert.to_create id t1))
             (Hzip i t1 yi Hi Hyi)); [|lia].
    rewrite Hsame. exact (Hzip j t2 yj Hj Hyj). }
  assert (Es : sent
               = let_through skip
                   (list_to_set (Db.hashes (Db.imported_transactions db)))
                   transactions) by reflexivity.
  clearbody sent.
  unfold AkahuRouter.sync_akahu_account.
  unfold Db.bind at 1. unfold Db.get_account at 1, Db.open_session at 1.
  cbn [Db.view]. rewrite Hl, Ht. cbn [negb]. rewrite Hfetch.
  destruct transactions as [|tx txs]; [subst sent; discriminate|].
  run_step. rewrite partition_acc. cbn [app]. rewrite <- Es.
  destruct sent as [|s0 rest]; [discriminate|].
  cbn [map] in Himport |- *. rewrite Himport.
  unfold Db.bind at 1. rewrite record_imports_batch_run by reflexivity.
  cbv zeta.
  cbn [Db.view Db.committed Db.pending Db.inactive Db.now_at Db.ticks
       Db.sync_logs Db.imported_transactions Db.akahu_accounts].
  lazymatch goal with
  | |- context [Db.flush ?t ?n] => destruct (Db.flush t n) as [table|] eqn:E
  end.
  - exfalso.
    lazymatch type of E with
    | Db.flush ?t ?n = _ =>
        destruct (proj1 (flush_is_Some n t) (ex_intro _ table E)) as [Hnd _]
    end.
    exact (Hdup _ _ _ Hnd).
  - subst P. cbn. auto.
Qed.

End Twins.


Lemma sync_twin_transactions_raise_witness :
  let r :=
    AkahuRouter.sync_akahu_account Fixtures.world_two_coffees "acc_1" 30 true
      (Db.open_session Sample.db Sample.clock) in
  Db.akahu_accounts Sample.db !! "acc_1" = Some Sample.account
  /\ World.get_account_transactions Fixtures.world_two_coffees "acc_1" 30
     = Py.Return [Sample.coffee; Fixtures.second_coffee]
  /\ AkahuTransaction.id Sample.coffee <> AkahuTransaction.id Fixtures.second_coffee
  /\ fst r = Py.Raise Db.IntegrityError
  /\ Db.committed (snd r) = Sample.db.
Proof.
  intros r.
  split; [reflexivity|]. split; [reflexivity|]. split; [discriminate|].
  apply (sync_twin_transactions_raise Fixtures.world_two_coffees "acc_1" 30 true
           Sample.db Sample.clock Sample.account
           [Sample.coffee; Fixtures.second_coffee]
           (YNABImportResult.mk
              ["id-YNAB:-12500:2024-01-15:1"; "id-YNAB:-12500:2024-01-15:2"] [])
           0 1 Sample.coffee Fixtures.second_coffee);
    try reflexivity; vm_compute; lia.
Defined.
